(** * acd_cli: the node cache synchroniser ([acdcli/cache/sync.py])

    A shallow embedding of the functions that keep the local sqlite mirror of
    the remote node tree up to date: the checkpoint store, the staleness
    estimate, the purge handler, the dispatcher and the two upserters with
    their rewrite of the parentage table.

    The Python code works on one global SQLAlchemy session and one engine.
    Here the database and the log are an explicit [World]; every function of
    the module is a computation in a state-and-exception monad over it. *)

From Stdlib Require Import ZArith.
From stdpp Require Import gmap strings list fin_maps pretty.

#[local] Set Warnings "-clear-no-such-hyp".

Open Scope string_scope.
Open Scope list_scope.

(** ** Values *)

(** A [datetime] is a naive UTC instant, counted in microseconds. *)
Abbreviation instant := Z (only parsing).

(** [timedelta(days=1)], in microseconds. *)
Definition one_day : positive := 86400000000%positive.

(** The exceptions that travel through this module.  [KeyError] carries the
    missing key; [ValueError] is what both timestamp parsers raise on a
    malformed string; [IntegrityError] and [OtherError] come from the storage
    layer. *)
Inductive exn :=
| KeyError (key : string)
| ValueError
| IntegrityError
| OtherError (name : string).

#[global] Instance exn_eq_dec : EqDecision exn.
Proof. solve_decision. Defined.

Definition is_KeyError (e : exn) : bool :=
  match e with KeyError _ => true | _ => false end.

(** A finite [float], a double: the number [significand * 2 ^ exponent].
    What the division below returns, when it is not zero, has a significand
    of 53 bits: between [2 ^ 52] and [2 ^ 53] in absolute value. *)
Record float := { significand : Z; exponent : Z }.

#[global] Instance float_eq_dec : EqDecision float.
Proof. solve_decision. Defined.

(** A number as [max_age] returns it: an int, or a float. *)
Inductive number :=
| Int (z : Z)
| Float (x : float).

(** [n / d] rounded to the nearest integer, half to even; [n] is not
    negative and [d] is positive. *)
Definition round_half_even (n d : Z) : Z :=
  let q := (n / d)%Z in
  let r := (n mod d)%Z in
  if (2 * r <? d)%Z then q
  else if (d <? 2 * r)%Z then (q + 1)%Z
  else if Z.even q then q else (q + 1)%Z.

(** Numerator and denominator of [(a / b) / 2 ^ e]. *)
Definition scaled (a b e : Z) : Z * Z :=
  if (0 <=? e)%Z then (a, (b * 2 ^ e)%Z) else ((a * 2 ^ (- e))%Z, b).

(** [a / b] on two ints, [b] positive: the double nearest to the exact
    quotient, ties to even.  The exponent [e] is chosen so that the quotient
    has 53 bits before the binary point when counted in units of [2 ^ e];
    the sign goes to the significand.  The instants of two [datetime]s are
    less than [2 ^ 59] microseconds apart, so that the quotient of their
    distance by a day stays far from the overflow and from the subnormal
    range; the exponent is therefore not bounded here. *)
Definition true_div (a : Z) (b : positive) : float :=
  if (a =? 0)%Z then {| significand := 0; exponent := 0 |}
  else
    let e0 := (Z.log2 (Z.abs a) - Z.log2 (Z.pos b) - 52)%Z in
    let '(n0, d0) := scaled (Z.abs a) (Z.pos b) e0 in
    let e := if (n0 <? 2 ^ 52 * d0)%Z then (e0 - 1)%Z else e0 in
    let '(n, d) := scaled (Z.abs a) (Z.pos b) e in
    {| significand := (Z.sgn a * round_half_even n d)%Z; exponent := e |}.

(** The [contentProperties] block of a raw FILE node: a dict whose keys may
    be missing. *)
Record ContentProperties := {
  cp_md5 : option string;
  cp_size : option Z;
}.

#[global] Instance ContentProperties_eq_dec : EqDecision ContentProperties.
Proof. solve_decision. Defined.

(** A raw node as the API client hands it over: a dict.  Each key the module
    reads is a field, [None] when the dict has no such key. *)
Record RawNode := {
  raw_id : option string;
  raw_kind : option string;
  raw_status : option string;
  raw_name : option string;
  raw_createdDate : option string;
  raw_modifiedDate : option string;
  raw_parents : option (list string);
  raw_contentProperties : option ContentProperties;
}.

#[global] Instance RawNode_eq_dec : EqDecision RawNode.
Proof. solve_decision. Defined.

(** ** The tables *)

(** Modelled from the spec: the mapped classes [db.Folder], [db.File] and
    [db.Metadate] and the tables behind them live in [acdcli/cache/db.py],
    which is not part of the sources at hand.  The rows carry the fields of
    the data model: id, optional name, the two remote timestamps, the status
    and the local [updated] instant; a file adds checksum and size. *)
Record Folder := {
  folder_id : string;
  folder_name : option string;
  folder_created : instant;
  folder_modified : instant;
  folder_status : string;
  folder_updated : instant;
}.

Record File := {
  file_id : string;
  file_name : option string;
  file_created : instant;
  file_modified : instant;
  file_md5 : string;
  file_size : Z;
  file_status : string;
  file_updated : instant;
}.

#[global] Instance Folder_eq_dec : EqDecision Folder.
Proof. solve_decision. Defined.

#[global] Instance File_eq_dec : EqDecision File.
Proof. solve_decision. Defined.

(** Modelled from the spec: [__eq__] of the mapped classes is declared in the
    missing [db.py].  Two rows are equal when all content fields match; the
    local [updated] instant takes no part in the comparison. *)
Definition Folder_eq (f ef : Folder) : bool :=
  bool_decide (folder_id f = folder_id ef)
  && bool_decide (folder_name f = folder_name ef)
  && bool_decide (folder_created f = folder_created ef)
  && bool_decide (folder_modified f = folder_modified ef)
  && bool_decide (folder_status f = folder_status ef).

Definition File_eq (f ef : File) : bool :=
  bool_decide (file_id f = file_id ef)
  && bool_decide (file_name f = file_name ef)
  && bool_decide (file_created f = file_created ef)
  && bool_decide (file_modified f = file_modified ef)
  && bool_decide (file_md5 f = file_md5 ef)
  && bool_decide (file_size f = file_size ef)
  && bool_decide (file_status f = file_status ef).

(** What a query for [db.Node] yields: a row of either concrete kind. *)
Inductive Node :=
| NodeFolder (f : Folder)
| NodeFile (f : File).

(** Modelled from the spec: the persisted state is a folder table and a file
    table, each keyed by id, and a metadata table keyed by its key. *)
Record Tables := {
  tbl_folders : gmap string Folder;
  tbl_files : gmap string File;
  tbl_metadata : gmap string string;
}.

#[global] Instance Tables_eq_dec : EqDecision Tables.
Proof. solve_decision. Defined.

Definition empty_tables : Tables :=
  {| tbl_folders := ∅; tbl_files := ∅; tbl_metadata := ∅ |}.

(** ** The log *)

Inductive level := DEBUG | INFO | WARNING | ERROR.

#[global] Instance level_eq_dec : EqDecision level.
Proof. solve_decision. Defined.

(** [logger.debug(folder)] logs the raw dict itself, every other call a
    formatted string. *)
Inductive LogMsg :=
| Text (s : string)
| Repr (r : RawNode).

#[global] Instance LogMsg_eq_dec : EqDecision LogMsg.
Proof. solve_decision. Defined.

Definition LogRecord : Type := level * LogMsg.

(** ** The world *)

(** [session] is what a query through [db.session] sees: the committed rows
    overlaid with the changes pending in the session.  [committed] is what the
    database holds.  The parentage table is only ever written through a
    separate engine connection, each time in a transaction of its own; it is a
    set of (parent, child) rows, the pair being the table's key.  [ticks]
    counts the readings of the clock and [commits] the commits the session has
    attempted. *)
Record World := {
  committed : Tables;
  session : Tables;
  parentage : gset (string * string);
  log : list LogRecord;
  ticks : nat;
  commits : nat;
}.

#[global] Instance World_eq_dec : EqDecision World.
Proof. solve_decision. Defined.

Definition set_session (t : Tables) (w : World) : World :=
  {| committed := committed w; session := t; parentage := parentage w;
     log := log w; ticks := ticks w; commits := commits w |}.

Definition set_committed (t : Tables) (w : World) : World :=
  {| committed := t; session := session w; parentage := parentage w;
     log := log w; ticks := ticks w; commits := commits w |}.

Definition set_parentage (p : gset (string * string)) (w : World) : World :=
  {| committed := committed w; session := session w; parentage := p;
     log := log w; ticks := ticks w; commits := commits w |}.

Definition set_log (l : list LogRecord) (w : World) : World :=
  {| committed := committed w; session := session w; parentage := parentage w;
     log := l; ticks := ticks w; commits := commits w |}.

Definition set_ticks (n : nat) (w : World) : World :=
  {| committed := committed w; session := session w; parentage := parentage w;
     log := log w; ticks := n; commits := commits w |}.

Definition set_commits (n : nat) (w : World) : World :=
  {| committed := committed w; session := session w; parentage := parentage w;
     log := log w; ticks := ticks w; commits := n |}.

Definition set_folders (m : gmap string Folder) (t : Tables) : Tables :=
  {| tbl_folders := m; tbl_files := tbl_files t; tbl_metadata := tbl_metadata t |}.

Definition set_files (m : gmap string File) (t : Tables) : Tables :=
  {| tbl_folders := tbl_folders t; tbl_files := m; tbl_metadata := tbl_metadata t |}.

Definition set_metadata (m : gmap string string) (t : Tables) : Tables :=
  {| tbl_folders := tbl_folders t; tbl_files := tbl_files t; tbl_metadata := m |}.

(** A world with nothing stored, nothing pending and nothing logged. *)
Definition empty_world : World :=
  {| committed := empty_tables; session := empty_tables; parentage := ∅;
     log := []; ticks := 0; commits := 0 |}.

(** ** What the module takes from outside

    - [iso_date_parse]: [dateutil.parser.parse], or the [strptime] fallback;
      [None] stands for the [ValueError] of a malformed string.
    - [clock]: the successive readings of [datetime.utcnow()].
    - [commit_fault]: what the storage layer does at the n-th
      [db.session.commit()]: [None] when the commit goes through, the
      exception it raises otherwise.
    - [flush_conflict stored pending]: the rows the session holds pending
      ([pending] is the session's view, [stored] what the database holds)
      already carry what the storage layer fails the current transaction
      for, so that a flush before the commit raises as well. *)
Class Environment := {
  iso_date_parse : string → option instant;
  clock : nat → instant;
  commit_fault : nat → option exn;
  flush_conflict : Tables → Tables → bool;
}.

(** ** The monad *)

Inductive outcome (A : Type) :=
| Return (a : A)
| Raise (e : exn).
Arguments Return {A} a.
Arguments Raise {A} e.

#[global] Instance outcome_eq_dec `{EqDecision A} : EqDecision (outcome A).
Proof. solve_decision. Defined.

Definition M (A : Type) : Type := World → World * outcome A.

Definition ret {A} (a : A) : M A := λ w, (w, Return a).

Definition raise {A} (e : exn) : M A := λ w, (w, Raise e).

Definition bind {A B} (m : M A) (k : A → M B) : M B :=
  λ w, match m w with
       | (w', Return a) => k a w'
       | (w', Raise e) => (w', Raise e)
       end.

Declare Scope py_scope.
Delimit Scope py_scope with py.
Notation "x ← y ; z" := (bind y (λ x, z))
  (at level 20, y at level 100, z at level 200, only parsing) : py_scope.
Notation "' x ← y ; z" := (bind y (λ x, z))
  (at level 20, x pattern, y at level 100, z at level 200, only parsing) : py_scope.
Notation "x ;; z" := (bind x (λ _, z))
  (at level 100, z at level 200, only parsing, right associativity) : py_scope.
Open Scope py_scope.

(** [try: body except <handles>: handler] *)
Definition try_except {A} (body : M A) (handles : exn → bool) (handler : M A) : M A :=
  λ w, match body w with
       | (w', Return a) => (w', Return a)
       | (w', Raise e) => if handles e then handler w' else (w', Raise e)
       end.

(** [for x in l: acc = body x acc] *)
Fixpoint for_each {A S} (l : list A) (body : A → S → M S) (acc : S) : M S :=
  match l with
  | [] => ret acc
  | x :: l' => acc' ← body x acc; for_each l' body acc'
  end.

(** [if c: m] *)
Definition when (c : bool) (m : M unit) : M unit :=
  if c then m else ret tt.

(** [d[key]] on a dict: the value, or [KeyError]. *)
Definition subscript {A} (key : string) (v : option A) : M A :=
  match v with
  | Some a => ret a
  | None => raise (KeyError key)
  end.

Definition logger (lvl : level) (msg : LogMsg) : M unit :=
  λ w, (set_log (log w ++ [(lvl, msg)]) w, Return tt).

Definition get_session : M Tables := λ w, (w, Return (session w)).

Definition put_session (t : Tables) : M unit := λ w, (set_session t w, Return tt).

(** [db.session.rollback()]: the pending changes are dropped. *)
Definition session_rollback : M unit :=
  λ w, (set_session (committed w) w, Return tt).

(** The double quote, for the messages that quote a kind. *)
Definition dquote : string := String (Ascii.ascii_of_nat 34) EmptyString.

Section Sync.
Context `{Environment}.

Definition utcnow : M instant :=
  λ w, (set_ticks (S (ticks w)) w, Return (clock (ticks w))).

Definition parse (str_ : string) : M instant :=
  match iso_date_parse str_ with
  | Some t => ret t
  | None => raise ValueError
  end.

(** [db.session.commit()]: the pending changes become the stored rows, unless
    the storage layer raises. *)
Definition session_commit : M unit :=
  λ w, match commit_fault (commits w) with
       | None => (set_commits (S (commits w)) (set_committed (session w) w), Return tt)
       | Some e => (set_commits (S (commits w)) w, Raise e)
       end.

(** What a flush of the pending rows raises, if anything.  Nothing is
    flushed when nothing is pending; a transaction the storage layer lets
    through has no failing flush; a transaction it fails with [e] fails at the
    first flush that carries the offending rows, at the commit at the
    latest. *)
Definition flush_fault (w : World) : option exn :=
  match commit_fault (commits w) with
  | Some e =>
      if bool_decide (session w ≠ committed w)
         && flush_conflict (committed w) (session w)
      then Some e else None
  | None => None
  end.

(** The session flushes before every query (autoflush); [add], [delete] and
    [merge] flush nothing.  In the loops of the upserters the query is
    outside the [try] around the commit. *)
Definition autoflush : M unit :=
  λ w, match flush_fault w with
       | Some e => (w, Raise e)
       | None => (w, Return tt)
       end.

Definition _CHECKPOINT_KEY : string := "checkpoint".

(** [query(db.Metadate).filter_by(key=_CHECKPOINT_KEY).first()], then
    [cp.value if cp else None]. *)
Definition get_checkpoint : M (option string) :=
  autoflush;;
  s ← get_session;
  ret (tbl_metadata s !! _CHECKPOINT_KEY).

(** [merge] updates the row with the object's primary key, or adds it. *)
Definition set_checkpoint (cp : string) : M unit :=
  s ← get_session;
  put_session (set_metadata (<[_CHECKPOINT_KEY := cp]> (tbl_metadata s)) s);;
  session_commit.

(** The column [db.Node.updated], over the rows of both kinds. *)
Definition updated_column (t : Tables) : list instant :=
  (folder_updated <$> (map_to_list (tbl_folders t)).*2)
  ++ (file_updated <$> (map_to_list (tbl_files t)).*2).

(** SQL [max]: NULL, here [None], over no rows. *)
Definition sql_max (col : list instant) : option instant :=
  foldr (λ x acc, Some (from_option (Z.max x) x acc)) None col.

(** The quotient of two [timedelta]s is the true division of their
    microsecond counts, two ints: a float.  With no row the function returns
    the int [0].  A [datetime] is never falsy, so [not oldest] holds for
    [None] only. *)
Definition max_age : M number :=
  autoflush;;
  s ← get_session;
  match sql_max (updated_column s) with
  | None => ret (Int 0)
  | Some oldest =>
      now ← utcnow;
      ret (Float (true_div (now - oldest) one_day))
  end.

(** [query(db.Node).filter_by(id=p_id).first()].  A node row is a folder row
    or a file row; which of the two comes first only matters for an id that
    is in both tables. *)
Definition query_node (p_id : string) : M (option Node) :=
  autoflush;;
  s ← get_session;
  ret (match tbl_folders s !! p_id with
        | Some f => Some (NodeFolder f)
        | None => NodeFile <$> tbl_files s !! p_id
        end).

(** [query(db.Folder).filter_by(id=...).first()] and the same for
    [db.File], in the loops of the upserters: the rows pending from earlier
    rounds are flushed first. *)
Definition query_folder (id : string) : M (option Folder) :=
  autoflush;; s ← get_session; ret (tbl_folders s !! id).

Definition query_file (id : string) : M (option File) :=
  autoflush;; s ← get_session; ret (tbl_files s !! id).

(** [db.session.delete]: the row with the object's primary key goes. *)
Definition session_delete (n : Node) : M unit :=
  s ← get_session;
  match n with
  | NodeFolder f => put_session (set_folders (delete (folder_id f) (tbl_folders s)) s)
  | NodeFile f => put_session (set_files (delete (file_id f) (tbl_files s)) s)
  end.

(** [db.session.add] and [db.session.merge]: both leave the object's state
    in the row of its primary key. *)
Definition session_add_folder (f : Folder) : M unit :=
  s ← get_session;
  put_session (set_folders (<[folder_id f := f]> (tbl_folders s)) s).

Definition session_merge_folder (f : Folder) : M unit :=
  s ← get_session;
  put_session (set_folders (<[folder_id f := f]> (tbl_folders s)) s).

Definition session_add_file (f : File) : M unit :=
  s ← get_session;
  put_session (set_files (<[file_id f := f]> (tbl_files s)) s).

Definition remove_purged (purged : list string) : M unit :=
  for_each purged (λ p_id _,
    n ← query_node p_id;
    match n with
    | Some n => session_delete n
    | None => ret tt
    end) tt;;
  session_commit;;
  logger INFO (Text ("Purged " +:+ pretty (length purged) +:+ " nodes.")).

(** *** The rewrite of the parentage table

    The last eight lines of [insert_folders] and of [insert_files] are the
    same: a transaction on a connection of its own that first deletes the
    rows of every child of the batch and then inserts a row for every parent
    of every pair. *)
Definition sql_delete_child (child : string) (tx : gset (string * string))
  : gset (string * string) :=
  filter (λ row, row.2 ≠ child) tx.

Definition sql_insert_or_ignore (row : string * string) (tx : gset (string * string))
  : gset (string * string) :=
  {[ row ]} ∪ tx.

Definition conn_begin : M (gset (string * string)) := λ w, (w, Return (parentage w)).

Definition trans_commit (tx : gset (string * string)) : M unit :=
  λ w, (set_parentage tx w, Return tt).

Definition insert_pairs (parent_pairs : list (string * list string))
    (tx : gset (string * string)) : gset (string * string) :=
  foldl (λ tx rel, foldl (λ tx p, sql_insert_or_ignore (p, rel.1) tx) tx rel.2)
        tx parent_pairs.

Definition rewrite_parentage (nodes : list RawNode)
    (parent_pairs : list (string * list string)) : M unit :=
  tx ← conn_begin;
  tx ← for_each nodes (λ f tx,
         id ← subscript "id" (raw_id f);
         ret (sql_delete_child id tx)) tx;
  trans_commit (insert_pairs parent_pairs tx).

(** *** Folders *)

(** The counters and the pairs the loop builds: [ins], [dup], [upd] and
    [parent_pairs]. *)
Definition tally : Type := nat * nat * nat * list (string * list string).

Definition insert_folders_body (folder : RawNode) (acc : tally) : M tally :=
  let '(ins, dup, upd, parent_pairs) := acc in
  logger DEBUG (Repr folder);;
  (* root folder has no name key *)
  let f_name := raw_name folder in
  id ← subscript "id" (raw_id folder);
  createdDate ← subscript "createdDate" (raw_createdDate folder);
  created ← parse createdDate;
  modifiedDate ← subscript "modifiedDate" (raw_modifiedDate folder);
  modified ← parse modifiedDate;
  status ← subscript "status" (raw_status folder);
  ef ← query_folder id;
  now ← utcnow;
  let f := {| folder_id := id; folder_name := f_name; folder_created := created;
              folder_modified := modified; folder_status := status;
              folder_updated := now |} in
  '(ins, dup, upd) ←
    match ef with
    | None => session_add_folder f;; ret (S ins, dup, upd)
    | Some ef =>
        let '(dup, upd) := if Folder_eq f ef then (S dup, upd) else (dup, S upd) in
        (* this should keep the children intact *)
        session_merge_folder f;; ret (ins, dup, upd)
    end;
  parents ← subscript "parents" (raw_parents folder);
  ret (ins, dup, upd, parent_pairs ++ [(folder_id f, parents)]).

Definition insert_folders (folders : list RawNode) : M unit :=
  let dtd := 0%nat in
  '(ins, dup, upd, parent_pairs) ← for_each folders insert_folders_body (0, 0, 0, []);
  try_except session_commit
    (λ e, bool_decide (e = IntegrityError))
    (logger WARNING (Text "Error inserting folders.");; session_rollback);;
  when (0 <? ins)%nat (logger INFO (Text (pretty ins +:+ " folder(s) inserted.")));;
  when (0 <? dup)%nat (logger INFO (Text (pretty dup +:+ " duplicate folders not inserted.")));;
  when (0 <? upd)%nat (logger INFO (Text (pretty upd +:+ " folder(s) updated.")));;
  when (0 <? dtd)%nat (logger INFO (Text (pretty dtd +:+ " folder(s) deleted.")));;
  rewrite_parentage folders parent_pairs.

(** *** Files *)

Definition empty_md5 : string := "d41d8cd98f00b204e9800998ecf8427e".

Definition insert_files_body (file : RawNode) (acc : tally) : M tally :=
  let '(ins, dup, upd, parent_pairs) := acc in
  props ← try_except (subscript "contentProperties" (raw_contentProperties file))
             is_KeyError
             (* empty files *)
             (ret {| cp_md5 := Some empty_md5; cp_size := Some 0%Z |});
  id ← subscript "id" (raw_id file);
  name ← subscript "name" (raw_name file);
  createdDate ← subscript "createdDate" (raw_createdDate file);
  created ← parse createdDate;
  modifiedDate ← subscript "modifiedDate" (raw_modifiedDate file);
  modified ← parse modifiedDate;
  md5 ← subscript "md5" (cp_md5 props);
  size ← subscript "size" (cp_size props);
  status ← subscript "status" (raw_status file);
  ef ← query_file id;
  now ← utcnow;
  let f := {| file_id := id; file_name := Some name; file_created := created;
              file_modified := modified; file_md5 := md5; file_size := size;
              file_status := status; file_updated := now |} in
  '(ins, dup, upd) ←
    match ef with
    | None => session_add_file f;; ret (S ins, dup, upd)
    | Some ef =>
        let '(dup, upd) := if File_eq f ef then (S dup, upd) else (dup, S upd) in
        session_delete (NodeFile ef);;
        session_add_file f;; ret (ins, dup, upd)
    end;
  parents ← subscript "parents" (raw_parents file);
  ret (ins, dup, upd, parent_pairs ++ [(file_id f, parents)]).

(** file movement is detected by updated modifiedDate *)
Definition insert_files (files : list RawNode) : M unit :=
  let dtd := 0%nat in
  '(ins, dup, upd, parent_pairs) ← for_each files insert_files_body (0, 0, 0, []);
  try_except session_commit
    (λ e, bool_decide (e = ValueError))
    (logger ERROR (Text "Error inserting files.");; session_rollback);;
  when (0 <? ins)%nat (logger INFO (Text (pretty ins +:+ " file(s) inserted.")));;
  when (0 <? upd)%nat (logger INFO (Text (pretty upd +:+ " file(s) updated.")));;
  when (0 <? dup)%nat (logger INFO (Text (pretty dup +:+ " duplicate files not inserted.")));;
  when (0 <? dtd)%nat (logger INFO (Text (pretty dtd +:+ " file(s) deleted.")));;
  rewrite_parentage files parent_pairs.

(** *** The dispatcher *)

Definition unknown_kind (kind : string) : LogMsg :=
  Text ("Cannot insert unknown node type " +:+ dquote +:+ kind +:+ dquote +:+ ".").

Definition insert_nodes_body (node : RawNode) (acc : list RawNode * list RawNode)
  : M (list RawNode * list RawNode) :=
  let '(files, folders) := acc in
  status ← subscript "status" (raw_status node);
  if bool_decide (status = "PENDING") then ret (files, folders) else
  kind ← subscript "kind" (raw_kind node);
  if bool_decide (kind = "FILE") then ret (files ++ [node], folders)
  else if bool_decide (kind = "FOLDER") then ret (files, folders ++ [node])
  else if bool_decide (kind ≠ "ASSET") then
    logger WARNING (unknown_kind kind);; ret (files, folders)
  else ret (files, folders).

(** Inserts mixed list of files and folders into cache. *)
Definition insert_nodes (nodes : list RawNode) : M unit :=
  '(files, folders) ← for_each nodes insert_nodes_body ([], []);
  insert_folders folders;;
  insert_files files.

(** The truth value of a dict: false when it is empty. *)
Definition truth (node : RawNode) : bool :=
  bool_decide (node ≠ {| raw_id := None; raw_kind := None; raw_status := None;
                         raw_name := None; raw_createdDate := None;
                         raw_modifiedDate := None; raw_parents := None;
                         raw_contentProperties := None |}).

(** Inserts single file or folder into cache. *)
Definition insert_node (node : RawNode) : M unit :=
  when (negb (truth node)) (ret tt);; (* pass *)
  kind ← subscript "kind" (raw_kind node);
  if bool_decide (kind = "FILE") then insert_files [node]
  else if bool_decide (kind = "FOLDER") then insert_folders [node]
  else if bool_decide (kind ≠ "ASSET") then logger WARNING (unknown_kind kind)
  else ret tt.

End Sync.

(** ** Sample data

    A parser that knows two timestamps, a clock that starts after them and
    advances one second per reading, a storage layer that never fails and one
    that fails every commit with the given exception, at the commit itself;
    a few raw nodes. *)

Definition sample_parse (s : string) : option instant :=
  if bool_decide (s = "2015-03-01T10:00:00.000Z") then Some 1425204000000000%Z
  else if bool_decide (s = "2015-03-02T10:00:00.000Z") then Some 1425290400000000%Z
  else None.

Definition sample_clock (n : nat) : instant :=
  (1425300000000000 + Z.of_nat n * 1000000)%Z.

Definition sound_env : Environment :=
  {| iso_date_parse := sample_parse; clock := sample_clock;
     commit_fault := λ _, None; flush_conflict := λ _ _, false |}.

Definition faulty_env (e : exn) : Environment :=
  {| iso_date_parse := sample_parse; clock := sample_clock;
     commit_fault := λ _, Some e; flush_conflict := λ _ _, false |}.

Definition raw (id kind status : string) (name : option string)
    (parents : list string) (props : option ContentProperties) : RawNode :=
  {| raw_id := Some id; raw_kind := Some kind; raw_status := Some status;
     raw_name := name;
     raw_createdDate := Some "2015-03-01T10:00:00.000Z";
     raw_modifiedDate := Some "2015-03-02T10:00:00.000Z";
     raw_parents := Some parents; raw_contentProperties := props |}.

Definition sample_folder : RawNode :=
  raw "F1" "FOLDER" "AVAILABLE" (Some "docs") ["ROOT"] None.

Definition sample_file : RawNode :=
  raw "f1" "FILE" "AVAILABLE" (Some "a.txt") ["F1"]
      (Some {| cp_md5 := Some "0cc175b9c0f1b6a831c399e269772661"; cp_size := Some 1%Z |}).

Definition sample_empty_file : RawNode :=
  raw "f2" "FILE" "AVAILABLE" (Some "empty") ["F1"] None.

(** The folder of [sample_folder] once more, under another parent. *)
Definition sample_folder_moved : RawNode :=
  raw "F1" "FOLDER" "AVAILABLE" (Some "docs") ["ELSEWHERE"] None.

Definition sample_pending_file : RawNode :=
  raw "f3" "FILE" "PENDING" (Some "upload.part") ["F1"] None.

Definition sample_pending_folder : RawNode :=
  raw "F2" "FOLDER" "PENDING" (Some "new") ["ROOT"] None.

Definition sample_asset : RawNode :=
  raw "a1" "ASSET" "AVAILABLE" (Some "thumb") ["f1"] None.

Definition sample_widget : RawNode :=
  raw "x1" "WIDGET" "AVAILABLE" (Some "gizmo") ["ROOT"] None.

(** A file without the [name] key, a file whose [contentProperties] lack
    [md5], and the root folder, which has no name. *)
Definition sample_nameless_file : RawNode :=
  raw "f4" "FILE" "AVAILABLE" None ["F1"] None.

Definition sample_no_md5_file : RawNode :=
  raw "f5" "FILE" "AVAILABLE" (Some "b.txt") ["F1"]
      (Some {| cp_md5 := None; cp_size := Some 5%Z |}).

Definition sample_root : RawNode :=
  raw "ROOT" "FOLDER" "AVAILABLE" None [] None.

(** A folder under the id of the file of [sample_world], and a file under the
    id of its folder. *)
Definition sample_clash_folder : RawNode :=
  raw "f1" "FOLDER" "AVAILABLE" (Some "clash") ["ROOT"] None.


(** A folder and a file without the [parents] key, and a record without
    [id]. *)
Definition sample_orphan_folder : RawNode :=
  {| raw_id := Some "F9"; raw_kind := Some "FOLDER"; raw_status := Some "AVAILABLE";
     raw_name := Some "lost";
     raw_createdDate := Some "2015-03-01T10:00:00.000Z";
     raw_modifiedDate := Some "2015-03-02T10:00:00.000Z";
     raw_parents := None; raw_contentProperties := None |}.

Definition sample_orphan_file : RawNode :=
  {| raw_id := Some "f9"; raw_kind := Some "FILE"; raw_status := Some "AVAILABLE";
     raw_name := Some "lost.txt";
     raw_createdDate := Some "2015-03-01T10:00:00.000Z";
     raw_modifiedDate := Some "2015-03-02T10:00:00.000Z";
     raw_parents := None; raw_contentProperties := None |}.

Definition sample_anonymous : RawNode :=
  {| raw_id := None; raw_kind := Some "FOLDER"; raw_status := Some "AVAILABLE";
     raw_name := Some "x"; raw_createdDate := None; raw_modifiedDate := None;
     raw_parents := Some []; raw_contentProperties := None |}.

(** The empty dict. *)
Definition empty_dict : RawNode :=
  {| raw_id := None; raw_kind := None; raw_status := None; raw_name := None;
     raw_createdDate := None; raw_modifiedDate := None; raw_parents := None;
     raw_contentProperties := None |}.

(** A record without the [status] key. *)
Definition sample_statusless : RawNode :=
  {| raw_id := Some "F8"; raw_kind := Some "FOLDER"; raw_status := None;
     raw_name := Some "y";
     raw_createdDate := Some "2015-03-01T10:00:00.000Z";
     raw_modifiedDate := Some "2015-03-02T10:00:00.000Z";
     raw_parents := Some ["ROOT"]; raw_contentProperties := None |}.

Definition sample_checkpoint_world : World :=
  set_session (set_metadata {[ "checkpoint" := "OLD" ]} empty_tables) empty_world.

Definition sample_folder_row : Folder :=
  {| folder_id := "F1"; folder_name := Some "docs";
     folder_created := 1425204000000000; folder_modified := 1425290400000000;
     folder_status := "AVAILABLE"; folder_updated := 1425299000000000 |}.

Definition sample_file_row : File :=
  {| file_id := "f1"; file_name := Some "a.txt";
     file_created := 1425204000000000; file_modified := 1425290400000000;
     file_md5 := "0cc175b9c0f1b6a831c399e269772661"; file_size := 1;
     file_status := "AVAILABLE"; file_updated := 1425299500000000 |}.

Definition sample_tables : Tables :=
  {| tbl_folders := {[ "F1" := sample_folder_row ]};
     tbl_files := {[ "f1" := sample_file_row ]};
     tbl_metadata := ∅ |}.

(** A store with one folder and one file, and no change pending. *)
Definition sample_world : World :=
  {| committed := sample_tables; session := sample_tables;
     parentage := {[ ("OLD", "F1"); ("F1", "f1") ]};
     log := []; ticks := 0; commits := 0 |}.

(** ** What a record describes

    The row a raw folder or file stands for, the pair it contributes to the
    rewrite of the parentage table, and the messages an upserter logs for
    given counters.  The theorems relate the code to these. *)

Section Rows.
Context `{Environment}.

Definition folder_row (r : RawNode) (now : instant) : option Folder :=
  match raw_id r, raw_createdDate r ≫= iso_date_parse,
        raw_modifiedDate r ≫= iso_date_parse, raw_status r with
  | Some id, Some created, Some modified, Some status =>
      Some {| folder_id := id; folder_name := raw_name r; folder_created := created;
              folder_modified := modified; folder_status := status;
              folder_updated := now |}
  | _, _, _, _ => None
  end.

Definition file_row (r : RawNode) (now : instant) : option File :=
  let props := default {| cp_md5 := Some empty_md5; cp_size := Some 0%Z |}
                       (raw_contentProperties r) in
  match raw_id r, raw_name r, raw_createdDate r ≫= iso_date_parse,
        raw_modifiedDate r ≫= iso_date_parse, cp_md5 props, cp_size props,
        raw_status r with
  | Some id, Some name, Some created, Some modified, Some md5, Some size, Some status =>
      Some {| file_id := id; file_name := Some name; file_created := created;
              file_modified := modified; file_md5 := md5; file_size := size;
              file_status := status; file_updated := now |}
  | _, _, _, _, _, _, _ => None
  end.

(** A record an upserter can process: all it reads is there and parses. *)
Definition valid_folder (r : RawNode) : Prop :=
  is_Some (folder_row r 0) ∧ is_Some (raw_parents r).

Definition valid_file (r : RawNode) : Prop :=
  is_Some (file_row r 0) ∧ is_Some (raw_parents r).

(** The timestamps the record carries are well-formed. *)
Definition timestamps_parse (r : RawNode) : Prop :=
  from_option (λ s, is_Some (iso_date_parse s)) True (raw_createdDate r)
  ∧ from_option (λ s, is_Some (iso_date_parse s)) True (raw_modifiedDate r).

#[global] Instance timestamps_parse_dec r : Decision (timestamps_parse r).
Proof.
  unfold timestamps_parse.
  destruct (raw_createdDate r), (raw_modifiedDate r); simpl; apply _.
Defined.

#[global] Instance valid_folder_dec r : Decision (valid_folder r).
Proof. unfold valid_folder. apply _. Defined.

#[global] Instance valid_file_dec r : Decision (valid_file r).
Proof. unfold valid_file. apply _. Defined.

End Rows.

Definition parent_pair (r : RawNode) : option (string * list string) :=
  match raw_id r, raw_parents r with
  | Some id, Some parents => Some (id, parents)
  | _, _ => None
  end.

Definition delete_children (children : list string) (tx : gset (string * string))
  : gset (string * string) :=
  foldl (λ tx child, sql_delete_child child tx) tx children.

(** All the parents the records of a batch give for one child. *)
Definition parents_in_batch (child : string) (batch : list RawNode) : list string :=
  concat (map (λ r, if bool_decide (raw_id r = Some child)
                    then default [] (raw_parents r) else []) batch).

(** The rows of the parentage table for one child. *)
Definition edges_of (child : string) (tx : gset (string * string))
  : gset (string * string) :=
  filter (λ row, row.2 = child) tx.

Definition folder_messages (ins dup upd : nat) : list LogRecord :=
  (if (0 <? ins)%nat then [(INFO, Text (pretty ins +:+ " folder(s) inserted."))] else [])
  ++ (if (0 <? dup)%nat then [(INFO, Text (pretty dup +:+ " duplicate folders not inserted."))] else [])
  ++ (if (0 <? upd)%nat then [(INFO, Text (pretty upd +:+ " folder(s) updated."))] else []).

Definition file_messages (ins dup upd : nat) : list LogRecord :=
  (if (0 <? ins)%nat then [(INFO, Text (pretty ins +:+ " file(s) inserted."))] else [])
  ++ (if (0 <? upd)%nat then [(INFO, Text (pretty upd +:+ " file(s) updated."))] else [])
  ++ (if (0 <? dup)%nat then [(INFO, Text (pretty dup +:+ " duplicate files not inserted."))] else []).

(** The counters after one more record whose row is [f], [ef] being the row
    found under its id. *)
Definition count {A} (eq : A → A → bool) (f : A) (ef : option A)
    (c : nat * nat * nat) : nat * nat * nat :=
  let '(ins, dup, upd) := c in
  match ef with
  | None => (S ins, dup, upd)
  | Some ef => if eq f ef then (ins, S dup, upd) else (ins, dup, S upd)
  end.

(** The world after the rewrite of the parentage table and the messages. *)
Definition finish (pairs : list (string * list string)) (msgs : list LogRecord)
    (w : World) : World :=
  set_parentage (insert_pairs pairs (delete_children pairs.*1 (parentage w)))
    (set_log (log w ++ msgs) w).

(** *** What the dispatcher does with a record *)

(** The record is not pending and carries the given kind. *)
Definition of_kind (kind : string) (r : RawNode) : Prop :=
  raw_status r ≠ Some "PENDING" ∧ raw_kind r = Some kind.

#[global] Instance of_kind_dec kind r : Decision (of_kind kind r).
Proof. unfold of_kind. apply _. Defined.

(** The kinds the dispatcher warns about, in the order of the batch. *)
Definition unknown_kinds (nodes : list RawNode) : list string :=
  omap (λ r, if bool_decide (raw_status r = Some "PENDING") then None
             else match raw_kind r with
                  | Some kind =>
                      if bool_decide (kind ∈ ["FILE"; "FOLDER"; "ASSET"]) then None
                      else Some kind
                  | None => None
                  end) nodes.

(** The record has the keys the dispatcher reads: [status], and [kind]
    unless it is pending. *)
Definition classifiable (r : RawNode) : Prop :=
  is_Some (raw_status r)
  ∧ (raw_status r = Some "PENDING" ∨ is_Some (raw_kind r)).

#[global] Instance classifiable_dec r : Decision (classifiable r).
Proof. unfold classifiable. apply _. Defined.

(** The mixed batch of the specification's example. *)
Definition sample_mixed_batch : list RawNode :=
  [sample_pending_folder; sample_asset; sample_widget; sample_file; sample_folder].

(** ** Properties of the store *)

(** Every row is stored under its own id. *)
Definition tables_keyed (t : Tables) : Prop :=
  map_Forall (λ k f, folder_id f = k) (tbl_folders t)
  ∧ map_Forall (λ k f, file_id f = k) (tbl_files t).

#[global] Instance tables_keyed_dec t : Decision (tables_keyed t).
Proof. unfold tables_keyed. apply _. Defined.

(** No id is both a folder's and a file's. *)
Definition kinds_disjoint (t : Tables) : Prop :=
  dom (tbl_folders t) ## dom (tbl_files t).

#[global] Instance kinds_disjoint_dec t : Decision (kinds_disjoint t).
Proof. unfold kinds_disjoint. apply _. Defined.

(** A storage layer that keeps folders and files in one table of nodes: its
    transactions fail with the given exception, and a flush meets the failure
    as soon as the session holds a folder and a file of one id. *)
Definition conflicting_env (e : exn) : Environment :=
  {| iso_date_parse := sample_parse; clock := sample_clock;
     commit_fault := λ _, Some e;
     flush_conflict := λ _ s, bool_decide (¬ kinds_disjoint s) |}.

(** [t] is the [updated] instant of some stored node. *)
Definition is_updated_of (t : instant) (s : Tables) : Prop :=
  (∃ k f, tbl_folders s !! k = Some f ∧ folder_updated f = t)
  ∨ (∃ k f, tbl_files s !! k = Some f ∧ file_updated f = t).

(** [x] is a double nearest to the quotient [a / b]: counted in units of
    [2 ^ exponent x] the quotient has 53 bits before the binary point, and
    [x], a whole number of units with the sign of [a], is at most half a
    unit away from it. *)
Definition nearest_double (a : Z) (b : positive) (x : float) : Prop :=
  if (a =? 0)%Z then x = {| significand := 0; exponent := 0 |}
  else
    let '(n, d) := scaled (Z.abs a) (Z.pos b) (exponent x) in
    (2 ^ 52 * d ≤ n < 2 ^ 53 * d)%Z
    ∧ significand x = (Z.sgn a * Z.abs (significand x))%Z
    ∧ (2 * Z.abs (Z.abs (significand x) * d - n) ≤ d)%Z.

(** *** The store and the clock *)

Section StoreClock.
Context `{Environment}.

(** No flush before the commit of the current transaction can fail: the
    storage layer lets the transaction through, or what it fails it for
    only shows at the commit. *)
Definition quiet (w : World) : Prop :=
  commit_fault (commits w) = None ∨ ∀ s, flush_conflict (committed w) s = false.


(** No stored node is newer than the next reading of the clock. *)
Definition not_from_the_future (w : World) : Prop :=
  ∀ t, is_updated_of t (session w) → (t ≤ clock (ticks w))%Z.

(** The last reading of the clock is the [updated] instant of a stored node,
    and no stored node is newer. *)
Definition just_updated (w : World) : Prop :=
  is_updated_of (clock (pred (ticks w))) (session w)
  ∧ ∀ t, is_updated_of t (session w) → (t ≤ clock (pred (ticks w)))%Z.

End StoreClock.

(** ** The monad and the primitives *)

(** Reduce the projections of updated worlds and tables, and nothing else. *)
Ltac wsimpl :=
  cbn [fst snd committed session parentage log ticks commits
       set_session set_committed set_parentage set_log set_ticks set_commits
       tbl_folders tbl_files tbl_metadata set_folders set_files set_metadata].

Tactic Notation "wsimpl" "in" hyp(H) :=
  cbn [fst snd committed session parentage log ticks commits
       set_session set_committed set_parentage set_log set_ticks set_commits
       tbl_folders tbl_files tbl_metadata set_folders set_files set_metadata] in H.

(** Unfold the monad and the primitives of the session. *)
Ltac mred :=
  cbv beta iota zeta delta
    [bind ret raise subscript parse logger when try_except is_KeyError
     query_folder query_file query_node autoflush get_session put_session utcnow
     session_add_folder session_merge_folder session_add_file session_delete
     session_rollback session_commit conn_begin trans_commit].

Section Monad.

Lemma bind_Return {A B} (m : M A) (k : A → M B) w w' a :
  m w = (w', Return a) → bind m k w = k a w'.
Proof. intros Hm. unfold bind. by rewrite Hm. Qed.

Lemma bind_Raise {A B} (m : M A) (k : A → M B) w w' e :
  m w = (w', Raise e) → bind m k w = (w', Raise e).
Proof. intros Hm. unfold bind. by rewrite Hm. Qed.

Lemma bind_inv {A B} (m : M A) (k : A → M B) w w' b :
  bind m k w = (w', Return b) →
  ∃ w1 a, m w = (w1, Return a) ∧ k a w1 = (w', Return b).
Proof.
  unfold bind. destruct (m w) as [w1 [a|e]]; [eauto | discriminate].
Qed.

Lemma bind_unfold {A B} (m : M A) (k : A → M B) w :
  bind m k w = match m w with
               | (w', Return a) => k a w'
               | (w', Raise e) => (w', Raise e)
               end.
Proof. reflexivity. Qed.

Lemma for_each_cons {A S} (x : A) (l : list A) (body : A → S → M S) acc :
  for_each (x :: l) body acc = bind (body x acc) (for_each l body).
Proof. reflexivity. Qed.

Lemma for_each_singleton {A S} (x : A) (body : A → S → M S) acc w :
  for_each [x] body acc w = body x acc w.
Proof.
  cbn [for_each]. unfold bind, ret. by destruct (body x acc w) as [w' [a|e]].
Qed.

Lemma for_each_app {A S} (l1 l2 : list A) (body : A → S → M S) acc w :
  for_each (l1 ++ l2) body acc w
  = bind (for_each l1 body acc) (for_each l2 body) w.
Proof.
  revert acc w. induction l1 as [|x l1 IH]; intros acc w; simpl.
  - reflexivity.
  - unfold bind. destruct (body x acc w) as [w1 [a|e]]; [by rewrite IH | done].
Qed.

Lemma tables_eq (s t : Tables) :
  tbl_folders s = tbl_folders t → tbl_files s = tbl_files t →
  tbl_metadata s = tbl_metadata t → s = t.
Proof. destruct s, t; simpl; congruence. Qed.

Lemma world_eq (w v : World) :
  committed w = committed v → session w = session v →
  parentage w = parentage v → log w = log v →
  ticks w = ticks v → commits w = commits v → w = v.
Proof. destruct w, v; simpl; congruence. Qed.

Lemma set_session_session w : set_session (session w) w = w.
Proof. by destruct w. Qed.

Lemma set_session_twice s s' w : set_session s' (set_session s w) = set_session s' w.
Proof. done. Qed.

End Monad.

(** *** The flush before a query *)

Section Flush.
Context `{Environment}.

Lemma flush_fault_set_log (l : list LogRecord) (w : World) :
  flush_fault (set_log l w) = flush_fault w.
Proof. reflexivity. Qed.

Lemma flush_fault_frame (w w' : World) :
  commits w' = commits w → committed w' = committed w → session w' = session w →
  flush_fault w' = flush_fault w.
Proof. unfold flush_fault. by intros -> -> ->. Qed.

Lemma flush_fault_committing (w : World) :
  commit_fault (commits w) = None → flush_fault w = None.
Proof. unfold flush_fault. by intros ->. Qed.

Lemma flush_fault_quiet (w w' : World) :
  quiet w → commits w' = commits w → committed w' = committed w →
  flush_fault w' = None.
Proof.
  unfold flush_fault. intros [Hq|Hq] -> ->; [by rewrite Hq|].
  destruct (commit_fault (commits w)); [|done].
  by rewrite Hq, andb_false_r.
Qed.

Lemma flush_fault_clean (w : World) :
  session w = committed w → flush_fault w = None.
Proof.
  unfold flush_fault. intros ->. destruct (commit_fault (commits w)); [|done].
  by rewrite bool_decide_false by (intros Hne; by destruct Hne).
Qed.

Lemma flush_fault_Some (w : World) (e : exn) :
  flush_fault w = Some e → commit_fault (commits w) = Some e.
Proof.
  unfold flush_fault. destruct (commit_fault (commits w)) as [e'|]; [|done].
  by destruct (_ && _); intros [= ->].
Qed.

Lemma flush_fault_loud (w w1 : World) (e : exn) :
  commits w1 = commits w → committed w1 = committed w → flush_fault w1 = Some e →
  commit_fault (commits w) = Some e ∧ ¬ quiet w.
Proof.
  intros Hn Hc Hfl. split; [rewrite <- Hn; by apply flush_fault_Some|].
  intros Hq. by rewrite (flush_fault_quiet w w1 Hq Hn Hc) in Hfl.
Qed.

Lemma autoflush_None (w : World) :
  flush_fault w = None → autoflush w = (w, Return tt).
Proof. unfold autoflush. by intros ->. Qed.

Lemma autoflush_Some (w : World) (e : exn) :
  flush_fault w = Some e → autoflush w = (w, Raise e).
Proof. unfold autoflush. by intros ->. Qed.

End Flush.

(** ** The checkpoint store *)

Section Checkpoint.
Context `{Environment}.

Lemma set_checkpoint_commits cp w :
  commit_fault (commits w) = None →
  let s' := set_metadata (<[_CHECKPOINT_KEY := cp]> (tbl_metadata (session w))) (session w) in
  set_checkpoint cp w
  = (set_commits (S (commits w)) (set_committed s' (set_session s' w)), Return tt).
Proof.
  intros Hc. unfold set_checkpoint, bind, get_session, put_session, session_commit.
  wsimpl. by rewrite Hc.
Qed.

Lemma get_checkpoint_clean w :
  flush_fault w = None →
  get_checkpoint w = (w, Return (tbl_metadata (session w) !! _CHECKPOINT_KEY)).
Proof.
  intros Hflush. unfold get_checkpoint.
  by rewrite (bind_Return _ _ _ _ _ (autoflush_None _ Hflush)).
Qed.

(** C6: after [set_checkpoint X], [get_checkpoint] returns [X]; after a
    following [set_checkpoint Y] it returns [Y], the metadata table being the
    one of before with the checkpoint key set to [Y], so with no more rows
    than after the first call; and a repeated [set_checkpoint X] changes
    neither the stored rows, nor the session, nor the parentage table, nor
    the log.  The two commits are assumed to go through. *)
Theorem checkpoint_round_trip (X Y : string) (w : World) :
  commit_fault (commits w) = None →
  commit_fault (S (commits w)) = None →
  let w1 := (set_checkpoint X w).1 in
  let w2 := (set_checkpoint Y w1).1 in
  let w1' := (set_checkpoint X w1).1 in
  (set_checkpoint X w).2 = Return tt
  ∧ get_checkpoint w1 = (w1, Return (Some X))
  ∧ tbl_metadata (committed w1) !! _CHECKPOINT_KEY = Some X
  ∧ (set_checkpoint Y w1).2 = Return tt
  ∧ get_checkpoint w2 = (w2, Return (Some Y))
  ∧ tbl_metadata (committed w2) = <[_CHECKPOINT_KEY := Y]> (tbl_metadata (session w))
  ∧ size (tbl_metadata (committed w2)) = size (tbl_metadata (committed w1))
  ∧ (set_checkpoint X w1).2 = Return tt
  ∧ committed w1' = committed w1 ∧ session w1' = session w1
  ∧ parentage w1' = parentage w1 ∧ log w1' = log w1.
Proof.
  intros Hc1 Hc2 w1 w2 w1'.
  assert (Hw1 := set_checkpoint_commits X w Hc1). cbv zeta in Hw1.
  assert (Hc1' : commit_fault (commits w1) = None).
  { subst w1. by rewrite Hw1. }
  assert (Hw2 := set_checkpoint_commits Y w1 Hc1'). cbv zeta in Hw2.
  assert (Hw1' := set_checkpoint_commits X w1 Hc1'). cbv zeta in Hw1'.
  subst w2 w1'. rewrite Hw2, Hw1'. subst w1. rewrite Hw1. wsimpl.
  rewrite !get_checkpoint_clean by (by apply flush_fault_clean). wsimpl.
  rewrite !lookup_insert_eq, !insert_insert_eq.
  repeat split; try done.
  by rewrite !map_size_insert.
Qed.

End Checkpoint.

Lemma checkpoint_round_trip_witness :
  let w1 := (@set_checkpoint sound_env "X" sample_checkpoint_world).1 in
  let w2 := (@set_checkpoint sound_env "Y" w1).1 in
  @get_checkpoint sound_env w1 = (w1, Return (Some "X"))
  ∧ @get_checkpoint sound_env w2 = (w2, Return (Some "Y"))
  ∧ size (tbl_metadata (committed w2)) = size (tbl_metadata (committed w1)).
Proof.
  destruct (@checkpoint_round_trip sound_env "X" "Y" sample_checkpoint_world)
    as (_ & H1 & _ & _ & H2 & _ & H3 & _); [reflexivity | reflexivity |].
  exact (conj H1 (conj H2 H3)).
Defined.

(** ** The staleness estimate *)

Section Staleness.
Context `{Environment}.

Lemma sql_max_nil (col : list Z) : sql_max col = None ↔ col = [].
Proof. destruct col; simpl; split; congruence. Qed.

Lemma sql_max_Some (col : list Z) (m : Z) :
  sql_max col = Some m → m ∈ col ∧ ∀ t, t ∈ col → (t ≤ m)%Z.
Proof.
  revert m. induction col as [|x col IH]; intros m; simpl; [done|].
  destruct (sql_max col) as [y|] eqn:Hy; simpl; intros [= <-].
  - destruct (IH y eq_refl) as [Hin Hle]. split.
    + destruct (Z.max_spec x y) as [[_ ->]|[_ ->]]; set_solver.
    + intros t [->|Ht]%elem_of_cons; [lia|]. specialize (Hle t Ht). lia.
  - apply sql_max_nil in Hy as ->. split; [set_solver|].
    intros t [->|Ht]%elem_of_cons; [lia | set_solver].
Qed.

Lemma elem_of_updated_column (t : Z) (s : Tables) :
  t ∈ updated_column s ↔ is_updated_of t s.
Proof.
  unfold updated_column, is_updated_of.
  rewrite elem_of_app, !list_elem_of_fmap. split.
  - intros [(f & -> & ([k f'] & -> & Hkf)%list_elem_of_fmap)
           |(f & -> & ([k f'] & -> & Hkf)%list_elem_of_fmap)];
      apply elem_of_map_to_list in Hkf; [left | right]; eauto.
  - intros [(k & f & Hkf & <-)|(k & f & Hkf & <-)]; [left | right];
      (exists f; split; [done|]; apply list_elem_of_fmap; exists (k, f);
       split; [done|]; by apply elem_of_map_to_list).
Qed.

(** The true division of two ints gives a double nearest to their
    quotient. *)
Lemma round_half_even_spec (n d : Z) :
  (0 < d)%Z → (0 ≤ n)%Z →
  (0 ≤ round_half_even n d)%Z ∧ (2 * Z.abs (round_half_even n d * d - n) ≤ d)%Z.
Proof.
  intros Hd Hn. unfold round_half_even.
  assert (Hdiv := Z.div_mod n d ltac:(lia)).
  assert (Hmod := Z.mod_pos_bound n d Hd).
  assert (Hq : (0 ≤ n / d)%Z) by (apply Z.div_pos; lia).
  destruct (2 * (n mod d) <? d)%Z eqn:H1; [apply Z.ltb_lt in H1; split; [lia|nia]|].
  apply Z.ltb_ge in H1.
  destruct (d <? 2 * (n mod d))%Z eqn:H2; [apply Z.ltb_lt in H2; split; [lia|nia]|].
  apply Z.ltb_ge in H2.
  destruct (Z.even (n / d)); split; try lia; nia.
Qed.

Lemma scaled_first (A B : Z) :
  (0 < A)%Z → (0 < B)%Z →
  let e0 := (Z.log2 A - Z.log2 B - 52)%Z in
  (0 < (scaled A B e0).2)%Z
  ∧ (2 ^ 51 * (scaled A B e0).2 ≤ (scaled A B e0).1 < 2 ^ 53 * (scaled A B e0).2)%Z.
Proof.
  intros HA HB e0.
  destruct (Z.log2_spec A HA) as [HA1 HA2]. destruct (Z.log2_spec B HB) as [HB1 HB2].
  assert (Hla := Z.log2_nonneg A). assert (Hlb := Z.log2_nonneg B).
  unfold scaled. destruct (0 <=? e0)%Z eqn:He; cbn [fst snd].
  - apply Z.leb_le in He.
    assert (Hpe : (0 < 2 ^ e0)%Z) by (apply Z.pow_pos_nonneg; lia).
    assert (Hla' : Z.log2 A = (Z.log2 B + 52 + e0)%Z) by (unfold e0 in *; lia).
    rewrite Hla' in HA1.
    replace (Z.succ (Z.log2 A)) with (Z.log2 B + 53 + e0)%Z in HA2 by lia.
    rewrite !Z.pow_add_r in HA1, HA2 by lia.
    rewrite Z.pow_succ_r in HB2 by lia.
    change (2 ^ 52)%Z with (2 * 2 ^ 51)%Z in HA1.
    split; [nia|]. split; nia.
  - apply Z.leb_gt in He.
    assert (Hpe : (0 < 2 ^ (- e0))%Z) by (apply Z.pow_pos_nonneg; lia).
    assert (Hla' : (Z.log2 A + - e0 = Z.log2 B + 52)%Z) by (unfold e0 in *; lia).
    assert (H1 : (2 ^ (Z.log2 B + 52) ≤ A * 2 ^ (- e0))%Z).
    { rewrite <- Hla', Z.pow_add_r by lia. nia. }
    assert (H2 : (A * 2 ^ (- e0) < 2 ^ (Z.log2 B + 53))%Z).
    { replace (Z.log2 B + 53)%Z with (Z.succ (Z.log2 A) + - e0)%Z by lia.
      rewrite Z.pow_add_r by lia. nia. }
    rewrite Z.pow_add_r in H1, H2 by lia.
    rewrite Z.pow_succ_r in HB2 by lia.
    change (2 ^ 52)%Z with (2 * 2 ^ 51)%Z in H1.
    split; [lia|]. split; nia.
Qed.

Lemma scaled_pred (A B e : Z) :
  (0 < A)%Z → (0 < B)%Z →
  (0 < (scaled A B (e - 1)).2)%Z
  ∧ ((scaled A B (e - 1)).1 * (scaled A B e).2
     = 2 * (scaled A B e).1 * (scaled A B (e - 1)).2)%Z.
Proof.
  intros HA HB. unfold scaled.
  destruct (0 <=? e)%Z eqn:He; destruct (0 <=? e - 1)%Z eqn:He'; cbn [fst snd];
    try apply Z.leb_le in He; try apply Z.leb_gt in He;
    try apply Z.leb_le in He'; try apply Z.leb_gt in He'; try lia.
  - assert (Hp : (0 < 2 ^ (e - 1))%Z) by (apply Z.pow_pos_nonneg; lia).
    assert (Hpow : (2 ^ e = 2 * 2 ^ (e - 1))%Z).
    { rewrite <- Z.pow_succ_r by lia. f_equal. lia. }
    rewrite Hpow. split; nia.
  - assert (e = 0%Z) as -> by lia.
    change (2 ^ (- (0 - 1)))%Z with 2%Z. change (2 ^ 0)%Z with 1%Z. split; lia.
  - assert (Hp : (0 < 2 ^ (- e))%Z) by (apply Z.pow_pos_nonneg; lia).
    assert (Hpow : (2 ^ (- (e - 1)) = 2 * 2 ^ (- e))%Z).
    { rewrite <- Z.pow_succ_r by lia. f_equal. lia. }
    rewrite Hpow. split; nia.
Qed.

Lemma true_div_nearest (a : Z) (b : positive) : nearest_double a b (true_div a b).
Proof.
  unfold nearest_double, true_div. destruct (a =? 0)%Z eqn:Ha; [done|].
  apply Z.eqb_neq in Ha.
  assert (HA : (0 < Z.abs a)%Z) by lia. assert (HB : (0 < Z.pos b)%Z) by lia.
  set (e0 := (Z.log2 (Z.abs a) - Z.log2 (Z.pos b) - 52)%Z).
  destruct (scaled_first _ _ HA HB) as (Hd0 & Hlo & Hhi). fold e0 in Hd0, Hlo, Hhi.
  destruct (scaled (Z.abs a) (Z.pos b) e0) as [n0 d0] eqn:Hs0. cbn [fst snd] in *.
  assert (Hpred := scaled_pred _ _ e0 HA HB). rewrite Hs0 in Hpred. cbn [fst snd] in Hpred.
  set (e := if (n0 <? 2 ^ 52 * d0)%Z then (e0 - 1)%Z else e0).
  assert (Hs : (0 < (scaled (Z.abs a) (Z.pos b) e).2)%Z
               ∧ (2 ^ 52 * (scaled (Z.abs a) (Z.pos b) e).2
                  ≤ (scaled (Z.abs a) (Z.pos b) e).1
                  < 2 ^ 53 * (scaled (Z.abs a) (Z.pos b) e).2)%Z).
  { subst e. destruct (n0 <? 2 ^ 52 * d0)%Z eqn:Hn0.
    - apply Z.ltb_lt in Hn0. destruct Hpred as [Hd Heq].
      change (2 ^ 53)%Z with (2 * 2 ^ 52)%Z.
      change (2 ^ 52)%Z with (2 * 2 ^ 51)%Z at 1.
      split; [done|]. split; nia.
    - apply Z.ltb_ge in Hn0. rewrite Hs0. cbn [fst snd]. lia. }
  destruct (scaled (Z.abs a) (Z.pos b) e) as [n d] eqn:Hse.
  cbn [fst snd significand exponent] in *. rewrite Hse.
  destruct Hs as (Hd & Hn1 & Hn2).
  destruct (round_half_even_spec n d Hd ltac:(nia)) as [Hm0 Hm].
  split; [done|].
  assert (Hsgn : Z.abs (Z.sgn a) = 1%Z) by (by destruct a).
  assert (Habs : Z.abs (Z.sgn a * round_half_even n d) = round_half_even n d).
  { rewrite Z.abs_mul, Hsgn. lia. }
  rewrite Habs. split; [done|]. exact Hm.
Qed.

Lemma max_age_clean (w : World) :
  flush_fault w = None →
  max_age w
  = match sql_max (updated_column (session w)) with
    | None => (w, Return (Int 0))
    | Some oldest =>
        (set_ticks (S (ticks w)) w,
         Return (Float (true_div (clock (ticks w) - oldest) one_day)))
    end.
Proof.
  intros Hflush. unfold max_age.
  rewrite (bind_Return _ _ _ _ _ (autoflush_None _ Hflush)).
  unfold bind, get_session, utcnow, ret.
  by destruct (sql_max (updated_column (session w))).
Qed.

(** C9: when the flush before its query raises nothing, [max_age] returns
    the int zero if the session sees no node; otherwise it reads the clock
    once and returns a float, the true division of now minus the greatest
    [updated] instant of a stored node by the length of a day (both in
    microseconds): a double nearest to that quotient, the age in fractional
    days. *)
Theorem max_age_spec (w : World) :
  flush_fault w = None →
  (tbl_folders (session w) = ∅ → tbl_files (session w) = ∅ →
     max_age w = (w, Return (Int 0)))
  ∧ (∀ t0, is_updated_of t0 (session w) →
     ∃ oldest x,
       is_updated_of oldest (session w)
       ∧ (∀ t, is_updated_of t (session w) → (t ≤ oldest)%Z)
       ∧ max_age w = (set_ticks (S (ticks w)) w, Return (Float x))
       ∧ x = true_div (clock (ticks w) - oldest) one_day
       ∧ nearest_double (clock (ticks w) - oldest) one_day x).
Proof.
  intros Hflush. rewrite (max_age_clean w Hflush). split.
  - intros Hfo Hfi. unfold updated_column. rewrite Hfo, Hfi.
    by rewrite !map_to_list_empty.
  - intros t0 Ht0%elem_of_updated_column.
    destruct (sql_max (updated_column (session w))) as [oldest|] eqn:Hmax.
    + destruct (sql_max_Some _ _ Hmax) as [Hin Hle].
      exists oldest, (true_div (clock (ticks w) - oldest) one_day).
      split; [by apply elem_of_updated_column|].
      split; [intros t Ht%elem_of_updated_column; by apply Hle|].
      split; [done|]. split; [done|]. apply true_div_nearest.
    + apply sql_max_nil in Hmax. rewrite Hmax in Ht0. set_solver.
Qed.

End Staleness.

(** On the sample store the newest node was updated 500 seconds before the
    first reading of the clock: [max_age] returns the double
    [0.005787037037037037], which is [6671999447956290 * 2 ^ -60]. *)
Lemma max_age_spec_witness :
  @max_age sound_env empty_world = (empty_world, Return (Int 0))
  ∧ @max_age sound_env sample_world
    = (set_ticks 1 sample_world,
       Return (Float {| significand := 6671999447956290; exponent := -60 |}))
  ∧ nearest_double 500000000 one_day
      {| significand := 6671999447956290; exponent := -60 |}.
Proof.
  split.
  - apply (@max_age_spec sound_env empty_world); reflexivity.
  - destruct (proj2 (@max_age_spec sound_env sample_world eq_refl) 1425299000000000%Z)
      as (oldest & x & [Hold|Hold] & Hle & Heq & Hx & Hnear).
    + left. exists "F1", sample_folder_row. split; reflexivity.
    + destruct Hold as (k & f & Hk & Hf).
      cbn [sample_world session sample_tables tbl_folders] in Hk.
      apply lookup_singleton_Some in Hk as [_ <-].
      assert (Hnew : (1425299500000000 ≤ oldest)%Z).
      { apply Hle. right. exists "f1", sample_file_row. split; reflexivity. }
      rewrite <- Hf in Hnew. by vm_compute in Hnew.
    + destruct Hold as (k & f & Hk & Hf).
      cbn [sample_world session sample_tables tbl_files] in Hk.
      apply lookup_singleton_Some in Hk as [_ <-].
      subst oldest x. split; [exact Heq | exact Hnear].
Defined.

(** ** The purge handler *)

Section Purge.
Context `{Environment}.

Lemma tables_keyed_delete_folder (s : Tables) k :
  tables_keyed s → tables_keyed (set_folders (delete k (tbl_folders s)) s).
Proof.
  intros [Hfo Hfi]. split; wsimpl; [|done].
  intros k' f [_ Hk]%lookup_delete_Some. by apply Hfo.
Qed.

Lemma tables_keyed_delete_file (s : Tables) k :
  tables_keyed s → tables_keyed (set_files (delete k (tbl_files s)) s).
Proof.
  intros [Hfo Hfi]. split; wsimpl; [done|].
  intros k' f [_ Hk]%lookup_delete_Some. by apply Hfi.
Qed.

Lemma kinds_disjoint_lookup (s : Tables) :
  kinds_disjoint s ↔ ∀ k, tbl_folders s !! k = None ∨ tbl_files s !! k = None.
Proof.
  unfold kinds_disjoint. rewrite elem_of_disjoint. split; intros Hd k.
  - destruct (tbl_folders s !! k) as [f|] eqn:Hf; [right | by left].
    apply not_elem_of_dom. intros Hk. apply (Hd k); [|done].
    apply elem_of_dom. by exists f.
  - intros Hfo%elem_of_dom Hfi%elem_of_dom.
    destruct (Hd k) as [Hn|Hn]; rewrite Hn in *; by eapply is_Some_None.
Qed.

Lemma kinds_disjoint_delete_folder (s : Tables) k :
  kinds_disjoint s → kinds_disjoint (set_folders (delete k (tbl_folders s)) s).
Proof.
  rewrite !kinds_disjoint_lookup.
  intros Hd k'. wsimpl. destruct (Hd k') as [Hn|Hn]; [left | by right].
  rewrite lookup_delete_None. by right.
Qed.

Lemma kinds_disjoint_delete_file (s : Tables) k :
  kinds_disjoint s → kinds_disjoint (set_files (delete k (tbl_files s)) s).
Proof.
  rewrite !kinds_disjoint_lookup.
  intros Hd k'. wsimpl. destruct (Hd k') as [Hn|Hn]; [by left | right].
  rewrite lookup_delete_None. by right.
Qed.

Lemma query_node_clean (p : string) (w : World) :
  flush_fault w = None →
  query_node p w
  = (w, Return (match tbl_folders (session w) !! p with
                | Some f => Some (NodeFolder f)
                | None => NodeFile <$> tbl_files (session w) !! p
                end)).
Proof.
  intros Hflush. unfold query_node.
  by rewrite (bind_Return _ _ _ _ _ (autoflush_None _ Hflush)).
Qed.

(** Where no flush can fail, the loop of [remove_purged] does not raise; it
    leaves in the session the tables without the rows of the purged ids. *)
Lemma remove_purged_loop (purged : list string) (w : World) :
  quiet w →
  tables_keyed (session w) → kinds_disjoint (session w) →
  ∃ s',
    for_each purged (λ p_id _,
      n ← query_node p_id;
      match n with
      | Some n => session_delete n
      | None => ret tt
      end) tt w = (set_session s' w, Return tt)
    ∧ tables_keyed s' ∧ kinds_disjoint s'
    ∧ (∀ i, i ∈ purged →
         tbl_folders s' !! i = None ∧ tbl_files s' !! i = None)
    ∧ (∀ i, i ∉ purged →
         tbl_folders s' !! i = tbl_folders (session w) !! i
         ∧ tbl_files s' !! i = tbl_files (session w) !! i)
    ∧ tbl_metadata s' = tbl_metadata (session w).
Proof.
  intros Hq. revert w Hq. induction purged as [|p ps IH]; intros w Hq Hk Hd.
  - exists (session w). simpl. unfold ret. rewrite set_session_session.
    split; [done|]. split; [done|]. split; [done|].
    split; [|done]. intros i Hi. by apply elem_of_nil in Hi.
  - simpl.
    set (s1 := match tbl_folders (session w) !! p with
               | Some f => set_folders (delete p (tbl_folders (session w))) (session w)
               | None => set_files (delete p (tbl_files (session w))) (session w)
               end).
    assert (Hs1 : tables_keyed s1 ∧ kinds_disjoint s1
                  ∧ tbl_folders s1 !! p = None ∧ tbl_files s1 !! p = None
                  ∧ (∀ i, i ≠ p →
                       tbl_folders s1 !! i = tbl_folders (session w) !! i
                       ∧ tbl_files s1 !! i = tbl_files (session w) !! i)
                  ∧ tbl_metadata s1 = tbl_metadata (session w)).
    { subst s1. destruct (tbl_folders (session w) !! p) as [f|] eqn:Hf.
      - split; [by apply tables_keyed_delete_folder|].
        split; [by apply kinds_disjoint_delete_folder|]. wsimpl.
        split; [apply lookup_delete_eq|].
        split; [destruct (proj1 (kinds_disjoint_lookup _) Hd p); congruence|].
        split; [|done]. intros i Hne. by rewrite lookup_delete_ne.
      - split; [by apply tables_keyed_delete_file|].
        split; [by apply kinds_disjoint_delete_file|]. wsimpl.
        split; [done|]. split; [apply lookup_delete_eq|].
        split; [|done]. intros i Hne. by rewrite lookup_delete_ne. }
    destruct Hs1 as (Hk1 & Hd1 & Hfo1 & Hfi1 & Hother & Hmeta).
    assert (Hstep : bind (query_node p) (λ n, match n with
                                             | Some n => session_delete n
                                             | None => ret tt
                                             end) w
                    = (set_session s1 w, Return tt)).
    { rewrite (bind_Return _ _ _ _ _
                 (query_node_clean p w (flush_fault_quiet w w Hq eq_refl eq_refl))).
      cbv beta iota delta [session_delete bind get_session put_session ret].
      subst s1. destruct Hk as [Hkfo Hkfi].
      destruct (tbl_folders (session w) !! p) as [f|] eqn:Hf.
      - cbv beta iota. by rewrite (Hkfo _ _ Hf).
      - destruct (tbl_files (session w) !! p) as [f|] eqn:Hf'; cbn [fmap option_fmap option_map].
        + cbv beta iota. by rewrite (Hkfi _ _ Hf').
        + rewrite delete_id by done.
          assert (set_files (tbl_files (session w)) (session w) = session w) as ->
            by (by destruct (session w)).
          by rewrite set_session_session. }
    rewrite (bind_Return _ _ _ _ _ Hstep).
    destruct (IH (set_session s1 w) Hq Hk1 Hd1)
      as (s' & Hrun & Hk' & Hd' & Hin & Hout & Hm).
    exists s'. rewrite Hrun. wsimpl in Hout. wsimpl in Hm.
    split; [done|]. split; [done|]. split; [done|]. split; [|split].
    + intros i Hid. destruct (decide (i ∈ ps)) as [Hps|Hps]; [by apply Hin|].
      apply elem_of_cons in Hid as [->|?]; [|done].
      destruct (Hout p Hps) as [-> ->]. done.
    + intros i [Hne Hps]%not_elem_of_cons.
      destruct (Hout i Hps) as [-> ->]. by apply Hother.
    + congruence.
Qed.

(** C8: in a session whose tables are keyed by id and hold no id twice,
    with the commit going through, [remove_purged] returns without raising;
    after it no folder or file row is left for any purged id, the rows of all
    other ids and the metadata are as before, what is committed is what the
    session holds, exactly one commit was attempted, and the one message
    logged reports the length of the list.  When no purged id had a row, in
    particular for the empty list, the tables are the ones of before. *)
Theorem remove_purged_spec (purged : list string) (w : World) :
  tables_keyed (session w) → kinds_disjoint (session w) →
  commit_fault (commits w) = None →
  ∃ s',
    remove_purged purged w
    = (set_log (log w ++ [(INFO, Text ("Purged " +:+ pretty (length purged) +:+ " nodes."))])
         (set_commits (S (commits w)) (set_committed s' (set_session s' w))),
       Return tt)
    ∧ (∀ i, i ∈ purged →
         tbl_folders s' !! i = None ∧ tbl_files s' !! i = None)
    ∧ (∀ i, i ∉ purged →
         tbl_folders s' !! i = tbl_folders (session w) !! i
         ∧ tbl_files s' !! i = tbl_files (session w) !! i)
    ∧ tbl_metadata s' = tbl_metadata (session w)
    ∧ ((∀ i, i ∈ purged →
          tbl_folders (session w) !! i = None ∧ tbl_files (session w) !! i = None) →
       s' = session w).
Proof.
  intros Hk Hd Hc.
  destruct (remove_purged_loop purged w (or_introl Hc) Hk Hd)
    as (s' & Hrun & _ & _ & Hin & Hout & Hm).
  exists s'. split; [|split; [done|split; [done|split; [done|]]]].
  - unfold remove_purged. rewrite (bind_Return _ _ _ _ _ Hrun).
    unfold bind, session_commit, logger. wsimpl. by rewrite Hc.
  - intros Hnone. apply tables_eq; [| |done]; apply map_eq; intros i;
      (destruct (decide (i ∈ purged)) as [Hid|Hid];
       [destruct (Hin i Hid), (Hnone i Hid); congruence
       |by destruct (Hout i Hid)]).
Qed.

End Purge.

Lemma remove_purged_spec_witness :
  ∃ s',
    @remove_purged sound_env ["nonexistent-id"] sample_world
    = (set_log [(INFO, Text "Purged 1 nodes.")]
         (set_commits 1 (set_committed s' (set_session s' sample_world))),
       Return tt)
    ∧ s' = session sample_world.
Proof.
  destruct (@remove_purged_spec sound_env ["nonexistent-id"] sample_world)
    as (s' & Hrun & _ & _ & _ & Hsame).
  - compute_done.
  - compute_done.
  - reflexivity.
  - exists s'. split; [exact Hrun|]. apply Hsame.
    intros i Hi. apply list_elem_of_singleton in Hi as ->. split; reflexivity.
Defined.

(** ** The rewrite of the parentage table *)

Section Parentage.

Lemma elem_of_delete_children (e : string * string) (cs : list string)
    (tx : gset (string * string)) :
  e ∈ delete_children cs tx ↔ e ∈ tx ∧ e.2 ∉ cs.
Proof.
  unfold delete_children. revert tx. induction cs as [|c cs IH]; intros tx; simpl.
  - split; [intros He; split; [done | apply not_elem_of_nil] | by intros [He _]].
  - rewrite IH. unfold sql_delete_child. rewrite elem_of_filter, not_elem_of_cons.
    naive_solver.
Qed.

Lemma elem_of_insert_parents (e : string * string) (c : string) (ps : list string)
    (tx : gset (string * string)) :
  e ∈ foldl (λ tx p, sql_insert_or_ignore (p, c) tx) tx ps
  ↔ e ∈ tx ∨ (e.2 = c ∧ e.1 ∈ ps).
Proof.
  revert tx. induction ps as [|p ps IH]; intros tx; simpl.
  - split; [by left | intros [He|[_ He]]; [done | by apply elem_of_nil in He]].
  - rewrite IH. unfold sql_insert_or_ignore.
    rewrite elem_of_union, elem_of_singleton, elem_of_cons.
    destruct e as [p' c']. simpl. naive_solver.
Qed.

Lemma elem_of_insert_pairs (e : string * string)
    (pairs : list (string * list string)) (tx : gset (string * string)) :
  e ∈ insert_pairs pairs tx
  ↔ e ∈ tx ∨ ∃ ps, (e.2, ps) ∈ pairs ∧ e.1 ∈ ps.
Proof.
  unfold insert_pairs. revert tx. induction pairs as [|[c ps] pairs IH]; intros tx; simpl.
  - split; [by left | intros [He|(ps & Hps & _)]; [done | by apply elem_of_nil in Hps]].
  - rewrite IH, elem_of_insert_parents. split.
    + intros [[He|[<- He]]|(ps' & Hps' & He)]; [by left | right; exists ps | right; exists ps'];
        (split; [|done]); [by left | by right].
    + intros [He|(ps' & [[= -> ->]|Hps']%elem_of_cons & He)];
        [by left; left | by left; right | right; by exists ps'].
Qed.

(** The loop of deletions runs through as soon as every record has an id. *)
Lemma delete_loop_run (rs : list RawNode) (pairs : list (string * list string))
    (tx : gset (string * string)) (w : World) :
  Forall2 (λ r pr, parent_pair r = Some pr) rs pairs →
  for_each rs (λ f tx,
    id ← subscript "id" (raw_id f);
    ret (sql_delete_child id tx)) tx w
  = (w, Return (delete_children pairs.*1 tx)).
Proof.
  intros Hrs. revert tx. induction Hrs as [|r [c ps] rs pairs Hr _ IH]; intros tx.
  - reflexivity.
  - rewrite for_each_cons. unfold parent_pair in Hr.
    destruct (raw_id r) as [i|] eqn:Hid; [|done].
    destruct (raw_parents r); [|done]. injection Hr as -> ->.
    unfold bind at 1 2, subscript, ret. apply IH.
Qed.

Lemma rewrite_parentage_run (rs : list RawNode)
    (pairs pairs' : list (string * list string)) (w : World) :
  Forall2 (λ r pr, parent_pair r = Some pr) rs pairs →
  rewrite_parentage rs pairs' w
  = (set_parentage (insert_pairs pairs' (delete_children pairs.*1 (parentage w))) w,
     Return tt).
Proof.
  intros Hrs. unfold rewrite_parentage.
  unfold bind at 1, conn_begin.
  by rewrite (bind_Return _ _ _ _ _ (delete_loop_run _ _ _ _ Hrs)).
Qed.

Lemma elem_of_parents_in_batch (p c : string) (rs : list RawNode) :
  p ∈ parents_in_batch c rs
  ↔ ∃ r ps, r ∈ rs ∧ raw_id r = Some c ∧ raw_parents r = Some ps ∧ p ∈ ps.
Proof.
  unfold parents_in_batch. induction rs as [|r rs IH]; simpl.
  - split; [by intros ?%elem_of_nil | by intros (? & ? & ?%elem_of_nil & _)].
  - rewrite elem_of_app, IH. split.
    + intros [Hp|(r' & ps & Hr' & Hrest)].
      * case_bool_decide as Hid; [|by apply elem_of_nil in Hp].
        destruct (raw_parents r) as [ps|] eqn:Hps; [|by apply elem_of_nil in Hp].
        exists r, ps. split; [by left | done].
      * exists r', ps. split; [by right | done].
    + intros (r' & ps & [->|Hr']%elem_of_cons & Hid & Hps & Hp).
      * left. rewrite bool_decide_true by done. by rewrite Hps.
      * right. by exists r', ps.
Qed.

Lemma elem_of_pairs (rs : list RawNode) (pairs : list (string * list string))
    (c : string) (ps : list string) :
  Forall2 (λ r pr, parent_pair r = Some pr) rs pairs →
  (c, ps) ∈ pairs ↔ ∃ r, r ∈ rs ∧ raw_id r = Some c ∧ raw_parents r = Some ps.
Proof.
  induction 1 as [|r pr rs pairs Hr _ IH].
  - split; [by intros ?%elem_of_nil | by intros (? & ?%elem_of_nil & _)].
  - rewrite elem_of_cons, IH. unfold parent_pair in Hr.
    destruct (raw_id r) as [i|] eqn:Hid; [|done].
    destruct (raw_parents r) as [qs|] eqn:Hqs; [|done]. injection Hr as <-.
    split.
    + intros [[= -> ->]|(r' & Hr' & Hrest)]; [exists r | exists r'];
        (split; [|done]); [by left | by right].
    + intros (r' & [->|Hr']%elem_of_cons & Hi & Hq); [left; congruence | right; by exists r'].
Qed.

(** After the rewrite the rows of a child of the batch are the parents the
    batch gives for it, whatever rows it had before. *)
Lemma edges_of_rewrite (rs : list RawNode) (pairs : list (string * list string))
    (c : string) (tx : gset (string * string)) :
  Forall2 (λ r pr, parent_pair r = Some pr) rs pairs →
  c ∈ pairs.*1 →
  edges_of c (insert_pairs pairs (delete_children pairs.*1 tx))
  = list_to_set ((λ p, (p, c)) <$> parents_in_batch c rs).
Proof.
  intros Hrs Hc. apply set_eq. intros [p c']. unfold edges_of.
  rewrite elem_of_filter, elem_of_insert_pairs, elem_of_delete_children.
  rewrite elem_of_list_to_set. cbn [fst snd]. split.
  - intros [-> [[_ Hn]|(ps & Hps & Hp)]]; [by destruct Hn|].
    apply list_elem_of_fmap.
    exists p. split; [done|]. apply elem_of_parents_in_batch.
    apply (elem_of_pairs _ _ _ _ Hrs) in Hps as (r & Hr & Hid & Hps).
    by exists r, ps.
  - intros (p' & [= -> ->] & (r & ps & Hr & Hid & Hps & Hp)%elem_of_parents_in_batch)%list_elem_of_fmap.
    split; [done|]. right. exists ps. split; [|done].
    apply (elem_of_pairs _ _ _ _ Hrs). by exists r.
Qed.

(** The rows of every other child stay. *)
Lemma edges_of_rewrite_other (pairs : list (string * list string))
    (c : string) (tx : gset (string * string)) :
  c ∉ pairs.*1 →
  edges_of c (insert_pairs pairs (delete_children pairs.*1 tx)) = edges_of c tx.
Proof.
  intros Hc. apply set_eq. intros [p c']. unfold edges_of.
  rewrite !elem_of_filter, elem_of_insert_pairs, elem_of_delete_children.
  cbn [fst snd]. split.
  - intros [-> [[Hin _]|(ps & Hps & _)]]; [done|].
    destruct Hc. apply list_elem_of_fmap. by exists (c, ps).
  - intros [-> Hin]. split; [done|]. by left.
Qed.

End Parentage.

(** ** The upserters *)

Section Upserters.
Context `{Environment}.

Lemma folder_row_Some (r : RawNode) (now : Z) (f : Folder) :
  folder_row r now = Some f →
  ∃ id cd c md m st,
    raw_id r = Some id ∧ raw_createdDate r = Some cd ∧ iso_date_parse cd = Some c
    ∧ raw_modifiedDate r = Some md ∧ iso_date_parse md = Some m
    ∧ raw_status r = Some st
    ∧ f = {| folder_id := id; folder_name := raw_name r; folder_created := c;
             folder_modified := m; folder_status := st; folder_updated := now |}.
Proof.
  unfold folder_row. intros Hrow.
  destruct (raw_id r) as [id|]; [|done].
  destruct (raw_createdDate r) as [cd|]; [|done]. cbn [mbind option_bind] in Hrow.
  destruct (iso_date_parse cd) as [c|] eqn:Hc; [|done].
  destruct (raw_modifiedDate r) as [md|]; [|done]. cbn [mbind option_bind] in Hrow.
  destruct (iso_date_parse md) as [m|] eqn:Hm; [|done].
  destruct (raw_status r) as [st|]; [|done].
  injection Hrow as <-. by exists id, cd, c, md, m, st.
Qed.

(** One round of the loop of [insert_folders] on a valid record. *)
Lemma insert_folders_body_run (r : RawNode) (c : nat * nat * nat)
    (pp : list (string * list string)) (w : World) (f : Folder) (ps : list string) :
  folder_row r (clock (ticks w)) = Some f → raw_parents r = Some ps →
  flush_fault w = None →
  insert_folders_body r (c, pp) w
  = (set_session (set_folders (<[folder_id f := f]> (tbl_folders (session w))) (session w))
       (set_ticks (S (ticks w)) (set_log (log w ++ [(DEBUG, Repr r)]) w)),
     Return (count Folder_eq f (tbl_folders (session w) !! folder_id f) c,
             pp ++ [(folder_id f, ps)])).
Proof.
  intros (id & cd & cr & md & m & st & Hid & Hcd & Hcr & Hmd & Hm & Hst & ->)%folder_row_Some
         Hps Hflush.
  destruct c as [[ins dup] upd]. unfold insert_folders_body. mred.
  rewrite Hid, Hcd, Hcr, Hmd, Hm, Hst, flush_fault_set_log, Hflush. wsimpl. cbn [folder_id].
  destruct (tbl_folders (session w) !! id) as [ef|]; cbn [count].
  - destruct (Folder_eq _ ef); rewrite Hps; reflexivity.
  - rewrite Hps. reflexivity.
Qed.

Lemma folder_row_now (r : RawNode) (t t' : Z) :
  is_Some (folder_row r t) → is_Some (folder_row r t').
Proof.
  intros [f (id & cd & cr & md & m & st & Hid & Hcd & Hcr & Hmd & Hm & Hst & _)%folder_row_Some].
  unfold folder_row. rewrite Hid, Hcd, Hmd, Hst. cbn [mbind option_bind].
  by rewrite Hcr, Hm.
Qed.

(** A round that returns has read a valid record. *)
Lemma insert_folders_body_inv (r : RawNode) (acc acc' : tally) (w w' : World) :
  insert_folders_body r acc w = (w', Return acc') →
  ∃ f ps, folder_row r (clock (ticks w)) = Some f ∧ raw_parents r = Some ps
          ∧ flush_fault w = None.
Proof.
  destruct acc as [[[ins dup] upd] pp]. unfold insert_folders_body, folder_row. mred.
  destruct (raw_id r) as [id|]; [|done].
  destruct (raw_createdDate r) as [cd|]; [|done]. cbn [mbind option_bind].
  destruct (iso_date_parse cd) as [c|]; [|done].
  destruct (raw_modifiedDate r) as [md|]; [|done]. cbn [mbind option_bind].
  destruct (iso_date_parse md) as [m|]; [|done].
  destruct (raw_status r) as [st|]; [|done].
  rewrite flush_fault_set_log. destruct (flush_fault w) as [e|]; [done|].
  destruct (raw_parents r) as [ps|]; [by eauto|].
  wsimpl. destruct (tbl_folders (session w) !! id) as [ef|]; [|done].
  by destruct (Folder_eq _ ef).
Qed.

(** The loop of [insert_folders]: when it returns, every record has given
    its pair, and nothing but the session, the log and the clock has moved. *)
Lemma insert_folders_loop (rs : list RawNode) (c : nat * nat * nat)
    (pp : list (string * list string)) (w w' : World) (acc' : tally) :
  for_each rs insert_folders_body (c, pp) w = (w', Return acc') →
  ∃ pairs,
    Forall2 (λ r pr, parent_pair r = Some pr) rs pairs
    ∧ acc'.2 = pp ++ pairs
    ∧ parentage w' = parentage w ∧ committed w' = committed w
    ∧ commits w' = commits w
    ∧ tbl_files (session w') = tbl_files (session w)
    ∧ tbl_metadata (session w') = tbl_metadata (session w).
Proof.
  revert c pp w. induction rs as [|r rs IH]; intros c pp w.
  - intros [= <- <-]. exists []. rewrite app_nil_r. by repeat split.
  - rewrite for_each_cons. intros (w1 & acc1 & Hbody & Hrest)%bind_inv.
    destruct (insert_folders_body_inv _ _ _ _ _ Hbody) as (f & ps & Hrow & Hps & Hflush).
    rewrite (insert_folders_body_run _ _ _ _ _ _ Hrow Hps Hflush) in Hbody.
    injection Hbody as <- <-.
    apply IH in Hrest as (pairs & Hpairs & Hacc & Hpar & Hcom & Hcs & Hfi & Hme).
    exists ((folder_id f, ps) :: pairs).
    split; [|rewrite Hacc, <- app_assoc; by repeat split].
    constructor; [|done]. unfold parent_pair.
    apply folder_row_Some in Hrow as (id & ? & ? & ? & ? & ? & -> & _ & _ & _ & _ & _ & ->).
    by rewrite Hps.
Qed.

Lemma insert_folders_loop_valid (rs : list RawNode) (acc : tally) (w : World) :
  Forall valid_folder rs → quiet w →
  ∃ w' acc', for_each rs insert_folders_body acc w = (w', Return acc').
Proof.
  intros Hrs. revert acc w. induction Hrs as [|r rs [Hrow [ps Hps]] _ IH]; intros acc w Hq.
  - by eexists _, _.
  - destruct acc as [c pp].
    destruct (folder_row_now r 0 (clock (ticks w)) Hrow) as [f Hf].
    rewrite for_each_cons.
    rewrite (bind_Return _ _ _ _ _
               (insert_folders_body_run _ c pp _ _ _ Hf Hps
                  (flush_fault_quiet w w Hq eq_refl eq_refl))).
    apply IH. exact Hq.
Qed.

(** [insert_folders] after its loop: the commit, the messages and the rewrite
    of the parentage table, for each thing the storage layer can do at the
    commit. *)
Lemma insert_folders_run (rs : list RawNode) (w w1 : World)
    (ins dup upd : nat) (pairs : list (string * list string)) :
  for_each rs insert_folders_body (0, 0, 0, []) w = (w1, Return (ins, dup, upd, pairs)) →
  insert_folders rs w
  = match commit_fault (commits w1) with
    | None =>
        (finish pairs (folder_messages ins dup upd)
           (set_commits (S (commits w1)) (set_committed (session w1) w1)),
         Return tt)
    | Some e =>
        if bool_decide (e = IntegrityError) then
          (finish pairs ((WARNING, Text "Error inserting folders.")
                         :: folder_messages ins dup upd)
             (set_session (committed w1) (set_commits (S (commits w1)) w1)),
           Return tt)
        else (set_commits (S (commits w1)) w1, Raise e)
    end.
Proof.
  intros Hloop.
  destruct (insert_folders_loop _ _ _ _ _ _ Hloop) as (pairs' & Hrs & Hacc & _).
  cbn [snd app] in Hacc. subst pairs'.
  unfold insert_folders. rewrite (bind_Return _ _ _ _ _ Hloop).
  change (0 <? 0)%nat with false.
  unfold finish, folder_messages. mred.
  destruct (commit_fault (commits w1)) as [e|].
  - case_bool_decide; [|done].
    destruct (0 <? ins)%nat, (0 <? dup)%nat, (0 <? upd)%nat;
      rewrite (rewrite_parentage_run _ _ _ _ Hrs);
      (f_equal; apply world_eq; wsimpl; try reflexivity;
       rewrite <- ?app_assoc; reflexivity).
  - destruct (0 <? ins)%nat, (0 <? dup)%nat, (0 <? upd)%nat;
      rewrite (rewrite_parentage_run _ _ _ _ Hrs);
      (f_equal; apply world_eq; wsimpl; try reflexivity;
       rewrite <- ?app_assoc, ?app_nil_r; reflexivity).
Qed.

(** *** Files *)

Lemma file_row_Some (r : RawNode) (now : Z) (f : File) :
  file_row r now = Some f →
  ∃ id name cd c md m md5 size st,
    raw_id r = Some id ∧ raw_name r = Some name
    ∧ raw_createdDate r = Some cd ∧ iso_date_parse cd = Some c
    ∧ raw_modifiedDate r = Some md ∧ iso_date_parse md = Some m
    ∧ cp_md5 (default {| cp_md5 := Some empty_md5; cp_size := Some 0%Z |}
                      (raw_contentProperties r)) = Some md5
    ∧ cp_size (default {| cp_md5 := Some empty_md5; cp_size := Some 0%Z |}
                       (raw_contentProperties r)) = Some size
    ∧ raw_status r = Some st
    ∧ f = {| file_id := id; file_name := Some name; file_created := c;
             file_modified := m; file_md5 := md5; file_size := size;
             file_status := st; file_updated := now |}.
Proof.
  unfold file_row. cbv zeta. intros Hrow.
  destruct (raw_id r) as [id|]; [|done].
  destruct (raw_name r) as [name|]; [|done].
  destruct (raw_createdDate r) as [cd|]; [|done]. cbn [mbind option_bind] in Hrow.
  destruct (iso_date_parse cd) as [c|] eqn:Hc; [|done].
  destruct (raw_modifiedDate r) as [md|]; [|done]. cbn [mbind option_bind] in Hrow.
  destruct (iso_date_parse md) as [m|] eqn:Hm; [|done].
  destruct (cp_md5 _) as [md5|]; [|done].
  destruct (cp_size _) as [size|]; [|done].
  destruct (raw_status r) as [st|]; [|done].
  injection Hrow as <-. by exists id, name, cd, c, md, m, md5, size, st.
Qed.

Lemma file_row_now (r : RawNode) (t t' : Z) :
  is_Some (file_row r t) → is_Some (file_row r t').
Proof.
  intros [f (id & name & cd & cr & md & m & md5 & size & st & Hid & Hname & Hcd & Hcr
             & Hmd & Hm & Hmd5 & Hsize & Hst & _)%file_row_Some].
  unfold file_row. cbv zeta. rewrite Hid, Hname, Hcd, Hmd, Hmd5, Hsize, Hst.
  cbn [mbind option_bind]. by rewrite Hcr, Hm.
Qed.

(** The [try] around [file['contentProperties']]. *)
Lemma contentProperties_default (r : RawNode) (w : World) :
  try_except (subscript "contentProperties" (raw_contentProperties r)) is_KeyError
    (ret {| cp_md5 := Some empty_md5; cp_size := Some 0%Z |}) w
  = (w, Return (default {| cp_md5 := Some empty_md5; cp_size := Some 0%Z |}
                        (raw_contentProperties r))).
Proof. unfold try_except, subscript. by destruct (raw_contentProperties r). Qed.

(** One round of the loop of [insert_files] on a valid record. *)
Lemma insert_files_body_run (r : RawNode) (c : nat * nat * nat)
    (pp : list (string * list string)) (w : World) (f : File) (ps : list string) :
  file_row r (clock (ticks w)) = Some f → raw_parents r = Some ps →
  flush_fault w = None →
  insert_files_body r (c, pp) w
  = (set_session
       (set_files
          (<[file_id f := f]>
             match tbl_files (session w) !! file_id f with
             | Some ef => delete (file_id ef) (tbl_files (session w))
             | None => tbl_files (session w)
             end)
          (session w))
       (set_ticks (S (ticks w)) w),
     Return (count File_eq f (tbl_files (session w) !! file_id f) c,
             pp ++ [(file_id f, ps)])).
Proof.
  intros (id & name & cd & cr & md & m & md5 & size & st & Hid & Hname & Hcd & Hcr
          & Hmd & Hm & Hmd5 & Hsize & Hst & ->)%file_row_Some Hps Hflush.
  destruct c as [[ins dup] upd]. unfold insert_files_body.
  rewrite (bind_Return _ _ _ _ _ (contentProperties_default r w)).
  mred. rewrite Hid, Hname, Hcd, Hcr, Hmd, Hm, Hmd5, Hsize, Hst, Hflush. wsimpl.
  cbn [file_id].
  destruct (tbl_files (session w) !! id) as [ef|]; cbn [count].
  - destruct (File_eq _ ef); rewrite Hps; reflexivity.
  - rewrite Hps. reflexivity.
Qed.

Lemma insert_files_body_inv (r : RawNode) (acc acc' : tally) (w w' : World) :
  insert_files_body r acc w = (w', Return acc') →
  ∃ f ps, file_row r (clock (ticks w)) = Some f ∧ raw_parents r = Some ps
          ∧ flush_fault w = None.
Proof.
  destruct acc as [[[ins dup] upd] pp]. unfold insert_files_body, file_row.
  rewrite (bind_Return _ _ _ _ _ (contentProperties_default r w)).
  mred.
  destruct (raw_id r) as [id|]; [|done].
  destruct (raw_name r) as [name|]; [|done].
  destruct (raw_createdDate r) as [cd|]; [|done]. cbn [mbind option_bind].
  destruct (iso_date_parse cd) as [c|]; [|done].
  destruct (raw_modifiedDate r) as [md|]; [|done]. cbn [mbind option_bind].
  destruct (iso_date_parse md) as [m|]; [|done].
  destruct (cp_md5 _) as [md5|]; [|done].
  destruct (cp_size _) as [size|]; [|done].
  destruct (raw_status r) as [st|]; [|done].
  destruct (flush_fault w) as [e|]; [done|].
  destruct (raw_parents r) as [ps|]; [by eauto|].
  wsimpl. destruct (tbl_files (session w) !! id) as [ef|]; [|done].
  by destruct (File_eq _ ef).
Qed.

Lemma insert_files_loop (rs : list RawNode) (c : nat * nat * nat)
    (pp : list (string * list string)) (w w' : World) (acc' : tally) :
  for_each rs insert_files_body (c, pp) w = (w', Return acc') →
  ∃ pairs,
    Forall2 (λ r pr, parent_pair r = Some pr) rs pairs
    ∧ acc'.2 = pp ++ pairs
    ∧ parentage w' = parentage w ∧ committed w' = committed w
    ∧ commits w' = commits w ∧ log w' = log w
    ∧ tbl_folders (session w') = tbl_folders (session w)
    ∧ tbl_metadata (session w') = tbl_metadata (session w).
Proof.
  revert c pp w. induction rs as [|r rs IH]; intros c pp w.
  - intros [= <- <-]. exists []. rewrite app_nil_r. by repeat split.
  - rewrite for_each_cons. intros (w1 & acc1 & Hbody & Hrest)%bind_inv.
    destruct (insert_files_body_inv _ _ _ _ _ Hbody) as (f & ps & Hrow & Hps & Hflush).
    rewrite (insert_files_body_run _ _ _ _ _ _ Hrow Hps Hflush) in Hbody.
    injection Hbody as <- <-.
    apply IH in Hrest as (pairs & Hpairs & Hacc & Hpar & Hcom & Hcs & Hlog & Hfo & Hme).
    exists ((file_id f, ps) :: pairs).
    split; [|rewrite Hacc, <- app_assoc; by repeat split].
    constructor; [|done]. unfold parent_pair.
    apply file_row_Some in Hrow as (id & ? & ? & ? & ? & ? & ? & ? & ? & -> & _ & _ & _
                                    & _ & _ & _ & _ & _ & ->).
    by rewrite Hps.
Qed.

Lemma insert_files_loop_valid (rs : list RawNode) (acc : tally) (w : World) :
  Forall valid_file rs → quiet w →
  ∃ w' acc', for_each rs insert_files_body acc w = (w', Return acc').
Proof.
  intros Hrs. revert acc w. induction Hrs as [|r rs [Hrow [ps Hps]] _ IH]; intros acc w Hq.
  - by eexists _, _.
  - destruct acc as [c pp].
    destruct (file_row_now r 0 (clock (ticks w)) Hrow) as [f Hf].
    rewrite for_each_cons.
    rewrite (bind_Return _ _ _ _ _
               (insert_files_body_run _ c pp _ _ _ Hf Hps
                  (flush_fault_quiet w w Hq eq_refl eq_refl))).
    apply IH. exact Hq.
Qed.

(** [insert_files] after its loop.  The handler of its commit is for
    [ValueError]. *)
Lemma insert_files_run (rs : list RawNode) (w w1 : World)
    (ins dup upd : nat) (pairs : list (string * list string)) :
  for_each rs insert_files_body (0, 0, 0, []) w = (w1, Return (ins, dup, upd, pairs)) →
  insert_files rs w
  = match commit_fault (commits w1) with
    | None =>
        (finish pairs (file_messages ins dup upd)
           (set_commits (S (commits w1)) (set_committed (session w1) w1)),
         Return tt)
    | Some e =>
        if bool_decide (e = ValueError) then
          (finish pairs ((ERROR, Text "Error inserting files.")
                         :: file_messages ins dup upd)
             (set_session (committed w1) (set_commits (S (commits w1)) w1)),
           Return tt)
        else (set_commits (S (commits w1)) w1, Raise e)
    end.
Proof.
  intros Hloop.
  destruct (insert_files_loop _ _ _ _ _ _ Hloop) as (pairs' & Hrs & Hacc & _).
  cbn [snd app] in Hacc. subst pairs'.
  unfold insert_files. rewrite (bind_Return _ _ _ _ _ Hloop).
  change (0 <? 0)%nat with false.
  unfold finish, file_messages. mred.
  destruct (commit_fault (commits w1)) as [e|].
  - case_bool_decide; [|done].
    destruct (0 <? ins)%nat, (0 <? dup)%nat, (0 <? upd)%nat;
      rewrite (rewrite_parentage_run _ _ _ _ Hrs);
      (f_equal; apply world_eq; wsimpl; try reflexivity;
       rewrite <- ?app_assoc; reflexivity).
  - destruct (0 <? ins)%nat, (0 <? dup)%nat, (0 <? upd)%nat;
      rewrite (rewrite_parentage_run _ _ _ _ Hrs);
      (f_equal; apply world_eq; wsimpl; try reflexivity;
       rewrite <- ?app_assoc, ?app_nil_r; reflexivity).
Qed.

(** Whenever an upserter returns, the parentage table has been rewritten
    from the pairs of its batch. *)
Lemma insert_folders_parentage (rs : list RawNode) (w w' : World) :
  insert_folders rs w = (w', Return tt) →
  ∃ pairs,
    Forall2 (λ r pr, parent_pair r = Some pr) rs pairs
    ∧ parentage w' = insert_pairs pairs (delete_children pairs.*1 (parentage w)).
Proof.
  intros Hrun.
  assert (∃ w1 acc, for_each rs insert_folders_body (0, 0, 0, []) w = (w1, Return acc))
    as (w1 & [[[ins dup] upd] pairs] & Hloop).
  { unfold insert_folders in Hrun. apply bind_inv in Hrun as (w1 & acc & Hloop & _). eauto. }
  rewrite (insert_folders_run _ _ _ _ _ _ _ Hloop) in Hrun.
  destruct (insert_folders_loop _ _ _ _ _ _ Hloop) as (pairs' & Hrs & Hacc & Hpar & _).
  cbn [snd app] in Hacc. subst pairs'. exists pairs. split; [done|].
  destruct (commit_fault (commits w1)) as [e|]; [case_bool_decide; [|done]|];
    injection Hrun as <-; unfold finish; wsimpl; by rewrite Hpar.
Qed.

Lemma insert_files_parentage (rs : list RawNode) (w w' : World) :
  insert_files rs w = (w', Return tt) →
  ∃ pairs,
    Forall2 (λ r pr, parent_pair r = Some pr) rs pairs
    ∧ parentage w' = insert_pairs pairs (delete_children pairs.*1 (parentage w)).
Proof.
  intros Hrun.
  assert (∃ w1 acc, for_each rs insert_files_body (0, 0, 0, []) w = (w1, Return acc))
    as (w1 & [[[ins dup] upd] pairs] & Hloop).
  { unfold insert_files in Hrun. apply bind_inv in Hrun as (w1 & acc & Hloop & _). eauto. }
  rewrite (insert_files_run _ _ _ _ _ _ _ Hloop) in Hrun.
  destruct (insert_files_loop _ _ _ _ _ _ Hloop) as (pairs' & Hrs & Hacc & Hpar & _).
  cbn [snd app] in Hacc. subst pairs'. exists pairs. split; [done|].
  destruct (commit_fault (commits w1)) as [e|]; [case_bool_decide; [|done]|];
    injection Hrun as <-; unfold finish; wsimpl; by rewrite Hpar.
Qed.

(** On valid records, with a commit that goes through, the upserters
    return. *)
Lemma insert_folders_returns (rs : list RawNode) (w : World) :
  Forall valid_folder rs → commit_fault (commits w) = None →
  ∃ w', insert_folders rs w = (w', Return tt).
Proof.
  intros Hvalid Hfault.
  destruct (insert_folders_loop_valid rs (0, 0, 0, []) w Hvalid (or_introl Hfault))
    as (w1 & [[[ins dup] upd] pairs] & Hloop).
  destruct (insert_folders_loop _ _ _ _ _ _ Hloop) as (_ & _ & _ & _ & _ & Hcs & _).
  assert (Hrun := insert_folders_run _ _ _ _ _ _ _ Hloop).
  rewrite Hcs, Hfault in Hrun. eauto.
Qed.

Lemma insert_files_returns (rs : list RawNode) (w : World) :
  Forall valid_file rs → commit_fault (commits w) = None →
  ∃ w', insert_files rs w = (w', Return tt).
Proof.
  intros Hvalid Hfault.
  destruct (insert_files_loop_valid rs (0, 0, 0, []) w Hvalid (or_introl Hfault))
    as (w1 & [[[ins dup] upd] pairs] & Hloop).
  destruct (insert_files_loop _ _ _ _ _ _ Hloop) as (_ & _ & _ & _ & _ & Hcs & _).
  assert (Hrun := insert_files_run _ _ _ _ _ _ _ Hloop).
  rewrite Hcs, Hfault in Hrun. eauto.
Qed.

Lemma pair_of_record (rs : list RawNode) (pairs : list (string * list string))
    (r : RawNode) (c : string) :
  Forall2 (λ r pr, parent_pair r = Some pr) rs pairs →
  r ∈ rs → raw_id r = Some c → c ∈ pairs.*1.
Proof.
  intros Hrs Hr Hc.
  destruct (proj1 (list_elem_of_lookup _ _) Hr) as [i Hi].
  destruct (Forall2_lookup_l _ _ _ _ _ Hrs Hi) as (pr & Hpr & Hpair).
  unfold parent_pair in Hpair. rewrite Hc in Hpair.
  destruct (raw_parents r) as [ps|]; [|done]. injection Hpair as <-.
  apply list_elem_of_fmap. exists (c, ps). split; [done|].
  by eapply list_elem_of_lookup_2.
Qed.

(** The parents of a child that has one record in the batch. *)
Lemma parents_in_batch_single (rs : list RawNode) (r : RawNode) (c : string)
    (ps : list string) :
  r ∈ rs → raw_id r = Some c → raw_parents r = Some ps →
  (∀ r', r' ∈ rs → raw_id r' = Some c → r' = r) →
  (list_to_set ((λ p, (p, c)) <$> parents_in_batch c rs) : gset (string * string))
  = list_to_set ((λ p, (p, c)) <$> ps).
Proof.
  intros Hr Hc Hps Honly. apply set_eq. intros e.
  rewrite !elem_of_list_to_set, !list_elem_of_fmap.
  split; intros (p & -> & Hp); exists p; (split; [done|]).
  - apply elem_of_parents_in_batch in Hp as (r' & ps' & Hr' & Hc' & Hps' & Hp).
    rewrite (Honly r' Hr' Hc') in Hps'. congruence.
  - apply elem_of_parents_in_batch. by exists r, ps.
Qed.

(** C1, as amended: when [insert_folders] or [insert_files] has returned,
    the parentage rows of a child whose record is in the batch are exactly
    the (parent, child) pairs drawn from the parents lists of all the records
    of the batch with that id, each pair once, whatever rows the child had
    before and however often a parent is listed; for a child with one record
    in the batch they are exactly the pairs drawn from that record's list. *)
Theorem edge_set_after_upsert (rs : list RawNode) (w w' : World) (r : RawNode) (c : string) :
  insert_folders rs w = (w', Return tt) ∨ insert_files rs w = (w', Return tt) →
  r ∈ rs → raw_id r = Some c →
  edges_of c (parentage w') = list_to_set ((λ p, (p, c)) <$> parents_in_batch c rs)
  ∧ ∀ ps, raw_parents r = Some ps →
      (∀ r', r' ∈ rs → raw_id r' = Some c → r' = r) →
      edges_of c (parentage w') = list_to_set ((λ p, (p, c)) <$> ps).
Proof.
  intros Hrun Hr Hc.
  assert (∃ pairs, Forall2 (λ r pr, parent_pair r = Some pr) rs pairs
                   ∧ parentage w' = insert_pairs pairs (delete_children pairs.*1 (parentage w)))
    as (pairs & Hrs & ->).
  { destruct Hrun as [Hrun|Hrun];
      [by apply insert_folders_parentage | by apply insert_files_parentage]. }
  assert (Hall := edges_of_rewrite rs pairs c (parentage w) Hrs (pair_of_record _ _ _ _ Hrs Hr Hc)).
  split; [done|]. intros ps Hps Honly.
  rewrite Hall. by apply parents_in_batch_single with r.
Qed.

(** ** Batches of one record *)

Lemma insert_folders_single (r : RawNode) (w : World) (f : Folder) (ps : list string)
    (ins dup upd : nat) :
  folder_row r (clock (ticks w)) = Some f → raw_parents r = Some ps →
  commit_fault (commits w) = None →
  count Folder_eq f (tbl_folders (session w) !! folder_id f) (0, 0, 0)%nat = (ins, dup, upd) →
  let s' := set_folders (<[folder_id f := f]> (tbl_folders (session w))) (session w) in
  insert_folders [r] w
  = (finish [(folder_id f, ps)] (folder_messages ins dup upd)
       (set_commits (S (commits w))
          (set_committed s'
             (set_session s'
                (set_ticks (S (ticks w)) (set_log (log w ++ [(DEBUG, Repr r)]) w))))),
     Return tt).
Proof.
  intros Hrow Hps Hfault Hcount s'.
  assert (Hloop := insert_folders_body_run r (0, 0, 0)%nat [] w f ps Hrow Hps
                    (flush_fault_committing w Hfault)).
  rewrite Hcount, <- for_each_singleton in Hloop.
  rewrite (insert_folders_run [r] w _ ins dup upd _ Hloop). wsimpl.
  by rewrite Hfault.
Qed.

Lemma insert_files_single (r : RawNode) (w : World) (f : File) (ps : list string)
    (ins dup upd : nat) :
  file_row r (clock (ticks w)) = Some f → raw_parents r = Some ps →
  commit_fault (commits w) = None →
  count File_eq f (tbl_files (session w) !! file_id f) (0, 0, 0)%nat = (ins, dup, upd) →
  let s' := set_files
              (<[file_id f := f]>
                 match tbl_files (session w) !! file_id f with
                 | Some ef => delete (file_id ef) (tbl_files (session w))
                 | None => tbl_files (session w)
                 end)
              (session w) in
  insert_files [r] w
  = (finish [(file_id f, ps)] (file_messages ins dup upd)
       (set_commits (S (commits w))
          (set_committed s' (set_session s' (set_ticks (S (ticks w)) w)))),
     Return tt).
Proof.
  intros Hrow Hps Hfault Hcount s'.
  assert (Hloop := insert_files_body_run r (0, 0, 0)%nat [] w f ps Hrow Hps
                    (flush_fault_committing w Hfault)).
  rewrite Hcount, <- for_each_singleton in Hloop.
  rewrite (insert_files_run [r] w _ ins dup upd _ Hloop). wsimpl.
  by rewrite Hfault.
Qed.

Lemma folder_row_eq (r : RawNode) (t t' : Z) (f f' : Folder) :
  folder_row r t = Some f → folder_row r t' = Some f' →
  Folder_eq f' f = true ∧ folder_id f' = folder_id f ∧ folder_updated f' = t'.
Proof.
  intros (id & cd & c & md & m & st & Hid & Hcd & Hc & Hmd & Hm & Hst & ->)%folder_row_Some.
  unfold folder_row. rewrite Hid, Hcd, Hmd, Hst. cbn [mbind option_bind].
  rewrite Hc, Hm. intros [= <-]. unfold Folder_eq. cbn.
  by rewrite !bool_decide_true.
Qed.

Lemma file_row_eq (r : RawNode) (t t' : Z) (f f' : File) :
  file_row r t = Some f → file_row r t' = Some f' →
  File_eq f' f = true ∧ file_id f' = file_id f ∧ file_updated f' = t'.
Proof.
  intros (id & name & cd & c & md & m & md5 & size & st & Hid & Hname & Hcd & Hc
          & Hmd & Hm & Hmd5 & Hsize & Hst & ->)%file_row_Some.
  unfold file_row. cbv zeta. rewrite Hid, Hname, Hcd, Hmd, Hmd5, Hsize, Hst.
  cbn [mbind option_bind]. rewrite Hc, Hm. intros [= <-]. unfold File_eq. cbn.
  by rewrite !bool_decide_true.
Qed.

(** C5: a valid folder record, or a valid file record, applied twice with
    both commits going through.  After the first call the table holds under
    the record's id the row the record describes; after the second call it
    holds the same row with the [updated] instant read at that call, and no
    id has been added to or taken from the table; the second call reports one
    duplicate and no insert. *)
Theorem upsert_twice (r : RawNode) (w : World) :
  commit_fault (commits w) = None → commit_fault (S (commits w)) = None →
  (valid_folder r →
   ∃ id f1 f2 w1 w2,
     raw_id r = Some id
     ∧ folder_row r (clock (ticks w)) = Some f1
     ∧ folder_row r (clock (S (ticks w))) = Some f2
     ∧ insert_folders [r] w = (w1, Return tt)
     ∧ insert_folders [r] w1 = (w2, Return tt)
     ∧ tbl_folders (committed w1) !! id = Some f1
     ∧ tbl_folders (committed w2) !! id = Some f2
     ∧ Folder_eq f2 f1 = true
     ∧ folder_updated f2 = clock (S (ticks w))
     ∧ dom (tbl_folders (committed w2)) = dom (tbl_folders (committed w1))
     ∧ log w2 = log w1 ++ [(DEBUG, Repr r);
                           (INFO, Text "1 duplicate folders not inserted.")])
  ∧ (valid_file r →
     ∃ id f1 f2 w1 w2,
       raw_id r = Some id
       ∧ file_row r (clock (ticks w)) = Some f1
       ∧ file_row r (clock (S (ticks w))) = Some f2
       ∧ insert_files [r] w = (w1, Return tt)
       ∧ insert_files [r] w1 = (w2, Return tt)
       ∧ tbl_files (committed w1) !! id = Some f1
       ∧ tbl_files (committed w2) !! id = Some f2
       ∧ File_eq f2 f1 = true
       ∧ file_updated f2 = clock (S (ticks w))
       ∧ dom (tbl_files (committed w2)) = dom (tbl_files (committed w1))
       ∧ log w2 = log w1 ++ [(INFO, Text "1 duplicate files not inserted.")]).
Proof.
  intros Hc1 Hc2. split.
  - intros [Hrow [ps Hps]].
    destruct (folder_row_now r 0 (clock (ticks w)) Hrow) as [f1 Hf1].
    destruct (folder_row_now r 0 (clock (S (ticks w))) Hrow) as [f2 Hf2].
    destruct (folder_row_eq _ _ _ _ _ Hf1 Hf2) as (Heq & Hid & Hupd).
    destruct (count Folder_eq f1 (tbl_folders (session w) !! folder_id f1) (0, 0, 0)%nat)
      as [[ins dup] upd] eqn:Hcount.
    assert (Hrun1 := insert_folders_single r w f1 ps ins dup upd Hf1 Hps Hc1 Hcount).
    cbv zeta in Hrun1.
    set (w1 := finish _ _ _) in Hrun1.
    assert (Hlook : tbl_folders (session w1) !! folder_id f2 = Some f1).
    { subst w1. unfold finish. wsimpl. rewrite Hid. apply lookup_insert_eq. }
    assert (Hrun2 := insert_folders_single r w1 f2 ps 0 1 0 Hf2 Hps Hc2).
    rewrite Hlook in Hrun2. cbn [count] in Hrun2. rewrite Heq in Hrun2.
    specialize (Hrun2 eq_refl). cbv zeta in Hrun2.
    exists (folder_id f1), f1, f2, w1. eexists.
    split. { by apply folder_row_Some in Hf1 as (? & ? & ? & ? & ? & ? & -> & _ & _ & _ & _ & _ & ->). }
    split; [done|]. split; [done|]. split; [done|]. split; [exact Hrun2|].
    unfold finish. wsimpl. rewrite Hid.
    split; [subst w1; unfold finish; wsimpl; apply lookup_insert_eq|].
    split; [apply lookup_insert_eq|]. split; [done|]. split; [done|].
    split.
    + subst w1. unfold finish. wsimpl.
      by rewrite insert_insert_eq, !dom_insert_L.
    + by rewrite <- app_assoc.
  - intros [Hrow [ps Hps]].
    destruct (file_row_now r 0 (clock (ticks w)) Hrow) as [f1 Hf1].
    destruct (file_row_now r 0 (clock (S (ticks w))) Hrow) as [f2 Hf2].
    destruct (file_row_eq _ _ _ _ _ Hf1 Hf2) as (Heq & Hid & Hupd).
    destruct (count File_eq f1 (tbl_files (session w) !! file_id f1) (0, 0, 0)%nat)
      as [[ins dup] upd] eqn:Hcount.
    assert (Hrun1 := insert_files_single r w f1 ps ins dup upd Hf1 Hps Hc1 Hcount).
    cbv zeta in Hrun1.
    set (w1 := finish _ _ _) in Hrun1.
    assert (Hlook : tbl_files (session w1) !! file_id f2 = Some f1).
    { subst w1. unfold finish. wsimpl. rewrite Hid. apply lookup_insert_eq. }
    assert (Hrun2 := insert_files_single r w1 f2 ps 0 1 0 Hf2 Hps Hc2).
    rewrite Hlook in Hrun2. cbn [count] in Hrun2. rewrite Heq in Hrun2.
    specialize (Hrun2 eq_refl). cbv zeta in Hrun2.
    exists (file_id f1), f1, f2, w1. eexists.
    split. { by apply file_row_Some in Hf1 as (? & ? & ? & ? & ? & ? & ? & ? & ? & -> & _ & _
                                              & _ & _ & _ & _ & _ & _ & ->). }
    split; [done|]. split; [done|]. split; [done|]. split; [exact Hrun2|].
    unfold finish. wsimpl. rewrite Hid.
    split; [subst w1; unfold finish; wsimpl; apply lookup_insert_eq|].
    split; [apply lookup_insert_eq|]. split; [done|]. split; [done|].
    split; [|done].
    subst w1. unfold finish. wsimpl.
    by rewrite insert_delete_eq, insert_insert_eq, !dom_insert_L.
Qed.

Lemma file_messages_INFO (ins dup upd : nat) :
  Forall (λ m, m.1 = INFO) (file_messages ins dup upd).
Proof.
  unfold file_messages.
  destruct (0 <? ins)%nat, (0 <? upd)%nat, (0 <? dup)%nat; simpl; by repeat constructor.
Qed.

(** C7: a file record without a [contentProperties] block, valid otherwise,
    with the commit going through: [insert_files] returns, the row stored
    under the record's id has the checksum of the empty content and size 0,
    and all the call logs is at level INFO. *)
Theorem empty_file_default (r : RawNode) (w : World) :
  raw_contentProperties r = None → valid_file r →
  commit_fault (commits w) = None →
  ∃ id f w' msgs,
    raw_id r = Some id
    ∧ insert_files [r] w = (w', Return tt)
    ∧ tbl_files (committed w') !! id = Some f
    ∧ file_md5 f = "d41d8cd98f00b204e9800998ecf8427e" ∧ file_size f = 0%Z
    ∧ log w' = log w ++ msgs ∧ Forall (λ m, m.1 = INFO) msgs.
Proof.
  intros Hcp [Hrow [ps Hps]] Hfault.
  destruct (file_row_now r 0 (clock (ticks w)) Hrow) as [f Hf].
  destruct (count File_eq f (tbl_files (session w) !! file_id f) (0, 0, 0)%nat)
    as [[ins dup] upd] eqn:Hcount.
  assert (Hrun := insert_files_single r w f ps ins dup upd Hf Hps Hfault Hcount).
  cbv zeta in Hrun.
  apply file_row_Some in Hf
    as (id & name & cd & c & md & m & md5 & size & st & Hid & _ & _ & _ & _ & _
        & Hmd5 & Hsize & _ & Hfeq).
  rewrite Hcp in Hmd5, Hsize. cbn in Hmd5, Hsize.
  injection Hmd5 as <-. injection Hsize as <-.
  exists id, f. eexists. exists (file_messages ins dup upd).
  split; [done|]. split; [exact Hrun|]. unfold finish. wsimpl.
  split; [subst f; cbn [file_id]; apply lookup_insert_eq|].
  split; [by subst f|]. split; [by subst f|]. split; [done|].
  apply file_messages_INFO.
Qed.

(** C10: [insert_files] on a record without the [name] key raises
    [KeyError] and leaves the world as it was.  On a record whose
    [contentProperties] block is there but lacks [md5] or [size] it raises as
    well, again with the world untouched, a [KeyError] whenever the timestamps
    of the record parse.  [insert_folders] on a valid record without [name]
    stores a row without name. *)
Theorem insert_files_missing_key (r : RawNode) (w : World) :
  (raw_name r = None →
   ∃ k, insert_files [r] w = (w, Raise (KeyError k)) ∧ (k = "id" ∨ k = "name"))
  ∧ (∀ cp, raw_contentProperties r = Some cp →
       cp_md5 cp = None ∨ cp_size cp = None →
       (∃ e, insert_files [r] w = (w, Raise e))
       ∧ (timestamps_parse r →
          ∃ k, insert_files [r] w = (w, Raise (KeyError k))
               ∧ k ∈ ["id"; "name"; "createdDate"; "modifiedDate"; "md5"; "size"]))
  ∧ (raw_name r = None → valid_folder r → commit_fault (commits w) = None →
     ∃ id f w',
       raw_id r = Some id
       ∧ insert_folders [r] w = (w', Return tt)
       ∧ tbl_folders (committed w') !! id = Some f
       ∧ folder_name f = None).
Proof.
  assert (Hraise : ∀ e, insert_files_body r (0, 0, 0, [])%nat w = (w, Raise e) →
                        insert_files [r] w = (w, Raise e)).
  { intros e He. unfold insert_files.
    apply bind_Raise. by rewrite for_each_singleton. }
  split; [|split].
  - intros Hname.
    assert (∃ k, insert_files_body r (0, 0, 0, [])%nat w = (w, Raise (KeyError k))
                 ∧ (k = "id" ∨ k = "name")) as (k & Hk & Hor).
    { unfold insert_files_body.
      rewrite (bind_Return _ _ _ _ _ (contentProperties_default r w)). mred.
      destruct (raw_id r) as [id|]; [|by eauto]. rewrite Hname. by eauto. }
    exists k. split; [by apply Hraise | done].
  - intros cp Hcp Hmiss.
    assert (Hbody : ∃ e, insert_files_body r (0, 0, 0, [])%nat w = (w, Raise e)
                      ∧ (timestamps_parse r →
                         ∃ k, e = KeyError k
                              ∧ k ∈ ["id"; "name"; "createdDate"; "modifiedDate";
                                     "md5"; "size"])).
    { unfold insert_files_body, timestamps_parse.
      rewrite (bind_Return _ _ _ _ _ (contentProperties_default r w)). mred.
      rewrite Hcp. cbn [from_option id].
      destruct (raw_id r) as [id|];
        [|eexists; split; [done|]; intros _; eexists; split; [done|set_solver]].
      destruct (raw_name r) as [name|];
        [|eexists; split; [done|]; intros _; eexists; split; [done|set_solver]].
      destruct (raw_createdDate r) as [cd|]; cbn [from_option];
        [|eexists; split; [done|]; intros _; eexists; split; [done|set_solver]].
      destruct (iso_date_parse cd) as [c|];
        [|eexists; split; [done|]; by intros [Hn%is_Some_None _]].
      destruct (raw_modifiedDate r) as [md|]; cbn [from_option];
        [|eexists; split; [done|]; intros _; eexists; split; [done|set_solver]].
      destruct (iso_date_parse md) as [m|];
        [|eexists; split; [done|]; by intros [_ Hn%is_Some_None]].
      destruct (cp_md5 cp) as [md5|];
        [|eexists; split; [done|]; intros _; eexists; split; [done|set_solver]].
      destruct (cp_size cp) as [size|];
        [|eexists; split; [done|]; intros _; eexists; split; [done|set_solver]].
      by destruct Hmiss. }
    destruct Hbody as (e & He & Hkey). split.
    + exists e. by apply Hraise.
    + intros (k & -> & Hk)%Hkey. exists k. split; [by apply Hraise | done].
  - intros Hname [Hrow [ps Hps]] Hfault.
    destruct (folder_row_now r 0 (clock (ticks w)) Hrow) as [f Hf].
    destruct (count Folder_eq f (tbl_folders (session w) !! folder_id f) (0, 0, 0)%nat)
      as [[ins dup] upd] eqn:Hcount.
    assert (Hrun := insert_folders_single r w f ps ins dup upd Hf Hps Hfault Hcount).
    cbv zeta in Hrun.
    apply folder_row_Some in Hf as (id & cd & c & md & m & st & Hid & _ & _ & _ & _ & _ & Hfeq).
    exists id, f. eexists. split; [done|]. split; [exact Hrun|].
    unfold finish. wsimpl. subst f. cbn [folder_id folder_name].
    split; [apply lookup_insert_eq | done].
Qed.

(** *** What a round of the loop leaves alone *)

Lemma tables_keyed_insert_folder (s : Tables) (f : Folder) :
  tables_keyed s →
  tables_keyed (set_folders (<[folder_id f := f]> (tbl_folders s)) s).
Proof.
  intros [Hfo Hfi]. split; wsimpl; [|done].
  intros k f' [[<- <-]|[_ Hk]]%lookup_insert_Some; [done | by apply Hfo].
Qed.

Lemma tables_keyed_insert_file (s : Tables) (f : File) (m : gmap string File) :
  tables_keyed s → m ⊆ tbl_files s →
  tables_keyed (set_files (<[file_id f := f]> m) s).
Proof.
  intros [Hfo Hfi] Hm. split; wsimpl; [done|].
  intros k f' [[<- <-]|[_ Hk]]%lookup_insert_Some; [done|].
  apply Hfi. by eapply lookup_weaken.
Qed.

(** One round of the loop of [insert_folders], however it ends: it commits
    nothing, leaves the parentage table alone, keeps the rows of the session
    under their ids, and what it raises is a [KeyError], the [ValueError]
    of the parser, or what the flush before its query met. *)
Lemma insert_folders_body_frame (r : RawNode) (acc : tally) (w w' : World)
    (o : outcome tally) :
  insert_folders_body r acc w = (w', o) →
  committed w' = committed w ∧ parentage w' = parentage w
  ∧ commits w' = commits w
  ∧ (tables_keyed (session w) → tables_keyed (session w'))
  ∧ match o with
    | Raise e => e = ValueError ∨ is_KeyError e = true ∨ flush_fault w = Some e
    | Return _ => True
    end.
Proof.
  destruct acc as [[[ins dup] upd] pp]. unfold insert_folders_body. mred.
  destruct (raw_id r) as [id|]; [|intros [= <- <-]; wsimpl; auto 10].
  destruct (raw_createdDate r) as [cd|]; [|intros [= <- <-]; wsimpl; auto 10].
  destruct (iso_date_parse cd) as [c|]; [|intros [= <- <-]; wsimpl; auto 10].
  destruct (raw_modifiedDate r) as [md|]; [|intros [= <- <-]; wsimpl; auto 10].
  destruct (iso_date_parse md) as [m|]; [|intros [= <- <-]; wsimpl; auto 10].
  destruct (raw_status r) as [st|]; [|intros [= <- <-]; wsimpl; auto 10].
  rewrite flush_fault_set_log.
  destruct (flush_fault w) as [e|]; [intros [= <- <-]; wsimpl; auto 10|].
  wsimpl.
  assert (Hk : ∀ f, folder_id f = id → tables_keyed (session w) →
                    tables_keyed (set_folders (<[id := f]> (tbl_folders (session w)))
                                              (session w))).
  { intros f <-. apply tables_keyed_insert_folder. }
  destruct (tbl_folders (session w) !! id) as [ef|];
    [destruct (Folder_eq _ ef)|];
    destruct (raw_parents r) as [ps|]; intros [= <- <-]; wsimpl;
    (split; [done|]); (split; [done|]); (split; [done|]);
    (split; [by apply Hk | auto]).
Qed.

Lemma insert_files_body_frame (r : RawNode) (acc : tally) (w w' : World)
    (o : outcome tally) :
  insert_files_body r acc w = (w', o) →
  committed w' = committed w ∧ parentage w' = parentage w
  ∧ commits w' = commits w ∧ log w' = log w
  ∧ (tables_keyed (session w) → tables_keyed (session w'))
  ∧ match o with
    | Raise e => e = ValueError ∨ is_KeyError e = true ∨ flush_fault w = Some e
    | Return _ => True
    end.
Proof.
  destruct acc as [[[ins dup] upd] pp]. unfold insert_files_body.
  rewrite (bind_Return _ _ _ _ _ (contentProperties_default r w)). mred.
  destruct (raw_id r) as [id|]; [|intros [= <- <-]; wsimpl; auto 10].
  destruct (raw_name r) as [name|]; [|intros [= <- <-]; wsimpl; auto 10].
  destruct (raw_createdDate r) as [cd|]; [|intros [= <- <-]; wsimpl; auto 10].
  destruct (iso_date_parse cd) as [c|]; [|intros [= <- <-]; wsimpl; auto 10].
  destruct (raw_modifiedDate r) as [md|]; [|intros [= <- <-]; wsimpl; auto 10].
  destruct (iso_date_parse md) as [m|]; [|intros [= <- <-]; wsimpl; auto 10].
  destruct (cp_md5 _) as [md5|]; [|intros [= <- <-]; wsimpl; auto 10].
  destruct (cp_size _) as [size|]; [|intros [= <- <-]; wsimpl; auto 10].
  destruct (raw_status r) as [st|]; [|intros [= <- <-]; wsimpl; auto 10].
  destruct (flush_fault w) as [e|]; [intros [= <- <-]; wsimpl; auto 10|].
  wsimpl.
  assert (Hk : ∀ f m', file_id f = id → m' ⊆ tbl_files (session w) →
                       tables_keyed (session w) →
                       tables_keyed (set_files (<[id := f]> m') (session w))).
  { intros f m' <-. intros Hm Hkeyed. by apply tables_keyed_insert_file. }
  destruct (tbl_files (session w) !! id) as [ef|];
    [destruct (File_eq _ ef)|];
    destruct (raw_parents r) as [ps|]; intros [= <- <-]; wsimpl;
    (split; [done|]); (split; [done|]); (split; [done|]); (split; [done|]);
    (split; [|auto]); intros Hkeyed; apply Hk; try done; apply delete_subseteq.
Qed.

(** The same for the whole loop.  What the loop raises is a [KeyError], a
    [ValueError], or what the storage layer fails the transaction for, met by
    a flush; the last only when the world is not [quiet]. *)
Lemma insert_folders_loop_frame (rs : list RawNode) (acc : tally) (w w' : World)
    (o : outcome tally) :
  for_each rs insert_folders_body acc w = (w', o) →
  committed w' = committed w ∧ parentage w' = parentage w
  ∧ commits w' = commits w
  ∧ (tables_keyed (session w) → tables_keyed (session w'))
  ∧ match o with
    | Raise e => e = ValueError ∨ is_KeyError e = true
                 ∨ (commit_fault (commits w) = Some e ∧ ¬ quiet w)
    | Return _ => True
    end.
Proof.
  revert acc w. induction rs as [|r rs IH]; intros acc w.
  - intros [= <- <-]. auto.
  - rewrite for_each_cons. unfold bind.
    destruct (insert_folders_body r acc w) as [w1 [acc1|e]] eqn:Hbody;
      apply insert_folders_body_frame in Hbody as (Hc & Hp & Hn & Hk & He).
    + intros (Hc' & Hp' & Hn' & Hk' & He')%IH.
      rewrite Hc', Hp', Hn'. repeat (split; [auto|]).
      destruct o as [a|e]; [done|]. unfold quiet in *. by rewrite Hn, Hc in He'.
    + intros [= <- <-]. repeat (split; [done|]).
      destruct He as [He|[He|He]]; [auto..|].
      right; right. by apply (flush_fault_loud w w).
Qed.

Lemma insert_files_loop_frame (rs : list RawNode) (acc : tally) (w w' : World)
    (o : outcome tally) :
  for_each rs insert_files_body acc w = (w', o) →
  committed w' = committed w ∧ parentage w' = parentage w
  ∧ commits w' = commits w ∧ log w' = log w
  ∧ (tables_keyed (session w) → tables_keyed (session w'))
  ∧ match o with
    | Raise e => e = ValueError ∨ is_KeyError e = true
                 ∨ (commit_fault (commits w) = Some e ∧ ¬ quiet w)
    | Return _ => True
    end.
Proof.
  revert acc w. induction rs as [|r rs IH]; intros acc w.
  - intros [= <- <-]. auto 10.
  - rewrite for_each_cons. unfold bind.
    destruct (insert_files_body r acc w) as [w1 [acc1|e]] eqn:Hbody;
      apply insert_files_body_frame in Hbody as (Hc & Hp & Hn & Hl & Hk & He).
    + intros (Hc' & Hp' & Hn' & Hl' & Hk' & He')%IH.
      rewrite Hc', Hp', Hn', Hl'. repeat (split; [auto|]).
      destruct o as [a|e]; [done|]. unfold quiet in *. by rewrite Hn, Hc in He'.
    + intros [= <- <-]. repeat (split; [done|]).
      destruct He as [He|[He|He]]; [auto..|].
      right; right. by apply (flush_fault_loud w w).
Qed.

(** A round whose query meets the failure at its flush: the exception leaves
    the loop before the row of the record goes to the session. *)
Lemma insert_folders_body_flush (r : RawNode) (acc : tally) (w : World) (e : exn) :
  is_Some (folder_row r 0) → flush_fault w = Some e →
  insert_folders_body r acc w = (set_log (log w ++ [(DEBUG, Repr r)]) w, Raise e).
Proof.
  intros [f (id & cd & cr & md & m & st & Hid & Hcd & Hcr & Hmd & Hm & Hst & _)%folder_row_Some]
         Hflush.
  destruct acc as [[[ins dup] upd] pp]. unfold insert_folders_body. mred.
  by rewrite Hid, Hcd, Hcr, Hmd, Hm, Hst, flush_fault_set_log, Hflush.
Qed.


(** On valid records the loop can only be left by what a flush meets. *)
Lemma insert_folders_loop_valid_raise (rs : list RawNode) (acc : tally) (w w' : World)
    (e : exn) :
  Forall valid_folder rs →
  for_each rs insert_folders_body acc w = (w', Raise e) →
  commit_fault (commits w) = Some e.
Proof.
  intros Hrs. revert acc w. induction Hrs as [|r rs [Hrow [ps Hps]] _ IH]; intros acc w.
  - discriminate.
  - destruct acc as [c pp]. rewrite for_each_cons.
    destruct (flush_fault w) as [e'|] eqn:Hflush.
    + rewrite (bind_Raise _ _ _ _ _ (insert_folders_body_flush r _ w e' Hrow Hflush)).
      intros [= _ <-]. by apply flush_fault_Some.
    + destruct (folder_row_now r 0 (clock (ticks w)) Hrow) as [f Hf].
      rewrite (bind_Return _ _ _ _ _ (insert_folders_body_run _ c pp _ _ _ Hf Hps Hflush)).
      intros Hrest. by apply IH in Hrest.
Qed.




(** A record that is not valid makes its round raise. *)
Lemma insert_folders_body_invalid (r : RawNode) (acc : tally) (w : World) :
  ¬ valid_folder r →
  ∃ w' e, insert_folders_body r acc w = (w', Raise e).
Proof.
  intros Hinvalid.
  destruct (insert_folders_body r acc w) as [w' [acc'|e]] eqn:Hbody; [|by eauto].
  destruct Hinvalid.
  apply insert_folders_body_inv in Hbody as (f & ps & Hf & Hps & _).
  split; [|by eauto]. by apply (folder_row_now r (clock (ticks w)) 0).
Qed.

Lemma insert_files_body_invalid (r : RawNode) (acc : tally) (w : World) :
  ¬ valid_file r →
  ∃ w' e, insert_files_body r acc w = (w', Raise e).
Proof.
  intros Hinvalid.
  destruct (insert_files_body r acc w) as [w' [acc'|e]] eqn:Hbody; [|by eauto].
  destruct Hinvalid.
  apply insert_files_body_inv in Hbody as (f & ps & Hf & Hps & _).
  split; [|by eauto]. by apply (file_row_now r (clock (ticks w)) 0).
Qed.

(** ** A commit that fails *)


End Upserters.

Lemma edge_set_after_upsert_witness :
  edges_of "F1" (parentage (@insert_folders sound_env [sample_folder] sample_world).1)
  = list_to_set ((λ p, (p, "F1")) <$> ["ROOT"]).
Proof.
  destruct (@edge_set_after_upsert sound_env [sample_folder] sample_world
              (@insert_folders sound_env [sample_folder] sample_world).1
              sample_folder "F1") as [_ Hsingle].
  - left. compute_done.
  - compute_done.
  - reflexivity.
  - apply Hsingle; [reflexivity|].
    intros r' Hr' _. by apply list_elem_of_singleton in Hr'.
Defined.

(** C1 as it was stated fails on a batch that holds two records of one id:
    [insert_folders] returns, and the rows of the child are the parents of
    both records, not those of either. *)
Lemma edge_set_exact_counterexample :
  let batch := [sample_folder; sample_folder_moved] in
  let out := @insert_folders sound_env batch empty_world in
  out.2 = Return tt
  ∧ sample_folder ∈ batch ∧ sample_folder_moved ∈ batch
  ∧ raw_id sample_folder = Some "F1" ∧ raw_id sample_folder_moved = Some "F1"
  ∧ raw_parents sample_folder = Some ["ROOT"]
  ∧ raw_parents sample_folder_moved = Some ["ELSEWHERE"]
  ∧ edges_of "F1" (parentage out.1) = {[ ("ROOT", "F1"); ("ELSEWHERE", "F1") ]}
  ∧ edges_of "F1" (parentage out.1) ≠ list_to_set ((λ p, (p, "F1")) <$> ["ROOT"])
  ∧ edges_of "F1" (parentage out.1) ≠ list_to_set ((λ p, (p, "F1")) <$> ["ELSEWHERE"]).
Proof. cbv zeta. repeat split; compute_done. Qed.



(** ** The dispatcher *)

Section Dispatcher.
Context `{Environment}.

Lemma set_log_twice l l' w : set_log l' (set_log l w) = set_log l' w.
Proof. done. Qed.

Lemma set_log_log w : set_log (log w) w = w.
Proof. by destruct w. Qed.

(** The loop of [insert_nodes] on records that have the keys it reads. *)
Lemma insert_nodes_loop (nodes fi fo : list RawNode) (w : World) :
  Forall classifiable nodes →
  for_each nodes insert_nodes_body (fi, fo) w
  = (set_log (log w ++ ((λ kind, (WARNING, unknown_kind kind)) <$> unknown_kinds nodes)) w,
     Return (fi ++ filter (of_kind "FILE") nodes, fo ++ filter (of_kind "FOLDER") nodes)).
Proof.
  intros Hnodes. revert fi fo w.
  induction Hnodes as [|r nodes [[st Hst] Hkind] _ IH]; intros fi fo w.
  - cbn. unfold ret. by rewrite !app_nil_r, set_log_log.
  - rewrite for_each_cons. unfold unknown_kinds. cbn [omap list_omap].
    rewrite !filter_cons.
    unfold bind at 1. unfold insert_nodes_body at 1.
    destruct r as [oid okind ost oname ocd omd ops ocp].
    cbn [raw_status raw_kind] in *. subst ost. mred.
    destruct (decide (st = "PENDING")) as [->|Hpending].
    + (* a pending record *)
      rewrite (bool_decide_true ("PENDING" = "PENDING")) by done.
      rewrite (bool_decide_true (Some "PENDING" = Some "PENDING")) by done.
      rewrite IH.
      rewrite !decide_False by (by intros [Hn _]). done.
    + rewrite (bool_decide_false (st = "PENDING")) by done.
      rewrite (bool_decide_false (Some st = Some "PENDING")) by congruence.
      destruct Hkind as [Hp|[kind ->]]; [congruence|].
      assert (Hnp : Some st ≠ Some "PENDING") by congruence.
      destruct (decide (kind = "FILE")) as [->|Hfile].
      { rewrite (bool_decide_true ("FILE" = "FILE")) by done.
        rewrite bool_decide_true by set_solver.
        rewrite IH. rewrite decide_True by done.
        rewrite decide_False by (by intros [_ [=]]).
        by rewrite <- app_assoc. }
      rewrite (bool_decide_false (kind = "FILE")) by done.
      destruct (decide (kind = "FOLDER")) as [->|Hfolder].
      { rewrite (bool_decide_true ("FOLDER" = "FOLDER")) by done.
        rewrite bool_decide_true by set_solver.
        rewrite IH. rewrite decide_False by (by intros [_ [=]]).
        rewrite decide_True by done.
        by rewrite <- app_assoc. }
      rewrite (bool_decide_false (kind = "FOLDER")) by done.
      rewrite !decide_False by (intros [_ [=]]; congruence).
      destruct (decide (kind = "ASSET")) as [->|Hasset].
      { rewrite (bool_decide_false ("ASSET" ≠ "ASSET")) by (intros Hn; by apply Hn).
        rewrite bool_decide_true by set_solver. by rewrite IH. }
      rewrite (bool_decide_true (kind ≠ "ASSET")) by done.
      rewrite bool_decide_false by set_solver.
      rewrite IH. wsimpl. rewrite set_log_twice, <- app_assoc. done.
Qed.

(** C4: on a batch whose records have the keys the dispatcher reads,
    [insert_nodes] is [insert_folders] on the records of kind FOLDER followed
    by [insert_files] on the records of kind FILE, pending records left out
    of both and each group in the order of the batch, after one warning for
    every record that is not pending and whose kind is none of FILE, FOLDER
    and ASSET.  On the mixed batch of a pending folder, an asset, a widget, a
    file and a folder the call returns, one folder row and one file row are
    stored, and the one warning logged is the one for the widget (with the
    sample parser and a storage layer that commits). *)
Theorem insert_nodes_spec (nodes : list RawNode) (w : World) :
  (Forall classifiable nodes →
   insert_nodes nodes w
   = bind (insert_folders (filter (of_kind "FOLDER") nodes))
          (λ _, insert_files (filter (of_kind "FILE") nodes))
          (set_log (log w ++ ((λ kind, (WARNING, unknown_kind kind))
                              <$> unknown_kinds nodes)) w))
  ∧ (let out := @insert_nodes sound_env sample_mixed_batch empty_world in
     out.2 = Return tt
     ∧ dom (tbl_folders (committed out.1)) = {[ "F1" ]}
     ∧ dom (tbl_files (committed out.1)) = {[ "f1" ]}
     ∧ size (tbl_folders (committed out.1)) + size (tbl_files (committed out.1)) = 2
     ∧ filter (λ m, m.1 = WARNING) (log out.1) = [(WARNING, unknown_kind "WIDGET")]).
Proof.
  split.
  - intros Hnodes. unfold insert_nodes.
    by rewrite (bind_Return _ _ _ _ _ (insert_nodes_loop nodes [] [] w Hnodes)).
  - cbv zeta. repeat split; compute_done.
Qed.

End Dispatcher.

Lemma insert_nodes_spec_witness :
  @insert_nodes sound_env sample_mixed_batch sample_world
  = bind (@insert_folders sound_env [sample_folder])
         (λ _, @insert_files sound_env [sample_file])
         (set_log [(WARNING, unknown_kind "WIDGET")] sample_world).
Proof.
  apply (proj1 (@insert_nodes_spec sound_env sample_mixed_batch sample_world)).
  compute_done.
Defined.

(** ** A single node *)

(** [insert_node] reads the kind only: on a FILE it is [insert_files], on a
    FOLDER [insert_folders], whatever the status. *)
Lemma insert_node_by_kind `{Environment} (node : RawNode) (w : World) :
  (raw_kind node = Some "FILE" → insert_node node w = insert_files [node] w)
  ∧ (raw_kind node = Some "FOLDER" → insert_node node w = insert_folders [node] w).
Proof.
  unfold insert_node, when. split; intros Hkind.
  - destruct (negb (truth node)); unfold bind at 1, ret;
      rewrite Hkind; unfold bind at 1, subscript, ret; done.
  - destruct (negb (truth node)); unfold bind at 1, ret;
      rewrite Hkind; unfold bind at 1, subscript, ret; done.
Qed.

(** C2, at the failing input: [insert_node] on a pending file, or on a
    pending folder, stores its row, where [insert_nodes] on the same record
    stores nothing. *)
Theorem insert_node_stores_pending :
  let file1 := @insert_node sound_env sample_pending_file empty_world in
  let filen := @insert_nodes sound_env [sample_pending_file] empty_world in
  let folder1 := @insert_node sound_env sample_pending_folder empty_world in
  let foldern := @insert_nodes sound_env [sample_pending_folder] empty_world in
  raw_status sample_pending_file = Some "PENDING"
  ∧ raw_status sample_pending_folder = Some "PENDING"
  ∧ file1.2 = Return tt ∧ filen.2 = Return tt
  ∧ folder1.2 = Return tt ∧ foldern.2 = Return tt
  ∧ file_status <$> tbl_files (committed file1.1) !! "f3" = Some "PENDING"
  ∧ tbl_files (committed filen.1) = ∅
  ∧ folder_status <$> tbl_folders (committed folder1.1) !! "F2" = Some "PENDING"
  ∧ tbl_folders (committed foldern.1) = ∅
  ∧ log filen.1 = [] ∧ log foldern.1 = [].
Proof. cbv zeta. repeat split; compute_done. Qed.

Lemma upsert_twice_witness :
  (∃ f1 f2 w1 w2,
     @insert_folders sound_env [sample_folder] empty_world = (w1, Return tt)
     ∧ @insert_folders sound_env [sample_folder] w1 = (w2, Return tt)
     ∧ tbl_folders (committed w1) !! "F1" = Some f1
     ∧ tbl_folders (committed w2) !! "F1" = Some f2
     ∧ Folder_eq f2 f1 = true
     ∧ log w2 = log w1 ++ [(DEBUG, Repr sample_folder);
                           (INFO, Text "1 duplicate folders not inserted.")])
  ∧ (∃ f1 f2 w1 w2,
       @insert_files sound_env [sample_file] empty_world = (w1, Return tt)
       ∧ @insert_files sound_env [sample_file] w1 = (w2, Return tt)
       ∧ tbl_files (committed w1) !! "f1" = Some f1
       ∧ tbl_files (committed w2) !! "f1" = Some f2
       ∧ File_eq f2 f1 = true
       ∧ log w2 = log w1 ++ [(INFO, Text "1 duplicate files not inserted.")]).
Proof.
  split.
  - destruct (proj1 (@upsert_twice sound_env sample_folder empty_world eq_refl eq_refl))
      as (id & f1 & f2 & w1 & w2 & Hid & _ & _ & H1 & H2 & Hl1 & Hl2 & Heq & _ & _ & Hlog);
      [compute_done|].
    injection Hid as <-. exists f1, f2, w1, w2. repeat split; assumption.
  - destruct (proj2 (@upsert_twice sound_env sample_file empty_world eq_refl eq_refl))
      as (id & f1 & f2 & w1 & w2 & Hid & _ & _ & H1 & H2 & Hl1 & Hl2 & Heq & _ & _ & Hlog);
      [compute_done|].
    injection Hid as <-. exists f1, f2, w1, w2. repeat split; assumption.
Defined.

Lemma empty_file_default_witness :
  ∃ f w',
    @insert_files sound_env [sample_empty_file] empty_world = (w', Return tt)
    ∧ tbl_files (committed w') !! "f2" = Some f
    ∧ file_md5 f = "d41d8cd98f00b204e9800998ecf8427e" ∧ file_size f = 0%Z.
Proof.
  destruct (@empty_file_default sound_env sample_empty_file empty_world)
    as (id & f & w' & msgs & Hid & Hrun & Hrow & Hmd5 & Hsize & _);
    [reflexivity | compute_done | reflexivity |].
  injection Hid as <-. exists f, w'. repeat split; assumption.
Defined.

Lemma insert_files_missing_key_witness :
  (∃ k, @insert_files sound_env [sample_nameless_file] sample_world
        = (sample_world, Raise (KeyError k)))
  ∧ (∃ k, @insert_files sound_env [sample_no_md5_file] sample_world
          = (sample_world, Raise (KeyError k)))
  ∧ (∃ f w', @insert_folders sound_env [sample_root] sample_world = (w', Return tt)
             ∧ tbl_folders (committed w') !! "ROOT" = Some f ∧ folder_name f = None).
Proof.
  split; [|split].
  - destruct (proj1 (@insert_files_missing_key sound_env sample_nameless_file sample_world))
      as (k & Hk & _); [reflexivity|].
    exists k. exact Hk.
  - destruct (proj1 (proj2 (@insert_files_missing_key sound_env sample_no_md5_file
                              sample_world))
                _ eq_refl (or_introl eq_refl)) as [_ Hkey].
    destruct Hkey as (k & Hk & _); [compute_done|].
    exists k. exact Hk.
  - destruct (proj2 (proj2 (@insert_files_missing_key sound_env sample_root sample_world)))
      as (id & f & w' & Hid & Hrun & Hrow & Hname);
      [reflexivity | compute_done | reflexivity |].
    injection Hid as <-. exists f, w'. repeat split; assumption.
Defined.

(** ** What the upserters leave alone *)

Section Frame.
Context `{Environment}.

(** X1: one record that is not valid makes the whole batch fail.  Whatever
    comes before it and whatever comes after, the upserter raises; it has
    then attempted no commit, stored no row and not touched the parentage
    table.  What it raises is a [KeyError], a [ValueError], or what the
    storage layer fails the transaction for, when a query inside the loop
    meets that at its flush; where no flush can fail, it is a [KeyError] or a
    [ValueError]. *)
Theorem upsert_aborts_on_invalid_record (pre post : list RawNode) (r : RawNode)
    (w : World) :
  (¬ valid_folder r →
   ∃ w' e, insert_folders (pre ++ r :: post) w = (w', Raise e)
           ∧ (e = ValueError ∨ is_KeyError e = true
              ∨ (commit_fault (commits w) = Some e ∧ ¬ quiet w))
           ∧ committed w' = committed w ∧ parentage w' = parentage w
           ∧ commits w' = commits w)
  ∧ (¬ valid_file r →
     ∃ w' e, insert_files (pre ++ r :: post) w = (w', Raise e)
             ∧ (e = ValueError ∨ is_KeyError e = true
                ∨ (commit_fault (commits w) = Some e ∧ ¬ quiet w))
             ∧ committed w' = committed w ∧ parentage w' = parentage w
             ∧ commits w' = commits w ∧ log w' = log w).
Proof.
  split; intros Hinvalid.
  - assert (∃ w' e, for_each (pre ++ r :: post) insert_folders_body (0, 0, 0, [])%nat w
                    = (w', Raise e)) as (w' & e & Hall).
    { rewrite for_each_app.
      destruct (for_each pre insert_folders_body (0, 0, 0, [])%nat w)
        as [w1 [acc1|e]] eqn:Hloop.
      - destruct (insert_folders_body_invalid r acc1 w1 Hinvalid) as (w' & e & Hbody).
        exists w', e. rewrite (bind_Return _ _ _ _ _ Hloop), for_each_cons.
        by apply bind_Raise.
      - exists w1, e. by apply bind_Raise. }
    exists w', e. split; [unfold insert_folders; by apply bind_Raise|].
    apply insert_folders_loop_frame in Hall as (Hc & Hp & Hn & _ & He). auto.
  - assert (∃ w' e, for_each (pre ++ r :: post) insert_files_body (0, 0, 0, [])%nat w
                    = (w', Raise e)) as (w' & e & Hall).
    { rewrite for_each_app.
      destruct (for_each pre insert_files_body (0, 0, 0, [])%nat w)
        as [w1 [acc1|e]] eqn:Hloop.
      - destruct (insert_files_body_invalid r acc1 w1 Hinvalid) as (w' & e & Hbody).
        exists w', e. rewrite (bind_Return _ _ _ _ _ Hloop), for_each_cons.
        by apply bind_Raise.
      - exists w1, e. by apply bind_Raise. }
    exists w', e. split; [unfold insert_files; by apply bind_Raise|].
    apply insert_files_loop_frame in Hall as (Hc & Hp & Hn & Hl & _ & He). auto 10.
Qed.

(** The upserters keep every row under its own id.  If the rows the
    session sees and the stored rows are keyed by their ids before the call,
    they are after it, however the call ends. *)
Theorem upsert_keeps_tables_keyed (rs : list RawNode) (w w' : World) (o : outcome unit) :
  tables_keyed (session w) → tables_keyed (committed w) →
  insert_folders rs w = (w', o) ∨ insert_files rs w = (w', o) →
  tables_keyed (session w') ∧ tables_keyed (committed w').
Proof.
  intros Hs Hc [Hrun|Hrun].
  - destruct (for_each rs insert_folders_body (0, 0, 0, [])%nat w)
      as [w1 [[[[ins dup] upd] pairs]|e]] eqn:Hloop.
    + rewrite (insert_folders_run _ _ _ _ _ _ _ Hloop) in Hrun.
      apply insert_folders_loop_frame in Hloop as (Hc1 & _ & _ & Hk & _).
      specialize (Hk Hs). rewrite <- Hc1 in Hc.
      destruct (commit_fault (commits w1)) as [e|]; [case_bool_decide|];
        injection Hrun as <- <-; unfold finish; wsimpl; done.
    + unfold insert_folders in Hrun. rewrite (bind_Raise _ _ _ _ _ Hloop) in Hrun.
      injection Hrun as <- <-.
      apply insert_folders_loop_frame in Hloop as (Hc1 & _ & _ & Hk & _).
      rewrite Hc1. auto.
  - destruct (for_each rs insert_files_body (0, 0, 0, [])%nat w)
      as [w1 [[[[ins dup] upd] pairs]|e]] eqn:Hloop.
    + rewrite (insert_files_run _ _ _ _ _ _ _ Hloop) in Hrun.
      apply insert_files_loop_frame in Hloop as (Hc1 & _ & _ & _ & Hk & _).
      specialize (Hk Hs). rewrite <- Hc1 in Hc.
      destruct (commit_fault (commits w1)) as [e|]; [case_bool_decide|];
        injection Hrun as <- <-; unfold finish; wsimpl; done.
    + unfold insert_files in Hrun. rewrite (bind_Raise _ _ _ _ _ Hloop) in Hrun.
      injection Hrun as <- <-.
      apply insert_files_loop_frame in Hloop as (Hc1 & _ & _ & _ & Hk & _).
      rewrite Hc1. auto.
Qed.

Lemma pairs_ids (rs : list RawNode) (pairs : list (string * list string)) :
  Forall2 (λ r pr, parent_pair r = Some pr) rs pairs →
  raw_id <$> rs = Some <$> pairs.*1.
Proof.
  induction 1 as [|r [c ps] rs pairs Hr _ IH]; [done|].
  cbn [fmap list_fmap]. rewrite <- IH. f_equal.
  unfold parent_pair in Hr. destruct (raw_id r); [|done].
  destruct (raw_parents r); [|done]. by injection Hr as -> _.
Qed.

Lemma pairs_functional (rs : list RawNode) (pairs pairs' : list (string * list string)) :
  Forall2 (λ r pr, parent_pair r = Some pr) rs pairs →
  Forall2 (λ r pr, parent_pair r = Some pr) rs pairs' →
  pairs = pairs'.
Proof.
  intros Hp. revert pairs'. induction Hp as [|r pr rs pairs Hr _ IH]; intros pairs' Hp'.
  - by apply Forall2_nil_inv_l in Hp'.
  - apply Forall2_cons_inv_l in Hp' as (pr' & pairs'' & Hr' & Hrest & ->).
    f_equal; [congruence | by apply IH].
Qed.

(** X2: an upserter that returns has not touched the parentage rows of any
    child that has no record in its batch. *)
Theorem upsert_keeps_other_edges (rs : list RawNode) (w w' : World) (c : string) :
  insert_folders rs w = (w', Return tt) ∨ insert_files rs w = (w', Return tt) →
  Some c ∉ raw_id <$> rs →
  edges_of c (parentage w') = edges_of c (parentage w).
Proof.
  intros Hrun Hc.
  assert (∃ pairs, Forall2 (λ r pr, parent_pair r = Some pr) rs pairs
                   ∧ parentage w' = insert_pairs pairs (delete_children pairs.*1 (parentage w)))
    as (pairs & Hrs & ->).
  { destruct Hrun as [Hrun|Hrun];
      [by apply insert_folders_parentage | by apply insert_files_parentage]. }
  apply edges_of_rewrite_other. intros Hin. apply Hc.
  rewrite (pairs_ids _ _ Hrs). apply list_elem_of_fmap. by exists c.
Qed.

Lemma rewrite_twice (pairs : list (string * list string)) (tx : gset (string * string)) :
  insert_pairs pairs (delete_children pairs.*1
    (insert_pairs pairs (delete_children pairs.*1 tx)))
  = insert_pairs pairs (delete_children pairs.*1 tx).
Proof.
  apply set_eq. intros e.
  rewrite !elem_of_insert_pairs, !elem_of_delete_children, elem_of_insert_pairs,
    elem_of_delete_children.
  split.
  - intros [[[Hin|Hnew] Hfresh]|Hnew]; [by left | | by right].
    destruct Hnew as (ps & Hps & _). destruct Hfresh.
    apply list_elem_of_fmap. by exists (e.2, ps).
  - intros [[Hin Hfresh]|Hnew]; [left | by right].
    split; [by left | done].
Qed.

(** X3: the rewrite of the parentage table is idempotent.  When a batch is
    given to an upserter twice and both calls return, the parentage table
    after the second call is the one after the first, whatever the commits
    did. *)
Theorem upsert_twice_same_edges (rs : list RawNode) (w w1 w2 : World) :
  (insert_folders rs w = (w1, Return tt) → insert_folders rs w1 = (w2, Return tt) →
   parentage w2 = parentage w1)
  ∧ (insert_files rs w = (w1, Return tt) → insert_files rs w1 = (w2, Return tt) →
     parentage w2 = parentage w1).
Proof.
  split; intros H1 H2.
  - apply insert_folders_parentage in H1 as (pairs & Hrs & Hp1).
    apply insert_folders_parentage in H2 as (pairs' & Hrs' & Hp2).
    rewrite Hp2, Hp1, <- (pairs_functional _ _ _ Hrs Hrs'). apply rewrite_twice.
  - apply insert_files_parentage in H1 as (pairs & Hrs & Hp1).
    apply insert_files_parentage in H2 as (pairs' & Hrs' & Hp2).
    rewrite Hp2, Hp1, <- (pairs_functional _ _ _ Hrs Hrs'). apply rewrite_twice.
Qed.

Lemma insert_folders_loop_ticks (rs : list RawNode) (acc acc' : tally) (w w' : World) :
  for_each rs insert_folders_body acc w = (w', Return acc') →
  ticks w' = ticks w + length rs.
Proof.
  revert acc w. induction rs as [|r rs IH]; intros acc w.
  - intros [= <- _]. simpl. lia.
  - rewrite for_each_cons. intros (w1 & acc1 & Hbody & Hrest)%bind_inv.
    destruct (insert_folders_body_inv _ _ _ _ _ Hbody) as (f & ps & Hrow & Hps & Hflush).
    destruct acc as [c pp].
    rewrite (insert_folders_body_run _ _ _ _ _ _ Hrow Hps Hflush) in Hbody.
    injection Hbody as <- _. apply IH in Hrest. rewrite Hrest. simpl. lia.
Qed.

Lemma insert_files_loop_ticks (rs : list RawNode) (acc acc' : tally) (w w' : World) :
  for_each rs insert_files_body acc w = (w', Return acc') →
  ticks w' = ticks w + length rs.
Proof.
  revert acc w. induction rs as [|r rs IH]; intros acc w.
  - intros [= <- _]. simpl. lia.
  - rewrite for_each_cons. intros (w1 & acc1 & Hbody & Hrest)%bind_inv.
    destruct (insert_files_body_inv _ _ _ _ _ Hbody) as (f & ps & Hrow & Hps & Hflush).
    destruct acc as [c pp].
    rewrite (insert_files_body_run _ _ _ _ _ _ Hrow Hps Hflush) in Hbody.
    injection Hbody as <- _. apply IH in Hrest. rewrite Hrest. simpl. lia.
Qed.

(** X4: an upserter that returns has read the clock once for every record of
    its batch and has attempted exactly one commit; after it the session
    holds no pending change. *)
Theorem upsert_clock_and_commit (rs : list RawNode) (w w' : World) :
  insert_folders rs w = (w', Return tt) ∨ insert_files rs w = (w', Return tt) →
  ticks w' = ticks w + length rs
  ∧ commits w' = S (commits w)
  ∧ session w' = committed w'.
Proof.
  intros [Hrun|Hrun].
  - assert (∃ w1 acc, for_each rs insert_folders_body (0, 0, 0, [])%nat w = (w1, Return acc))
      as (w1 & [[[ins dup] upd] pairs] & Hloop).
    { unfold insert_folders in Hrun. apply bind_inv in Hrun as (w1 & acc & Hloop & _). eauto. }
    rewrite (insert_folders_run _ _ _ _ _ _ _ Hloop) in Hrun.
    assert (Hticks := insert_folders_loop_ticks _ _ _ _ _ Hloop).
    apply insert_folders_loop_frame in Hloop as (_ & _ & Hn & _).
    destruct (commit_fault (commits w1)) as [e|]; [case_bool_decide; [|done]|];
      injection Hrun as <-; unfold finish; wsimpl; by rewrite Hn.
  - assert (∃ w1 acc, for_each rs insert_files_body (0, 0, 0, [])%nat w = (w1, Return acc))
      as (w1 & [[[ins dup] upd] pairs] & Hloop).
    { unfold insert_files in Hrun. apply bind_inv in Hrun as (w1 & acc & Hloop & _). eauto. }
    rewrite (insert_files_run _ _ _ _ _ _ _ Hloop) in Hrun.
    assert (Hticks := insert_files_loop_ticks _ _ _ _ _ Hloop).
    apply insert_files_loop_frame in Hloop as (_ & _ & Hn & _).
    destruct (commit_fault (commits w1)) as [e|]; [case_bool_decide; [|done]|];
      injection Hrun as <-; unfold finish; wsimpl; by rewrite Hn.
Qed.

End Frame.

(** ** Rows left pending *)

Section Pending.
Context `{Environment}.

(** [folder['parents']] is read after the row has gone to the session. *)
Lemma insert_folders_body_no_parents (r : RawNode) (c : nat * nat * nat)
    (pp : list (string * list string)) (w : World) (f : Folder) :
  folder_row r (clock (ticks w)) = Some f → raw_parents r = None →
  flush_fault w = None →
  insert_folders_body r (c, pp) w
  = (set_session (set_folders (<[folder_id f := f]> (tbl_folders (session w))) (session w))
       (set_ticks (S (ticks w)) (set_log (log w ++ [(DEBUG, Repr r)]) w)),
     Raise (KeyError "parents")).
Proof.
  intros (id & cd & cr & md & m & st & Hid & Hcd & Hcr & Hmd & Hm & Hst & ->)%folder_row_Some
         Hps Hflush.
  destruct c as [[ins dup] upd]. unfold insert_folders_body. mred.
  rewrite Hid, Hcd, Hcr, Hmd, Hm, Hst, flush_fault_set_log, Hflush. wsimpl.
  cbn [folder_id].
  destruct (tbl_folders (session w) !! id) as [ef|].
  - destruct (Folder_eq _ ef); rewrite Hps; reflexivity.
  - rewrite Hps. reflexivity.
Qed.

Lemma insert_files_body_no_parents (r : RawNode) (c : nat * nat * nat)
    (pp : list (string * list string)) (w : World) (f : File) :
  file_row r (clock (ticks w)) = Some f → raw_parents r = None →
  flush_fault w = None →
  insert_files_body r (c, pp) w
  = (set_session
       (set_files
          (<[file_id f := f]>
             match tbl_files (session w) !! file_id f with
             | Some ef => delete (file_id ef) (tbl_files (session w))
             | None => tbl_files (session w)
             end)
          (session w))
       (set_ticks (S (ticks w)) w),
     Raise (KeyError "parents")).
Proof.
  intros (id & name & cd & cr & md & m & md5 & size & st & Hid & Hname & Hcd & Hcr
          & Hmd & Hm & Hmd5 & Hsize & Hst & ->)%file_row_Some Hps Hflush.
  destruct c as [[ins dup] upd]. unfold insert_files_body.
  rewrite (bind_Return _ _ _ _ _ (contentProperties_default r w)).
  mred. rewrite Hid, Hname, Hcd, Hcr, Hmd, Hm, Hmd5, Hsize, Hst, Hflush. wsimpl.
  cbn [file_id].
  destruct (tbl_files (session w) !! id) as [ef|].
  - destruct (File_eq _ ef); rewrite Hps; reflexivity.
  - rewrite Hps. reflexivity.
Qed.

(** X5: a record that is complete but for its [parents] key makes the
    upserter raise [KeyError] only after its row has gone to the session,
    when the flush before its query raises nothing (which is so when nothing
    is pending, and when the storage layer lets the transaction through).
    Nothing is stored by that call; but the row stays pending, and the next
    commit, here the one of [set_checkpoint], stores it, with the parentage
    table as it was before the failed call. *)
Theorem missing_parents_leaves_pending_row (r : RawNode) (w : World) (cp : string) :
  raw_parents r = None → flush_fault w = None →
  (∀ f, folder_row r (clock (ticks w)) = Some f →
     ∃ w1, insert_folders [r] w = (w1, Raise (KeyError "parents"))
           ∧ committed w1 = committed w ∧ parentage w1 = parentage w
           ∧ tbl_folders (session w1) !! folder_id f = Some f
           ∧ (commit_fault (commits w) = None →
              ∃ w2, set_checkpoint cp w1 = (w2, Return tt)
                    ∧ tbl_folders (committed w2) !! folder_id f = Some f
                    ∧ parentage w2 = parentage w))
  ∧ (∀ f, file_row r (clock (ticks w)) = Some f →
       ∃ w1, insert_files [r] w = (w1, Raise (KeyError "parents"))
             ∧ committed w1 = committed w ∧ parentage w1 = parentage w
             ∧ tbl_files (session w1) !! file_id f = Some f
             ∧ (commit_fault (commits w) = None →
                ∃ w2, set_checkpoint cp w1 = (w2, Return tt)
                      ∧ tbl_files (committed w2) !! file_id f = Some f
                      ∧ parentage w2 = parentage w)).
Proof.
  intros Hps Hflush. split; intros f Hf.
  - assert (Hbody := insert_folders_body_no_parents r (0, 0, 0)%nat [] w f Hf Hps Hflush).
    rewrite <- for_each_singleton in Hbody.
    eexists. split; [unfold insert_folders; apply bind_Raise; exact Hbody|].
    wsimpl. split; [done|]. split; [done|]. split; [apply lookup_insert_eq|].
    intros Hfault. eexists. split.
    + apply set_checkpoint_commits. wsimpl. exact Hfault.
    + wsimpl. split; [apply lookup_insert_eq | done].
  - assert (Hbody := insert_files_body_no_parents r (0, 0, 0)%nat [] w f Hf Hps Hflush).
    rewrite <- for_each_singleton in Hbody.
    eexists. split; [unfold insert_files; apply bind_Raise; exact Hbody|].
    wsimpl. split; [done|]. split; [done|]. split; [apply lookup_insert_eq|].
    intros Hfault. eexists. split.
    + apply set_checkpoint_commits. wsimpl. exact Hfault.
    + wsimpl. split; [apply lookup_insert_eq | done].
Qed.

End Pending.

(** ** More on the dispatcher *)

Section Dispatch.
Context `{Environment}.

(** X6: [insert_nodes] classifies the whole batch before it stores anything.
    A record without the [status] key, or one that is not pending and has no
    [kind] key, makes it raise [KeyError] after the warnings for the records
    before it; no upserter has run then: but for the log the world is the one
    of before, also for the files and folders of the batch that are valid. *)
Theorem insert_nodes_aborts_on_missing_key (pre post : list RawNode) (r : RawNode)
    (w : World) :
  Forall classifiable pre →
  let w' := set_log (log w ++ ((λ kind, (WARNING, unknown_kind kind))
                               <$> unknown_kinds pre)) w in
  (raw_status r = None →
   insert_nodes (pre ++ r :: post) w = (w', Raise (KeyError "status")))
  ∧ (∀ st, raw_status r = Some st → st ≠ "PENDING" → raw_kind r = None →
     insert_nodes (pre ++ r :: post) w = (w', Raise (KeyError "kind"))).
Proof.
  intros Hpre w'.
  assert (Hloop := insert_nodes_loop pre [] [] w Hpre). fold w' in Hloop.
  assert (Hraise : ∀ k, (∀ acc, insert_nodes_body r acc w' = (w', Raise (KeyError k))) →
                        insert_nodes (pre ++ r :: post) w = (w', Raise (KeyError k))).
  { intros k Hbody. unfold insert_nodes. apply bind_Raise.
    rewrite for_each_app, (bind_Return _ _ _ _ _ Hloop), for_each_cons.
    apply bind_Raise, Hbody. }
  split.
  - intros Hst. apply Hraise. intros [fi fo].
    unfold insert_nodes_body. mred. by rewrite Hst.
  - intros st Hst Hnp Hkind. apply Hraise. intros [fi fo].
    unfold insert_nodes_body. mred. rewrite Hst.
    rewrite bool_decide_false by done. by rewrite Hkind.
Qed.

(** X7: what [insert_node] does with a node that is neither a file nor a
    folder.  Without the [kind] key it raises [KeyError], the empty dict
    included: the guard on a falsy node passes on and does not return.  An
    asset leaves the world as it is.  Any other kind adds one warning to the
    log and nothing else. *)
Theorem insert_node_other_kinds (node : RawNode) (w : World) :
  (raw_kind node = None → insert_node node w = (w, Raise (KeyError "kind")))
  ∧ (raw_kind node = Some "ASSET" → insert_node node w = (w, Return tt))
  ∧ (∀ kind, raw_kind node = Some kind → kind ∉ ["FILE"; "FOLDER"; "ASSET"] →
     insert_node node w
     = (set_log (log w ++ [(WARNING, unknown_kind kind)]) w, Return tt)).
Proof.
  unfold insert_node, when.
  split; [|split].
  - intros Hkind. destruct (negb (truth node)); mred; by rewrite Hkind.
  - intros Hkind. destruct (negb (truth node)); mred; by rewrite Hkind.
  - intros kind Hkind Hother.
    assert (kind ≠ "FILE" ∧ kind ≠ "FOLDER" ∧ kind ≠ "ASSET") as (Hfi & Hfo & Has)
      by set_solver.
    destruct (negb (truth node)); mred; rewrite Hkind;
      rewrite (bool_decide_false (kind = "FILE")) by done;
      rewrite (bool_decide_false (kind = "FOLDER")) by done;
      by rewrite (bool_decide_true (kind ≠ "ASSET")) by done.
Qed.

Lemma finish_nothing (w : World) : finish [] [] w = w.
Proof.
  unfold finish, insert_pairs, delete_children. cbn [fmap list_fmap foldl].
  rewrite app_nil_r. by destruct w.
Qed.

(** The upserters on the empty batch. *)
Lemma insert_folders_nil (w : World) :
  commit_fault (commits w) = None →
  insert_folders [] w
  = (set_commits (S (commits w)) (set_committed (session w) w), Return tt).
Proof.
  intros Hfault.
  rewrite (insert_folders_run [] w w 0 0 0 [] eq_refl), Hfault.
  change (folder_messages 0 0 0) with (@nil LogRecord). by rewrite finish_nothing.
Qed.

Lemma insert_files_nil (w : World) :
  commit_fault (commits w) = None →
  insert_files [] w
  = (set_commits (S (commits w)) (set_committed (session w) w), Return tt).
Proof.
  intros Hfault.
  rewrite (insert_files_run [] w w 0 0 0 [] eq_refl), Hfault.
  change (file_messages 0 0 0) with (@nil LogRecord). by rewrite finish_nothing.
Qed.

(** X8: a batch that holds only pending records and assets, the empty batch
    included, is not skipped: [insert_nodes] still runs both upserters on
    empty lists.  With both commits going through it logs nothing and leaves
    the parentage table alone, but it attempts two commits, and whatever was
    pending in the session is stored. *)
Theorem insert_nodes_nothing_to_insert (nodes : list RawNode) (w : World) :
  Forall (λ r, raw_status r = Some "PENDING"
               ∨ (is_Some (raw_status r) ∧ raw_kind r = Some "ASSET")) nodes →
  commit_fault (commits w) = None → commit_fault (S (commits w)) = None →
  insert_nodes nodes w
  = (set_commits (S (S (commits w))) (set_committed (session w) w), Return tt).
Proof.
  intros Hnodes Hc1 Hc2.
  assert (Hfi : filter (of_kind "FILE") nodes = []).
  { clear -Hnodes. induction Hnodes as [|r rs Hr _ IH]; [done|]. rewrite filter_cons, IH.
    rewrite decide_False; [done|]. intros [Hnp Hk].
    destruct Hr as [Hp|[_ Hk']]; congruence. }
  assert (Hfo : filter (of_kind "FOLDER") nodes = []).
  { clear -Hnodes. induction Hnodes as [|r rs Hr _ IH]; [done|]. rewrite filter_cons, IH.
    rewrite decide_False; [done|]. intros [Hnp Hk].
    destruct Hr as [Hp|[_ Hk']]; congruence. }
  assert (Hun : unknown_kinds nodes = []).
  { clear -Hnodes. unfold unknown_kinds. induction Hnodes as [|r rs Hr _ IH]; [done|].
    cbn [omap list_omap]. rewrite IH.
    destruct Hr as [Hp|[_ Hk]].
    - by rewrite bool_decide_true.
    - rewrite Hk. case_bool_decide; [done|].
      rewrite bool_decide_true by set_solver. done. }
  assert (Hclass : Forall classifiable nodes).
  { eapply Forall_impl; [exact Hnodes|]. intros r [Hp|[Hst Hk]]; split.
    - rewrite Hp. by eexists.
    - by left.
    - done.
    - right. rewrite Hk. by eexists. }
  unfold insert_nodes.
  rewrite (bind_Return _ _ _ _ _ (insert_nodes_loop nodes [] [] w Hclass)).
  rewrite Hfi, Hfo, Hun. cbn [app fmap list_fmap]. rewrite app_nil_r, set_log_log.
  rewrite (bind_Return _ _ _ _ _ (insert_folders_nil w Hc1)).
  by rewrite insert_files_nil.
Qed.

End Dispatch.

(** ** More on the purge handler *)

Section PurgeMore.
Context `{Environment}.

(** The loop of [remove_purged] moves nothing but the session, and is left
    early only by what the flush before a query meets. *)
Lemma remove_purged_loop_outcome (purged : list string) (w : World) :
  ∃ s' o,
    for_each purged (λ p_id _,
      n ← query_node p_id;
      match n with
      | Some n => session_delete n
      | None => ret tt
      end) tt w = (set_session s' w, o)
    ∧ match o with
      | Return _ => True
      | Raise e => commit_fault (commits w) = Some e
      end.
Proof.
  revert w. induction purged as [|p ps IH]; intros w.
  - exists (session w), (Return tt). by rewrite set_session_session.
  - rewrite for_each_cons.
    destruct (flush_fault w) as [e|] eqn:Hflush.
    + exists (session w), (Raise e). rewrite set_session_session.
      split; [|by apply flush_fault_Some].
      apply bind_Raise, bind_Raise. unfold query_node.
      apply bind_Raise. by apply autoflush_Some.
    + assert (∃ s1, bind (query_node p) (λ n, match n with
                                              | Some n => session_delete n
                                              | None => ret tt
                                              end) w
                    = (set_session s1 w, Return tt)) as [s1 Hstep].
      { rewrite (bind_Return _ _ _ _ _ (query_node_clean p w Hflush)).
        cbv beta iota delta [session_delete bind get_session put_session ret].
        destruct (tbl_folders (session w) !! p) as [f|]; [by eexists|].
        destruct (tbl_files (session w) !! p) as [f|]; cbn [fmap option_fmap option_map].
        - by eexists.
        - exists (session w). by rewrite set_session_session. }
      rewrite (bind_Return _ _ _ _ _ Hstep).
      destruct (IH (set_session s1 w)) as (s' & o & Hrest & Ho). exists s', o.
      by rewrite Hrest.
Qed.

(** X9: [remove_purged] has no handler around its commit.  When the commit
    raises, the exception reaches the caller, nothing has been stored or
    removed, and the message with the count is not logged. *)
Theorem remove_purged_commit_failure (purged : list string) (w : World) (e : exn) :
  commit_fault (commits w) = Some e →
  ∃ w', remove_purged purged w = (w', Raise e)
        ∧ committed w' = committed w ∧ log w' = log w
        ∧ parentage w' = parentage w.
Proof.
  intros Hfault.
  destruct (remove_purged_loop_outcome purged w) as (s' & [[]|e'] & Hloop & Ho).
  - eexists. split.
    + unfold remove_purged. rewrite (bind_Return _ _ _ _ _ Hloop).
      apply bind_Raise. unfold session_commit. wsimpl. by rewrite Hfault.
    + done.
  - rewrite Hfault in Ho. injection Ho as <-.
    eexists. split.
    + unfold remove_purged. apply bind_Raise. exact Hloop.
    + done.
Qed.

(** X10: insert, then purge.  A valid folder record is stored by
    [insert_folders] and its row is gone after [remove_purged] on its id;
    likewise for a file record and [insert_files], as long as no folder row
    has the id of the file.  Both commits are taken to go through. *)
Theorem insert_then_purge (r : RawNode) (id : string) (w : World) :
  raw_id r = Some id →
  commit_fault (commits w) = None → commit_fault (S (commits w)) = None →
  (valid_folder r →
   ∃ w1 w2, insert_folders [r] w = (w1, Return tt)
            ∧ is_Some (tbl_folders (committed w1) !! id)
            ∧ remove_purged [id] w1 = (w2, Return tt)
            ∧ tbl_folders (committed w2) !! id = None)
  ∧ (valid_file r → tbl_folders (session w) !! id = None →
     ∃ w1 w2, insert_files [r] w = (w1, Return tt)
              ∧ is_Some (tbl_files (committed w1) !! id)
              ∧ remove_purged [id] w1 = (w2, Return tt)
              ∧ tbl_files (committed w2) !! id = None).
Proof.
  intros Hid Hc1 Hc2. split.
  - intros [Hrow [ps Hps]].
    destruct (folder_row_now r 0 (clock (ticks w)) Hrow) as [f Hf].
    destruct (count Folder_eq f (tbl_folders (session w) !! folder_id f) (0, 0, 0)%nat)
      as [[ins dup] upd] eqn:Hcount.
    assert (Hrun := insert_folders_single r w f ps ins dup upd Hf Hps Hc1 Hcount).
    cbv zeta in Hrun.
    assert (Hfid : folder_id f = id).
    { apply folder_row_Some in Hf as (? & ? & ? & ? & ? & ? & Hid' & _ & _ & _ & _ & _ & ->).
      cbn. congruence. }
    rewrite Hfid in Hrun.
    eexists. eexists. split; [exact Hrun|].
    unfold finish. wsimpl. split; [rewrite lookup_insert_eq; by eexists|].
    unfold remove_purged. cbn [for_each].
    cbv beta iota delta [bind].
    rewrite query_node_clean by (by apply flush_fault_clean).
    cbv beta iota delta [bind get_session session_delete put_session ret
                         session_commit logger].
    wsimpl. rewrite lookup_insert_eq, Hfid. wsimpl. rewrite Hc2.
    split; [reflexivity|]. wsimpl. apply lookup_delete_eq.
  - intros [Hrow [ps Hps]] Hnofolder.
    destruct (file_row_now r 0 (clock (ticks w)) Hrow) as [f Hf].
    destruct (count File_eq f (tbl_files (session w) !! file_id f) (0, 0, 0)%nat)
      as [[ins dup] upd] eqn:Hcount.
    assert (Hrun := insert_files_single r w f ps ins dup upd Hf Hps Hc1 Hcount).
    cbv zeta in Hrun.
    assert (Hfid : file_id f = id).
    { apply file_row_Some in Hf as (? & ? & ? & ? & ? & ? & ? & ? & ? & Hid' & _ & _ & _ & _
                                    & _ & _ & _ & _ & ->).
      cbn. congruence. }
    rewrite Hfid in Hrun.
    eexists. eexists. split; [exact Hrun|].
    unfold finish. wsimpl. split; [rewrite lookup_insert_eq; by eexists|].
    unfold remove_purged. cbn [for_each].
    cbv beta iota delta [bind].
    rewrite query_node_clean by (by apply flush_fault_clean).
    cbv beta iota delta [bind get_session session_delete put_session ret
                         session_commit logger].
    wsimpl. rewrite Hnofolder, lookup_insert_eq. cbn [fmap option_fmap option_map].
    rewrite Hfid. wsimpl. rewrite Hc2.
    split; [reflexivity|]. wsimpl. apply lookup_delete_eq.
Qed.

End PurgeMore.

(** ** Batches of new nodes *)

Section Fresh.
Context `{Environment}.

Lemma folder_row_id (r : RawNode) (t : Z) (f : Folder) :
  folder_row r t = Some f → raw_id r = Some (folder_id f).
Proof.
  by intros (? & ? & ? & ? & ? & ? & -> & _ & _ & _ & _ & _ & ->)%folder_row_Some.
Qed.

Lemma file_row_id (r : RawNode) (t : Z) (f : File) :
  file_row r t = Some f → raw_id r = Some (file_id f).
Proof.
  by intros (? & ? & ? & ? & ? & ? & ? & ? & ? & -> & _ & _ & _ & _ & _ & _ & _ & _ & ->)%file_row_Some.
Qed.

(** The loop of [insert_folders] on valid records of distinct ids, none of
    which has a row: every round counts an insert and adds a row. *)
Lemma insert_folders_loop_fresh (rs : list RawNode) (ins dup upd : nat)
    (pp : list (string * list string)) (w : World) :
  Forall valid_folder rs → quiet w → NoDup (raw_id <$> rs) →
  (∀ id, Some id ∈ raw_id <$> rs → tbl_folders (session w) !! id = None) →
  ∃ w1 pairs,
    for_each rs insert_folders_body (ins, dup, upd, pp) w
    = (w1, Return (ins + length rs, dup, upd, pairs))
    ∧ size (tbl_folders (session w1)) = size (tbl_folders (session w)) + length rs
    ∧ log w1 = log w ++ ((λ r, (DEBUG, Repr r)) <$> rs).
Proof.
  intros Hvalid. revert ins pp w.
  induction Hvalid as [|r rs [Hrow [ps Hps]] _ IH]; intros ins pp w Hq Hnd Hfresh.
  - exists w, pp. cbn. unfold ret. rewrite Nat.add_0_r, app_nil_r. by rewrite !Nat.add_0_r.
  - cbn [fmap list_fmap] in Hnd, Hfresh. apply NoDup_cons in Hnd as [Hnotin Hnd].
    destruct (folder_row_now r 0 (clock (ticks w)) Hrow) as [f Hf].
    assert (Hid := folder_row_id _ _ _ Hf).
    assert (Hnone : tbl_folders (session w) !! folder_id f = None).
    { apply Hfresh. rewrite Hid. by left. }
    rewrite for_each_cons.
    rewrite (bind_Return _ _ _ _ _ (insert_folders_body_run r (ins, dup, upd) pp w f ps Hf Hps
                  (flush_fault_quiet w w Hq eq_refl eq_refl))).
    rewrite Hnone. cbn [count].
    destruct (IH (S ins) (pp ++ [(folder_id f, ps)])
                (set_session
                   (set_folders (<[folder_id f := f]> (tbl_folders (session w))) (session w))
                   (set_ticks (S (ticks w)) (set_log (log w ++ [(DEBUG, Repr r)]) w))) Hq Hnd)
      as (w1 & pairs & Hrun & Hsize & Hlog).
    { intros id' Hin. wsimpl. rewrite lookup_insert_ne.
      - apply Hfresh. by right.
      - intros <-. apply Hnotin. by rewrite Hid. }
    exists w1, pairs. wsimpl in Hsize. wsimpl in Hlog.
    rewrite map_size_insert_None in Hsize by done.
    replace (ins + length (r :: rs)) with (S ins + length rs) by (cbn [length]; lia).
    split; [exact Hrun|].
    split; [cbn [length]; lia|].
    rewrite Hlog, <- app_assoc. done.
Qed.

Lemma insert_files_loop_fresh (rs : list RawNode) (ins dup upd : nat)
    (pp : list (string * list string)) (w : World) :
  Forall valid_file rs → quiet w → NoDup (raw_id <$> rs) →
  (∀ id, Some id ∈ raw_id <$> rs → tbl_files (session w) !! id = None) →
  ∃ w1 pairs,
    for_each rs insert_files_body (ins, dup, upd, pp) w
    = (w1, Return (ins + length rs, dup, upd, pairs))
    ∧ size (tbl_files (session w1)) = size (tbl_files (session w)) + length rs
    ∧ log w1 = log w.
Proof.
  intros Hvalid. revert ins pp w.
  induction Hvalid as [|r rs [Hrow [ps Hps]] _ IH]; intros ins pp w Hq Hnd Hfresh.
  - exists w, pp. cbn. unfold ret. by rewrite !Nat.add_0_r.
  - cbn [fmap list_fmap] in Hnd, Hfresh. apply NoDup_cons in Hnd as [Hnotin Hnd].
    destruct (file_row_now r 0 (clock (ticks w)) Hrow) as [f Hf].
    assert (Hid := file_row_id _ _ _ Hf).
    assert (Hnone : tbl_files (session w) !! file_id f = None).
    { apply Hfresh. rewrite Hid. by left. }
    rewrite for_each_cons.
    rewrite (bind_Return _ _ _ _ _ (insert_files_body_run r (ins, dup, upd) pp w f ps Hf Hps
                  (flush_fault_quiet w w Hq eq_refl eq_refl))).
    rewrite Hnone. cbn [count].
    destruct (IH (S ins) (pp ++ [(file_id f, ps)])
                (set_session
                   (set_files (<[file_id f := f]> (tbl_files (session w))) (session w))
                   (set_ticks (S (ticks w)) w)) Hq Hnd)
      as (w1 & pairs & Hrun & Hsize & Hlog).
    { intros id' Hin. wsimpl. rewrite lookup_insert_ne.
      - apply Hfresh. by right.
      - intros <-. apply Hnotin. by rewrite Hid. }
    exists w1, pairs. wsimpl in Hsize. wsimpl in Hlog.
    rewrite map_size_insert_None in Hsize by done.
    replace (ins + length (r :: rs)) with (S ins + length rs) by (cbn [length]; lia).
    split; [exact Hrun|].
    split; [cbn [length]; lia | done].
Qed.

(** X11: a batch of valid records with pairwise distinct ids, none of which
    has a row yet, with the commit going through: the upserter returns, the
    table has one row more for every record, and the one message at level
    INFO reports the length of the batch as the number of inserts. *)
Theorem new_nodes_are_inserted (rs : list RawNode) (w : World) :
  rs ≠ [] → NoDup (raw_id <$> rs) → commit_fault (commits w) = None →
  (Forall valid_folder rs →
   (∀ id, Some id ∈ raw_id <$> rs → tbl_folders (session w) !! id = None) →
   ∃ w', insert_folders rs w = (w', Return tt)
         ∧ size (tbl_folders (committed w')) = size (tbl_folders (session w)) + length rs
         ∧ log w' = log w ++ ((λ r, (DEBUG, Repr r)) <$> rs)
                    ++ [(INFO, Text (pretty (length rs) +:+ " folder(s) inserted."))])
  ∧ (Forall valid_file rs →
     (∀ id, Some id ∈ raw_id <$> rs → tbl_files (session w) !! id = None) →
     ∃ w', insert_files rs w = (w', Return tt)
           ∧ size (tbl_files (committed w')) = size (tbl_files (session w)) + length rs
           ∧ log w' = log w
                      ++ [(INFO, Text (pretty (length rs) +:+ " file(s) inserted."))]).
Proof.
  intros Hne Hnd Hfault.
  assert (Hpos : (0 <? length rs)%nat = true).
  { destruct rs; [done|]. reflexivity. }
  split; intros Hvalid Hfresh.
  - destruct (insert_folders_loop_fresh rs 0 0 0 [] w Hvalid (or_introl Hfault) Hnd Hfresh)
      as (w1 & pairs & Hloop & Hsize & Hlog).
    cbn [Nat.add] in Hloop.
    assert (Hrun := insert_folders_run _ _ _ _ _ _ _ Hloop).
    apply insert_folders_loop_frame in Hloop as (_ & _ & Hn & _).
    rewrite Hn, Hfault in Hrun.
    eexists. split; [exact Hrun|]. unfold finish, folder_messages. wsimpl.
    rewrite Hpos. split; [done|]. rewrite Hlog, <- app_assoc. done.
  - destruct (insert_files_loop_fresh rs 0 0 0 [] w Hvalid (or_introl Hfault) Hnd Hfresh)
      as (w1 & pairs & Hloop & Hsize & Hlog).
    cbn [Nat.add] in Hloop.
    assert (Hrun := insert_files_run _ _ _ _ _ _ _ Hloop).
    apply insert_files_loop_frame in Hloop as (_ & _ & Hn & _).
    rewrite Hn, Hfault in Hrun.
    eexists. split; [exact Hrun|]. unfold finish, file_messages. wsimpl.
    rewrite Hpos. split; [done|]. by rewrite Hlog.
Qed.

End Fresh.

(** ** The age of the cache after an upsert *)

Section Age.
Context `{Environment}.

Lemma max_age_newest (w : World) (T : Z) :
  flush_fault w = None →
  is_updated_of T (session w) →
  (∀ t, is_updated_of t (session w) → (t ≤ T)%Z) →
  max_age w = (set_ticks (S (ticks w)) w,
               Return (Float (true_div (clock (ticks w) - T) one_day))).
Proof.
  intros Hflush HT Hmax. rewrite (max_age_clean w Hflush).
  destruct (sql_max (updated_column (session w))) as [oldest|] eqn:Hsql.
  - destruct (sql_max_Some _ _ Hsql) as [Hin Hle].
    assert (oldest = T) as ->; [|done].
    apply Z.le_antisymm.
    + apply Hmax. by apply elem_of_updated_column.
    + apply Hle. by apply elem_of_updated_column.
  - apply sql_max_nil in Hsql. apply elem_of_updated_column in HT.
    rewrite Hsql in HT. by apply elem_of_nil in HT.
Qed.

Lemma is_updated_of_insert_folder (t : Z) (s : Tables) (f : Folder) (k : string) :
  is_updated_of t (set_folders (<[k := f]> (tbl_folders s)) s) →
  t = folder_updated f ∨ is_updated_of t s.
Proof.
  intros [(k' & f' & Hk & <-)|Hfile].
  - wsimpl in Hk. apply lookup_insert_Some in Hk as [[_ <-]|[_ Hk]]; [by left|].
    right. left. by exists k', f'.
  - right. by right.
Qed.

Lemma is_updated_of_insert_file (t : Z) (s : Tables) (f : File) (k : string)
    (m : gmap string File) :
  m ⊆ tbl_files s →
  is_updated_of t (set_files (<[k := f]> m) s) →
  t = file_updated f ∨ is_updated_of t s.
Proof.
  intros Hm [Hfolder|(k' & f' & Hk & <-)].
  - right. by left.
  - wsimpl in Hk. apply lookup_insert_Some in Hk as [[_ <-]|[_ Hk]]; [by left|].
    right. right. exists k', f'. split; [|done]. by eapply lookup_weaken.
Qed.

Lemma just_updated_not_from_the_future (w : World) :
  (∀ n, (clock n ≤ clock (S n))%Z) → just_updated w → not_from_the_future w.
Proof.
  intros Hmono [_ Hle] t Ht. specialize (Hle t Ht).
  destruct (ticks w) as [|n]; [done|]. cbn [pred] in Hle. specialize (Hmono n). lia.
Qed.

Lemma insert_folders_loop_age (rs : list RawNode) (acc acc' : tally) (w w1 : World) :
  (∀ n, (clock n ≤ clock (S n))%Z) →
  for_each rs insert_folders_body acc w = (w1, Return acc') →
  not_from_the_future w →
  not_from_the_future w1 ∧ (rs ≠ [] → just_updated w1).
Proof.
  intros Hmono. revert acc w. induction rs as [|r rs IH]; intros acc w.
  - intros [= <- _] Hw. by split.
  - rewrite for_each_cons. intros (wm & accm & Hbody & Hrest)%bind_inv Hw.
    destruct (insert_folders_body_inv _ _ _ _ _ Hbody) as (f & ps & Hrow & Hps & Hflush).
    destruct acc as [c pp].
    rewrite (insert_folders_body_run _ _ _ _ _ _ Hrow Hps Hflush) in Hbody.
    injection Hbody as <- _.
    assert (Hupd : folder_updated f = clock (ticks w)).
    { by apply folder_row_Some in Hrow as (? & ? & ? & ? & ? & ? & _ & _ & _ & _ & _ & _ & ->). }
    match type of Hrest with for_each _ _ _ ?x = _ => set (wmid := x) in * end.
    assert (Hjust : just_updated wmid).
    { split; subst wmid; wsimpl; cbn [pred].
      - left. exists (folder_id f), f. wsimpl. by rewrite lookup_insert_eq.
      - intros t [->|Ht]%is_updated_of_insert_folder; [lia | by apply Hw]. }
    destruct (IH _ _ Hrest (just_updated_not_from_the_future _ Hmono Hjust)) as [Hnf Hj].
    split; [done|]. intros _.
    destruct rs as [|r' rs]; [|by apply Hj].
    by injection Hrest as <- _.
Qed.

Lemma insert_files_loop_age (rs : list RawNode) (acc acc' : tally) (w w1 : World) :
  (∀ n, (clock n ≤ clock (S n))%Z) →
  for_each rs insert_files_body acc w = (w1, Return acc') →
  not_from_the_future w →
  not_from_the_future w1 ∧ (rs ≠ [] → just_updated w1).
Proof.
  intros Hmono. revert acc w. induction rs as [|r rs IH]; intros acc w.
  - intros [= <- _] Hw. by split.
  - rewrite for_each_cons. intros (wm & accm & Hbody & Hrest)%bind_inv Hw.
    destruct (insert_files_body_inv _ _ _ _ _ Hbody) as (f & ps & Hrow & Hps & Hflush).
    destruct acc as [c pp].
    rewrite (insert_files_body_run _ _ _ _ _ _ Hrow Hps Hflush) in Hbody.
    injection Hbody as <- _.
    assert (Hupd : file_updated f = clock (ticks w)).
    { by apply file_row_Some in Hrow as (? & ? & ? & ? & ? & ? & ? & ? & ? & _ & _ & _ & _ & _
                                         & _ & _ & _ & _ & ->). }
    match type of Hrest with for_each _ _ _ ?x = _ => set (wmid := x) in * end.
    assert (Hjust : just_updated wmid).
    { split; subst wmid; wsimpl; cbn [pred].
      - right. exists (file_id f), f. wsimpl. by rewrite lookup_insert_eq.
      - intros t [->|Ht]%is_updated_of_insert_file; [lia | by apply Hw |].
        destruct (tbl_files (session w) !! file_id f); [apply delete_subseteq | done]. }
    destruct (IH _ _ Hrest (just_updated_not_from_the_future _ Hmono Hjust)) as [Hnf Hj].
    split; [done|]. intros _.
    destruct rs as [|r' rs]; [|by apply Hj].
    by injection Hrest as <- _.
Qed.

(** X12: the age of the cache right after an upsert.  With a clock that never
    runs backwards and a cache that holds no row newer than the clock, when
    an upserter has returned from a batch that is not empty and its commit
    went through, [max_age] returns the float nearest to the time between
    its own reading of the clock and the one the upserter made for the last
    record of the batch, in days. *)
Theorem max_age_after_upsert (rs : list RawNode) (w w' : World) :
  rs ≠ [] → (∀ n, (clock n ≤ clock (S n))%Z) → not_from_the_future w →
  commit_fault (commits w) = None →
  insert_folders rs w = (w', Return tt) ∨ insert_files rs w = (w', Return tt) →
  max_age w'
  = (set_ticks (S (ticks w')) w',
     Return (Float (true_div (clock (ticks w') - clock (pred (ticks w'))) one_day))).
Proof.
  intros Hne Hmono Hw Hfault Hrun.
  assert (Hjust : just_updated w' ∧ session w' = committed w');
    [|destruct Hjust as [[? ?] ?]; by apply max_age_newest; [apply flush_fault_clean| |]].
  destruct Hrun as [Hrun|Hrun].
  - assert (∃ w1 acc, for_each rs insert_folders_body (0, 0, 0, [])%nat w = (w1, Return acc))
      as (w1 & [[[ins dup] upd] pairs] & Hloop).
    { unfold insert_folders in Hrun. apply bind_inv in Hrun as (w1 & acc & Hloop & _). eauto. }
    rewrite (insert_folders_run _ _ _ _ _ _ _ Hloop) in Hrun.
    destruct (insert_folders_loop_age _ _ _ _ _ Hmono Hloop Hw) as [_ Hj].
    specialize (Hj Hne).
    apply insert_folders_loop_frame in Hloop as (_ & _ & Hn & _).
    rewrite Hn, Hfault in Hrun. injection Hrun as <-. split; [exact Hj | reflexivity].
  - assert (∃ w1 acc, for_each rs insert_files_body (0, 0, 0, [])%nat w = (w1, Return acc))
      as (w1 & [[[ins dup] upd] pairs] & Hloop).
    { unfold insert_files in Hrun. apply bind_inv in Hrun as (w1 & acc & Hloop & _). eauto. }
    rewrite (insert_files_run _ _ _ _ _ _ _ Hloop) in Hrun.
    destruct (insert_files_loop_age _ _ _ _ _ Hmono Hloop Hw) as [_ Hj].
    specialize (Hj Hne).
    apply insert_files_loop_frame in Hloop as (_ & _ & Hn & _).
    rewrite Hn, Hfault in Hrun. injection Hrun as <-. split; [exact Hj | reflexivity].
Qed.

End Age.

(** ** The properties above on the sample data *)

Lemma upsert_aborts_on_invalid_record_witness :
  (∃ w' e, @insert_folders sound_env [sample_folder; sample_anonymous; sample_root]
             sample_world = (w', Raise e)
           ∧ (e = ValueError ∨ is_KeyError e = true)
           ∧ committed w' = committed sample_world
           ∧ parentage w' = parentage sample_world)
  ∧ (∃ w' e, @insert_files sound_env [sample_file; sample_nameless_file; sample_empty_file]
               sample_world = (w', Raise e)
             ∧ (e = ValueError ∨ is_KeyError e = true)
             ∧ committed w' = committed sample_world
             ∧ parentage w' = parentage sample_world)
  ∧ (∃ w' e, @insert_folders (conflicting_env IntegrityError)
               [sample_clash_folder; sample_orphan_folder] sample_world = (w', Raise e)
             ∧ committed w' = committed sample_world
             ∧ parentage w' = parentage sample_world
             ∧ commits w' = commits sample_world).
Proof.
  split; [|split].
  - destruct (proj1 (@upsert_aborts_on_invalid_record sound_env [sample_folder]
                       [sample_root] sample_anonymous sample_world))
      as (w' & e & Hrun & He & Hc & Hp & _); [compute_done |].
    exists w', e. split; [exact Hrun|]. split; [|exact (conj Hc Hp)].
    destruct He as [He|[He|[_ Hq]]]; [by left | by right |].
    destruct Hq. by left.
  - destruct (proj2 (@upsert_aborts_on_invalid_record sound_env [sample_file]
                       [sample_empty_file] sample_nameless_file sample_world))
      as (w' & e & Hrun & He & Hc & Hp & _); [compute_done |].
    exists w', e. split; [exact Hrun|]. split; [|exact (conj Hc Hp)].
    destruct He as [He|[He|[_ Hq]]]; [by left | by right |].
    destruct Hq. by left.
  - destruct (proj1 (@upsert_aborts_on_invalid_record (conflicting_env IntegrityError)
                       [sample_clash_folder] [] sample_orphan_folder sample_world))
      as (w' & e & Hrun & _ & Hc & Hp & Hn); [compute_done |].
    exists w', e. exact (conj Hrun (conj Hc (conj Hp Hn))).
Defined.

Lemma upsert_keeps_tables_keyed_witness :
  tables_keyed (session (@insert_files sound_env [sample_file; sample_empty_file]
                           sample_world).1)
  ∧ tables_keyed (committed (@insert_files sound_env [sample_file; sample_empty_file]
                               sample_world).1).
Proof.
  apply (@upsert_keeps_tables_keyed sound_env [sample_file; sample_empty_file] sample_world
           _ (@insert_files sound_env [sample_file; sample_empty_file] sample_world).2).
  - compute_done.
  - compute_done.
  - right. apply surjective_pairing.
Defined.

Lemma upsert_keeps_other_edges_witness :
  edges_of "f1" (parentage (@insert_folders sound_env [sample_folder] sample_world).1)
  = edges_of "f1" (parentage sample_world).
Proof.
  apply (@upsert_keeps_other_edges sound_env [sample_folder] sample_world).
  - left. compute_done.
  - compute_done.
Defined.

Lemma upsert_twice_same_edges_witness :
  let w1 := (@insert_folders sound_env [sample_folder; sample_root] sample_world).1 in
  let w2 := (@insert_folders sound_env [sample_folder; sample_root] w1).1 in
  parentage w2 = parentage w1.
Proof.
  cbv zeta.
  apply (proj1 (@upsert_twice_same_edges sound_env [sample_folder; sample_root]
                  sample_world _ _)); compute_done.
Defined.

Lemma upsert_clock_and_commit_witness :
  let w' := (@insert_files sound_env [sample_file; sample_empty_file] sample_world).1 in
  ticks w' = 2 ∧ commits w' = 1 ∧ session w' = committed w'.
Proof.
  cbv zeta.
  apply (@upsert_clock_and_commit sound_env [sample_file; sample_empty_file] sample_world).
  right. compute_done.
Defined.

Lemma missing_parents_leaves_pending_row_witness :
  ∃ f w1 w2,
    @insert_folders sound_env [sample_orphan_folder] empty_world
    = (w1, Raise (KeyError "parents"))
    ∧ committed w1 = committed empty_world
    ∧ @set_checkpoint sound_env "X" w1 = (w2, Return tt)
    ∧ tbl_folders (committed w2) !! "F9" = Some f
    ∧ parentage w2 = ∅.
Proof.
  destruct (proj1 (@missing_parents_leaves_pending_row sound_env sample_orphan_folder
                     empty_world "X" eq_refl eq_refl)
              {| folder_id := "F9"; folder_name := Some "lost";
                 folder_created := 1425204000000000;
                 folder_modified := 1425290400000000;
                 folder_status := "AVAILABLE"; folder_updated := 1425300000000000 |}
              eq_refl)
    as (w1 & Hrun & Hc & _ & _ & Hnext).
  destruct (Hnext eq_refl) as (w2 & Hset & Hrow & Hpar).
  eexists _, w1, w2. exact (conj Hrun (conj Hc (conj Hset (conj Hrow Hpar)))).
Defined.

Lemma insert_nodes_aborts_on_missing_key_witness :
  @insert_nodes sound_env [sample_widget; sample_statusless; sample_folder] sample_world
  = (set_log [(WARNING, unknown_kind "WIDGET")] sample_world, Raise (KeyError "status")).
Proof.
  apply (proj1 (@insert_nodes_aborts_on_missing_key sound_env [sample_widget]
                  [sample_folder] sample_statusless sample_world ltac:(compute_done))).
  reflexivity.
Defined.

Lemma insert_node_other_kinds_witness :
  @insert_node sound_env empty_dict sample_world
  = (sample_world, Raise (KeyError "kind"))
  ∧ @insert_node sound_env sample_asset sample_world = (sample_world, Return tt)
  ∧ @insert_node sound_env sample_widget sample_world
    = (set_log [(WARNING, unknown_kind "WIDGET")] sample_world, Return tt).
Proof.
  split; [|split].
  - apply (@insert_node_other_kinds sound_env empty_dict sample_world). reflexivity.
  - apply (@insert_node_other_kinds sound_env sample_asset sample_world). reflexivity.
  - apply (proj2 (proj2 (@insert_node_other_kinds sound_env sample_widget sample_world))
             "WIDGET"); [reflexivity | compute_done].
Defined.

Lemma insert_nodes_nothing_to_insert_witness :
  @insert_nodes sound_env [sample_pending_file; sample_asset] sample_world
  = (set_commits 2 sample_world, Return tt).
Proof.
  apply (@insert_nodes_nothing_to_insert sound_env [sample_pending_file; sample_asset]
           sample_world); [|reflexivity|reflexivity].
  apply Forall_cons. split; [left; reflexivity|].
  apply Forall_cons. split; [right; split; [by eexists | reflexivity]|].
  apply Forall_nil_2.
Defined.

Lemma remove_purged_commit_failure_witness :
  ∃ w', @remove_purged (faulty_env IntegrityError) ["F1"] sample_world
        = (w', Raise IntegrityError)
        ∧ committed w' = committed sample_world ∧ log w' = [].
Proof.
  destruct (@remove_purged_commit_failure (faulty_env IntegrityError) ["F1"] sample_world
              IntegrityError eq_refl) as (w' & Hrun & Hc & Hl & _).
  exists w'. exact (conj Hrun (conj Hc Hl)).
Defined.

Lemma insert_then_purge_witness :
  (∃ w1 w2, @insert_folders sound_env [sample_folder] empty_world = (w1, Return tt)
            ∧ is_Some (tbl_folders (committed w1) !! "F1")
            ∧ @remove_purged sound_env ["F1"] w1 = (w2, Return tt)
            ∧ tbl_folders (committed w2) !! "F1" = None)
  ∧ (∃ w1 w2, @insert_files sound_env [sample_file] empty_world = (w1, Return tt)
              ∧ is_Some (tbl_files (committed w1) !! "f1")
              ∧ @remove_purged sound_env ["f1"] w1 = (w2, Return tt)
              ∧ tbl_files (committed w2) !! "f1" = None).
Proof.
  split.
  - apply (@insert_then_purge sound_env sample_folder "F1" empty_world);
      [reflexivity | reflexivity | reflexivity | compute_done].
  - apply (@insert_then_purge sound_env sample_file "f1" empty_world);
      [reflexivity | reflexivity | reflexivity | compute_done | reflexivity].
Defined.

Lemma new_nodes_are_inserted_witness :
  ∃ w', @insert_folders sound_env [sample_folder; sample_root] empty_world
        = (w', Return tt)
        ∧ size (tbl_folders (committed w')) = 2
        ∧ log w' = [(DEBUG, Repr sample_folder); (DEBUG, Repr sample_root);
                    (INFO, Text "2 folder(s) inserted.")].
Proof.
  apply (proj1 (@new_nodes_are_inserted sound_env [sample_folder; sample_root] empty_world
                  ltac:(discriminate) ltac:(compute_done) eq_refl)).
  - compute_done.
  - intros id _. apply lookup_empty.
Defined.

Lemma max_age_after_upsert_witness :
  let w' := (@insert_folders sound_env [sample_folder] sample_world).1 in
  @max_age sound_env w'
  = (set_ticks 2 w',
     Return (Float {| significand := 6832127434707241; exponent := -69 |})).
Proof.
  cbv zeta.
  apply (@max_age_after_upsert sound_env [sample_folder] sample_world).
  - discriminate.
  - intros n. unfold clock, sound_env, sample_clock. lia.
  - intros t [(k & f & Hk & <-)|(k & f & Hk & <-)];
      cbn [sample_world session sample_tables tbl_folders tbl_files] in Hk;
      apply lookup_singleton_Some in Hk as [_ <-]; by vm_compute.
  - reflexivity.
  - left. compute_done.
Defined.
